(** * A shallow embedding of the Go package [webdriver] (fedesog/webdriver)

    The package launches a browser driver (chromedriver, or Firefox with the
    WebDriver extension installed into a temporary profile) and talks to it
    with the JSON Wire Protocol.  This development embeds

    - the protocol transport and the error classifier of [webdriver.go]
      ([parseError], [CommandError.Error], [newRequest], [do], [doInternal]),
    - the helpers of [common.go] ([probePort], [runBrowser]),
    - the Firefox supervisor of [firefoxdriver.go] ([createTempProfile],
      [Start], [Stop]),
    - both revisions of the chromedriver supervisor of [chromedriver.go],
    - [SetLogPath] and [NewSession] of the drivers, [newSession] of
      [webdriver.go], and commands of [session.go] ([Delete],
      [Screenshot], the IME commands, [FocusOnFrame], [FindElements],
      [SendKeys], [SendKeysOnActiveElement]) with the loops over strings
      of [unicode/utf8] they rely on,

    and proves properties of them.  Calls into the Go standard library whose
    result depends on the outside world (the network, the file system, the
    clock, the child process) are oracles: fields of a record handed to the
    embedded function.  Part I holds the definitions, Part II the theorems. *)

From Stdlib Require Import ZArith DecimalString DecimalZ.
From stdpp Require Import gmap strings list.

Local Open Scope Z_scope.

(* ===================================================================== *)
(** * Part I: definitions                                                 *)
(* ===================================================================== *)

(** ** Go values the package manipulates *)

Module Go.

(** A Go [[]byte] and a Go [string] are both byte sequences. *)
Definition bytes := string.

(** [strconv.Itoa], and the verb [%d] of [fmt.Sprintf]. *)
Definition Itoa (z : Z) : string := NilZero.string_of_int (Z.to_int z).

(** The range of Go's [int] on the 64-bit platforms the package targets. *)
Definition inInt (z : Z) : bool := (- 2 ^ 63 <=? z) && (z <? 2 ^ 63).

(** The empty string and the one-byte string holding a double quote. *)
Definition empty : string := EmptyString.
Definition dquote : string := String (Ascii.ascii_of_nat 34) EmptyString.
Definition newline : string := String (Ascii.ascii_of_nat 10) EmptyString.

Definition inCutset (cutset : string) (c : Ascii.ascii) : bool :=
  existsb (Ascii.eqb c) (String.list_ascii_of_string cutset).

Fixpoint trimLeftList (cutset : string) (l : list Ascii.ascii) : list Ascii.ascii :=
  match l with
  | [] => []
  | c :: r => if inCutset cutset c then trimLeftList cutset r else l
  end.

(** [bytes.Trim(s, cutset)]: drop the leading and the trailing bytes that
    occur in [cutset]. *)
Definition Trim (s : bytes) (cutset : string) : bytes :=
  let l := trimLeftList cutset (String.list_ascii_of_string s) in
  String.string_of_list_ascii (rev (trimLeftList cutset (rev l))).

Definition toLower (c : Ascii.ascii) : Ascii.ascii :=
  let n := Ascii.nat_of_ascii c in
  if (65 <=? n)%nat && (n <=? 90)%nat then Ascii.ascii_of_nat (n + 32) else c.

(** The two runes outside ASCII that Unicode's simple case folding puts
    with an ASCII letter: U+017F (long s, the bytes C5 BF) with [s], and
    U+212A (the Kelvin sign, the bytes E2 84 AA) with [k].  In a string
    that is UTF-8 those bytes occur as these runes only. *)
Fixpoint foldRunes (l : list Ascii.ascii) : list Ascii.ascii :=
  match l with
  | [] => []
  | c0 :: l1 =>
      match l1 with
      | [] => [c0]
      | c1 :: l2 =>
          if Nat.eqb (Ascii.nat_of_ascii c0) 197 && Nat.eqb (Ascii.nat_of_ascii c1) 191
          then Ascii.ascii_of_nat 115 :: foldRunes l2
          else
            match l2 with
            | [] => c0 :: foldRunes l1
            | c2 :: l3 =>
                if Nat.eqb (Ascii.nat_of_ascii c0) 226 && Nat.eqb (Ascii.nat_of_ascii c1) 132
                   && Nat.eqb (Ascii.nat_of_ascii c2) 170
                then Ascii.ascii_of_nat 107 :: foldRunes l3
                else c0 :: foldRunes l1
            end
      end
  end.

(** [bytes.EqualFold] when one of the two is an ASCII name: equality up to
    the case of letters, under Unicode's simple folding. *)
Definition EqualFold (a b : string) : bool :=
  String.eqb
    (String.string_of_list_ascii
       (map toLower (foldRunes (String.list_ascii_of_string a))))
    (String.string_of_list_ascii
       (map toLower (foldRunes (String.list_ascii_of_string b)))).

(** [strings.Contains]-style containment, as a proposition. *)
Definition Contains (s sub : string) : Prop :=
  ∃ pre post : string, s = pre +:+ sub +:+ post.

End Go.

(** ** Parsed JSON, and how [encoding/json] stores it into the package's structs *)

Module Json.

(** A JSON text after parsing.  A number literal that is an integer
    literal is [JInt]; any other number literal (fraction, exponent) is
    [JReal] and keeps its text. *)
#[warnings="-register-all"]
Inductive json : Type :=
| JNull
| JBool (b : bool)
| JInt (n : Z)
| JReal (lit : string)
| JString (s : string)
| JArray (elems : list json)
| JObject (members : list (string * json)).

(** The field an object key selects among the fields of a struct, given
    with their names: an exact match of a name is preferred, a match
    under case folding is accepted ([statuscode] selects [StatusCode], and
    so does that key with a long s for its [s]). *)
Definition findField {F : Type} (fields : list (string * F)) (key : string) : option F :=
  match find (λ nf, String.eqb key nf.1) fields with
  | Some nf => Some nf.2
  | None => snd <$> find (λ nf, Go.EqualFold key nf.1) fields
  end.

(** Storing a JSON value into an [int] field.  The boolean reports an
    [UnmarshalTypeError]; the field is then left as it was.  [null] is a
    no-op. *)
Definition storeInt (v : json) (old : Z) : Z * bool :=
  match v with
  | JNull => (old, false)
  | JInt n => if Go.inInt n then (n, false) else (old, true)
  | _ => (old, true)
  end.

(** Storing a JSON value into a [string] field. *)
Definition storeString (v : json) (old : string) : string * bool :=
  match v with
  | JNull => (old, false)
  | JString s => (s, false)
  | _ => (old, true)
  end.

End Json.

(** ** webdriver.go: status codes, errors, the transport *)

Module Webdriver.
Import Json.

Definition Success : Z := 0.
Definition NoSuchDriver : Z := 6.
Definition NoSuchElement : Z := 7.
Definition NoSuchFrame : Z := 8.
Definition UnknownCommand : Z := 9.
Definition StaleElementReference : Z := 10.
Definition ElementNotVisible : Z := 11.
Definition InvalidElementState : Z := 12.
Definition UnknownError : Z := 13.
Definition ElementIsNotSelectable : Z := 15.
Definition JavaScriptError : Z := 17.
Definition XPathLookupError : Z := 19.
Definition Timeout : Z := 21.
Definition NoSuchWindow : Z := 23.
Definition InvalidCookieDomain : Z := 24.
Definition UnableToSetCookie : Z := 25.
Definition UnexpectedAlertOpen : Z := 26.
Definition NoAlertOpenError : Z := 27.
Definition ScriptTimeout : Z := 28.
Definition InvalidElementCoordinates : Z := 29.
Definition IMENotAvailable : Z := 30.
Definition IMEEngineActivationFailed : Z := 31.
Definition InvalidSelector : Z := 32.
Definition SessionNotCreatedException : Z := 33.
Definition MoveTargetOutOfBounds : Z := 34.

Definition statusCodeStrings : gmap Z string :=
  list_to_map
    [ (0, "The command executed successfully.");
      (6, "A session is either terminated or not started.");
      (7, "An element could not be located on the page using the given search parameters.");
      (8, "A request to switch to a frame could not be satisfied because the frame could not be found.");
      (9, "The requested resource could not be found, or a request was received using an HTTP method that is not supported by the mapped resource.");
      (10, "An element command failed because the referenced element is no longer attached to the DOM.");
      (11, "An element command could not be completed because the element is not visible on the page.");
      (12, "An element command could not be completed because the element is in an invalid state (e.g. attempting to click a disabled element).");
      (13, "An unknown server-side error occurred while processing the command.");
      (15, "An attempt was made to select an element that cannot be selected.");
      (17, "An error occurred while executing user supplied JavaScript.");
      (19, "An error occurred while searching for an element by XPath.");
      (21, "An operation did not complete before its timeout expired.");
      (23, "A request to switch to a different window could not be satisfied because the window could not be found.");
      (24, "An illegal attempt was made to set a cookie under a different domain than the current page.");
      (25, "A request to set a cookie's value could not be satisfied.");
      (26, "A modal dialog was open, blocking this operation.");
      (27, "An attempt was made to operate on a modal dialog when one was not open.");
      (28, "A script did not complete before its timeout expired.");
      (29, "The coordinates provided to an interactions operation are invalid.");
      (30, "IME was not available.");
      (31, "An IME engine could not be started.");
      (32, "Argument was an invalid selector (e.g. XPath/CSS).");
      (33, "A new session could not be created.");
      (34, "Target provided for a move action is out of bounds.") ].

Record StackFrame : Type := mkStackFrame {
  FileName : string;
  ClassName : string;
  MethodName : string;
  LineNumber : Z
}.

(** The source's field [Class] is spelled [Class_]: [Class] is reserved. *)
Record CommandError : Type := mkCommandError {
  StatusCode : Z;
  ErrorType : string;
  Message : string;
  Screen : string;
  Class_ : string;
  StackTrace : list StackFrame
}.

(** [func (e CommandError) Error() string] *)
Definition Error (e : CommandError) : string :=
  let m := ErrorType e in
  let m := if String.eqb m Go.empty then m else m +:+ ": " in
  if StatusCode e =? -1 then
    m +:+ "status code not specified"
  else
    match statusCodeStrings !! StatusCode e with
    | Some str => m +:+ (str +:+ ": " +:+ Message e)
    | None =>
        m +:+ ("unknown status code (" +:+ Go.Itoa (StatusCode e) +:+ "): "
               +:+ Message e)
    end.

(** Go's [error] values, as far as the package makes or forwards them:
    [errors.New msg], a [*CommandError], or an error returned by a library
    call ([net/http], [os], [encoding/json], ...). *)
Inductive error : Type :=
| errorsNew (msg : string)
| ofCommandError (e : CommandError)
| libError (msg : string).

(** [err.Error()] *)
Definition errorString (e : error) : string :=
  match e with
  | errorsNew msg => msg
  | ofCommandError ce => Error ce
  | libError msg => msg
  end.

(** A Go result pair [(v, err)]: the value when [err == nil], else the
    error. *)
Inductive result (A : Type) : Type :=
| Ok (a : A)
| Err (e : error).
Arguments Ok {A} a.
Arguments Err {A} e.

(** *** Decoding a JSON value into a [CommandError] *)

Inductive StackFrameField : Type :=
| fFileName | fClassName | fMethodName | fLineNumber.

Definition stackFrameFields : list (string * StackFrameField) :=
  [("FileName", fFileName); ("ClassName", fClassName);
   ("MethodName", fMethodName); ("LineNumber", fLineNumber)].

Definition storeStackFrameField (acc : StackFrame * bool) (kv : string * json)
  : StackFrame * bool :=
  let '(f, bad) := acc in
  match findField stackFrameFields kv.1 with
  | Some fFileName =>
      let '(x, b) := storeString kv.2 (FileName f) in
      (mkStackFrame x (ClassName f) (MethodName f) (LineNumber f), bad || b)
  | Some fClassName =>
      let '(x, b) := storeString kv.2 (ClassName f) in
      (mkStackFrame (FileName f) x (MethodName f) (LineNumber f), bad || b)
  | Some fMethodName =>
      let '(x, b) := storeString kv.2 (MethodName f) in
      (mkStackFrame (FileName f) (ClassName f) x (LineNumber f), bad || b)
  | Some fLineNumber =>
      let '(x, b) := storeInt kv.2 (LineNumber f) in
      (mkStackFrame (FileName f) (ClassName f) (MethodName f) x, bad || b)
  | None => acc
  end.

Definition zeroStackFrame : StackFrame := mkStackFrame Go.empty Go.empty Go.empty 0.

(** One array element stored into a fresh [StackFrame]. *)
Definition storeStackFrame (v : json) : StackFrame * bool :=
  match v with
  | JNull => (zeroStackFrame, false)
  | JObject members => fold_left storeStackFrameField members (zeroStackFrame, false)
  | _ => (zeroStackFrame, true)
  end.

(** Storing a JSON value into the [[]StackFrame] field: [null] makes the
    slice nil, an array replaces it element by element. *)
Definition storeStackTrace (v : json) (old : list StackFrame)
  : list StackFrame * bool :=
  match v with
  | JNull => ([], false)
  | JArray elems =>
      let rs := map storeStackFrame elems in
      (map fst rs, existsb snd rs)
  | _ => (old, true)
  end.

Inductive CommandErrorField : Type :=
| fStatusCode | fErrorType | fMessage | fScreen | fClass | fStackTrace.

(** The exported fields of [CommandError], in the order of the struct. *)
Definition commandErrorFields : list (string * CommandErrorField) :=
  [("StatusCode", fStatusCode); ("ErrorType", fErrorType); ("Message", fMessage);
   ("Screen", fScreen); ("Class", fClass); ("StackTrace", fStackTrace)].

(** One object member stored into the [CommandError].  The struct has no
    field tags, so a key selects the exported field of that name, case
    ignored: [StatusCode] and [ErrorType] included. *)
Definition storeCommandErrorField (acc : CommandError * bool) (kv : string * json)
  : CommandError * bool :=
  let '(e, bad) := acc in
  match findField commandErrorFields kv.1 with
  | Some fStatusCode =>
      let '(x, b) := storeInt kv.2 (StatusCode e) in
      (mkCommandError x (ErrorType e) (Message e) (Screen e) (Class_ e) (StackTrace e),
       bad || b)
  | Some fErrorType =>
      let '(x, b) := storeString kv.2 (ErrorType e) in
      (mkCommandError (StatusCode e) x (Message e) (Screen e) (Class_ e) (StackTrace e),
       bad || b)
  | Some fMessage =>
      let '(x, b) := storeString kv.2 (Message e) in
      (mkCommandError (StatusCode e) (ErrorType e) x (Screen e) (Class_ e) (StackTrace e),
       bad || b)
  | Some fScreen =>
      let '(x, b) := storeString kv.2 (Screen e) in
      (mkCommandError (StatusCode e) (ErrorType e) (Message e) x (Class_ e) (StackTrace e),
       bad || b)
  | Some fClass =>
      let '(x, b) := storeString kv.2 (Class_ e) in
      (mkCommandError (StatusCode e) (ErrorType e) (Message e) (Screen e) x (StackTrace e),
       bad || b)
  | Some fStackTrace =>
      let '(x, b) := storeStackTrace kv.2 (StackTrace e) in
      (mkCommandError (StatusCode e) (ErrorType e) (Message e) (Screen e) (Class_ e) x,
       bad || b)
  | None => acc
  end.

(** [json.Unmarshal(data, commandError)] once [data] has been parsed: the
    updated struct and whether an error is returned.  Members are stored
    in the order of the text; a type mismatch is remembered, the
    remaining members are still stored. *)
Definition unmarshalCommandError (parsed : option json) (e : CommandError)
  : CommandError * bool :=
  match parsed with
  | None => (e, true)
  | Some JNull => (e, false)
  | Some (JObject members) => fold_left storeCommandErrorField members (e, false)
  | Some _ => (e, true)
  end.

(** *** The response envelope *)

Record jsonResponse : Type := mkJsonResponse {
  RawSessionId : Go.bytes;
  Status : Z;
  RawValue : Go.bytes
}.

Definition zeroJsonResponse : jsonResponse := mkJsonResponse Go.empty 0 Go.empty.

(** *** HTTP requests and responses *)

(** [http.Header], a [map[string][]string].  [Add] and [Set] store under
    the canonical form of the key, which is why [Accept-charset] of the
    source appears as [Accept-Charset] in [newRequest]. *)
Definition Header_Add (k v : string) (h : gmap string (list string))
  : gmap string (list string) :=
  <[k := default [] (h !! k) ++ [v]]> h.

Definition Header_Set (k v : string) (h : gmap string (list string))
  : gmap string (list string) :=
  <[k := [v]]> h.

Record Request : Type := mkRequest {
  Method : string;
  URL : string;
  Header : gmap string (list string);
  Body : Go.bytes
}.

(** What the transport reads of an [http.Response]: the status code,
    [response.Location()] rendered with [String()], and
    [ioutil.ReadAll(response.Body)]. *)
Record Response : Type := mkResponse {
  RespStatusCode : Z;
  Location : result string;
  ReadAllBody : result Go.bytes
}.

(** The [params interface{}] argument of [do]: [nil], the empty map
    [map[string]interface{}{}] that [doInternal] substitutes for [nil], or
    another Go value. *)
Inductive Params (V : Type) : Type :=
| paramsNil
| paramsEmptyMap
| paramsValue (v : V).
Arguments paramsNil {V}.
Arguments paramsEmptyMap {V}.
Arguments paramsValue {V} v.

(** The library calls of the transport whose result the package does not
    determine. *)
Record Runtime : Type := mkRuntime {
  Value : Type;
  World : Type;
  (** [json.Marshal] of a caller-supplied value *)
  json_Marshal : Value → result Go.bytes;
  (** the JSON parser: [None] on a syntax error *)
  json_parse : Go.bytes → option json;
  (** [json.Unmarshal(buf, jr)] into a zero [jsonResponse]: the struct as
      the call leaves it, and whether [err != nil] *)
  json_Unmarshal_jsonResponse : Go.bytes → jsonResponse * bool;
  (** [http.NewRequest] fails on a URL that does not parse *)
  http_NewRequest : string → string → option error;
  (** [http.DefaultClient.Do] *)
  http_Do : Request → World → result Response * World;
  (** [fmt.Sprintf(urlFormat, urlParams...)] *)
  fmt_Sprintf : string → list Value → string
}.

(** [func parseError(c int, jr jsonResponse) error] *)
Definition parseError (rt : Runtime) (c : Z) (jr : jsonResponse) : CommandError :=
  let responseCodeError :=
    match c with
    | 200 => Go.empty
    | 400 => "400: Missing Command Parameters"
    | 404 => "404: Unknown command/Resource Not Found"
    | 405 => "405: Invalid Command Method"
    | 500 => "500: Failed Command"
    | 501 => "501: Unimplemented Command"
    | _ => "Unknown error"
    end in
  if Status jr =? 0 then
    mkCommandError (-1) responseCodeError Go.empty Go.empty Go.empty []
  else
    let commandError := mkCommandError (Status jr) responseCodeError Go.empty Go.empty Go.empty [] in
    let '(commandError, err) :=
      unmarshalCommandError (json_parse rt (RawValue jr)) commandError in
    if err then
      mkCommandError (StatusCode commandError) (ErrorType commandError)
        (RawValue jr) (Screen commandError) (Class_ commandError)
        (StackTrace commandError)
    else commandError.

(** [func isRedirect(response) bool] *)
Definition isRedirect (response : Response) : bool :=
  let r := RespStatusCode response in
  (r =? 302) || (r =? 303).

(** [func newRequest(method, url string, data []byte)], returning the
    request or an error. *)
Definition newRequest (rt : Runtime) (method url : string) (data : Go.bytes)
  : result Request :=
  match http_NewRequest rt method url with
  | Some err => Err err
  | None =>
      let header : gmap string (list string) := ∅ in
      let header :=
        if String.eqb method "POST"
        then Header_Add "Content-Type" "application/json;charset=utf-8" header
        else header in
      let header := Header_Set "Accept" "application/json" header in
      let header := Header_Set "Accept-Charset" "utf-8" header in
      Ok (mkRequest method url header data)
  end.

Record WebDriverCore : Type := mkWebDriverCore { url : string }.

(** The first block of [doInternal]: [jsonParams] stays nil unless the
    method is POST; a nil [params] is then replaced by the empty map,
    which marshals to the empty object. *)
Definition marshalParams (rt : Runtime) (params : Params (Value rt)) (method : string)
  : result Go.bytes :=
  if String.eqb method "POST" then
    match params with
    | paramsNil | paramsEmptyMap => Ok "{}"
    | paramsValue v => json_Marshal rt v
    end
  else Ok Go.empty.

(** What a call of the transport yields: the Go triple
    [(string, []byte, error)] ([None] when the embedding's recursion
    budget ran out), the world afterwards, and the requests handed to the
    HTTP client, oldest first. *)
Record Run (rt : Runtime) : Type := mkRun {
  returned : option (result (string * Go.bytes));
  world : World rt;
  sent : list Request
}.
Arguments mkRun {rt} _ _ _.
Arguments returned {rt} _.
Arguments world {rt} _.
Arguments sent {rt} _.

(** [func (w WebDriverCore) doInternal(params interface{}, method, url string)
    (string, []byte, error)].  The self-call that follows a redirect is
    the recursive call on [fuel]. *)
Fixpoint doInternal (rt : Runtime) (fuel : nat) (params : Params (Value rt))
    (method url : string) (σ : World rt) {struct fuel} : Run rt :=
  match fuel with
  | O => mkRun None σ []
  | S fuel' =>
      match marshalParams rt params method with
      | Err err => mkRun (Some (Err err)) σ []
      | Ok jsonParams =>
          match newRequest rt method url jsonParams with
          | Err err => mkRun (Some (Err err)) σ []
          | Ok request =>
              let '(answer, σ1) := http_Do rt request σ in
              match answer with
              | Err err => mkRun (Some (Err err)) σ1 [request]
              | Ok response =>
                  if String.eqb method "POST" && isRedirect response then
                    match Location response with
                    | Err err => mkRun (Some (Err err)) σ1 [request]
                    | Ok url' =>
                        let r := doInternal rt fuel' paramsNil "GET" url' σ1 in
                        mkRun (returned r) (world r) (request :: sent r)
                    end
                  else
                    match ReadAllBody response with
                    | Err err => mkRun (Some (Err err)) σ1 [request]
                    | Ok buf =>
                        let '(jr, err) := json_Unmarshal_jsonResponse rt buf in
                        if err && (RespStatusCode response =? 200) then
                          mkRun (Some (Err (errorsNew "error: response must be a JSON object")))
                            σ1 [request]
                        else if (RespStatusCode response >=? 400)
                                || negb (Status jr =? 0) then
                          mkRun (Some (Err (ofCommandError
                                   (parseError rt (RespStatusCode response) jr))))
                            σ1 [request]
                        else
                          let sessionId := Go.Trim (RawSessionId jr) ("{}" +:+ Go.dquote) in
                          mkRun (Some (Ok (sessionId, RawValue jr))) σ1 [request]
                    end
              end
          end
      end
  end.

(** [func (w WebDriverCore) do(params interface{}, method, urlFormat string,
    urlParams ...interface{}) (string, []byte, error)].  [doInternal]
    calls itself at most once (lemma [doInternal_fuel] of Part II), so a
    budget of two is the unbounded recursion of the source. *)
Definition do (rt : Runtime) (w : WebDriverCore) (params : Params (Value rt))
    (method urlFormat : string) (urlParams : list (Value rt)) (σ : World rt)
  : Run rt :=
  if negb (String.eqb method "GET") && negb (String.eqb method "POST")
     && negb (String.eqb method "DELETE")
  then mkRun (Some (Err (errorsNew ("invalid method: " +:+ method)))) σ []
  else
    let url := url w +:+ fmt_Sprintf rt urlFormat urlParams in
    doInternal rt 2 params method url σ.

End Webdriver.


(** ** The operating system, as the supervisors see it *)

Module Sys.
Import Webdriver.

(** An [*exec.Cmd]: [Process] is nil until [cmd.Start()] has succeeded. *)
Record Cmd : Type := mkCmd {
  Path : string;
  Args : list string;
  Env : list string;
  Process : option Z
}.

(** An entry of the extension archive ([*zip.File]). *)
Record ZipFile : Type := mkZipFile {
  Name : string;
  Open : option error;
  ReadAll : result Go.bytes;
  IsDir : bool
}.

(** A Firefox preference value, a Go [interface{}]: the three dynamic
    types [createTempProfile] accepts, and any other. *)
Inductive PrefValue : Type :=
| PBool (b : bool)
| PInt (n : Z)
| PString (s : string)
| POther (goType : string).

(** Durations are nanoseconds, as [time.Duration]. *)
Definition Second : Z := 1000000000.

(** The library calls of the supervisors.  A retry loop reads the clock
    and tries the network once per round, so those oracles take the round
    number. *)
Record System : Type := mkSystem {
  (** round [k] of the mutex-port loop: [net.Listen] succeeded *)
  lock_Listen : nat → bool;
  (** round [k] of the mutex-port loop: [time.Since(now)] *)
  lock_Since : nat → Z;
  (** [net.Listen] on a candidate port succeeded *)
  net_Listen : Z → bool;
  (** [ln.Close()] of the test listener on a candidate port *)
  ln_Close : Z → option error;
  (** round [k] of [probePort] on a port: [net.Dial] succeeded *)
  net_Dial : Z → nat → bool;
  (** [conn.Close()] of the probe connection *)
  conn_Close : option error;
  (** round [k] of [probePort]: [time.Since(now)] *)
  probe_Since : nat → Z;
  os_Environ : list string;
  cmd_StdoutPipe : option error;
  cmd_StderrPipe : option error;
  (** [cmd.Start()]: the process id, or the error *)
  cmd_Start : result Z;
  (** [os.OpenFile(name, flags, perm)], by file name *)
  os_OpenFile : string → option error;
  (** [os.Mkdir(name, perm)], by path; the record does not follow what the
      calls before have made *)
  os_Mkdir : string → option error;
  ioutil_TempDir : result string;
  filepath_Join : string → string → string;
  zip_OpenReader : string → result (list ZipFile);
  (** [xml.Unmarshal(buf, &installRDF)], then [installRDF.Description.Id] *)
  xml_Unmarshal_Id : Go.bytes → result string;
  (** [io.Copy(dst, rc)] into the file of that name *)
  io_Copy : string → option error;
  (** the order in which [range] visits a map of that many entries: the
      runtime draws, for each visit, which remaining entry comes next *)
  range_draws : list nat
}.

(** Actions on the outside world whose result the source discards. *)
Inductive Effect : Type :=
| Signal (pid : Z)
| CloseLog (name : string)
| RemoveAll (path : string).

(** The entry at position [i], and the list without it. *)
Fixpoint extract {A : Type} (i : nat) (l : list A) : option (A * list A) :=
  match l with
  | [] => None
  | x :: r =>
      match i with
      | O => Some (x, r)
      | S i' =>
          match extract i' r with
          | Some (y, r') => Some (y, x :: r')
          | None => None
          end
      end
  end.

(** The sequence [for k, v := range m] visits: every entry once, in an
    order the Go runtime picks. *)
Fixpoint visit {A : Type} (draws : list nat) (l : list A) : list A :=
  match draws with
  | [] => l
  | n :: draws' =>
      match extract (n mod (length l)) l with
      | Some (x, r) => x :: visit draws' r
      | None => l
      end
  end.

Definition range {V : Type} (sys : System) (m : gmap string V) : list (string * V) :=
  visit (range_draws sys) (map_to_list m).

End Sys.

(** ** common.go *)

Module Common.
Import Webdriver Sys.

(** [func probePort(port int, timeout time.Duration) error], from round
    [k] on.  [None]: the loop is still running when the budget ends. *)
Fixpoint probePort_from (sys : System) (fuel k : nat) (port timeout : Z)
  : option (option error) :=
  match fuel with
  | O => None
  | S fuel' =>
      if net_Dial sys port k then
        match conn_Close sys with
        | Some err => Some (Some err)
        | None => Some None
        end
      else if probe_Since sys k >? timeout then
        Some (Some (errorsNew "start failed: timeout expired"))
      else probePort_from sys fuel' (S k) port timeout
  end.

Definition probePort (sys : System) (fuel : nat) (port timeout : Z)
  : option (option error) :=
  probePort_from sys fuel 0 port timeout.

(** [cmd.Env = os.Environ()], then one [k=v] per entry of [env]. *)
Definition environment (sys : System) (env : list (string * string)) : list string :=
  os_Environ sys ++ map (λ kv, kv.1 +:+ "=" +:+ kv.2) env.

(** [func runBrowser(exePath string, switches []string,
    env map[string]string, logFilePath string)], returning the command,
    the log file and the error.  The two [io.Copy] goroutines are started
    and never joined; they do not show in the result. *)
Definition runBrowser (sys : System) (exePath : string) (switches : list string)
    (env : list (string * string)) (logFilePath : string)
  : result (Cmd * option string) :=
  let cmd := mkCmd exePath switches (environment sys env) None in
  match cmd_StdoutPipe sys with
  | Some err => Err err
  | None =>
      match cmd_StderrPipe sys with
      | Some err => Err err
      | None =>
          match cmd_Start sys with
          | Err err => Err err
          | Ok pid =>
              let cmd := mkCmd (Path cmd) (Args cmd) (Env cmd) (Some pid) in
              if negb (String.eqb logFilePath Go.empty) then
                match os_OpenFile sys logFilePath with
                | Some err => Err err
                | None => Ok (cmd, Some logFilePath)
                end
              else Ok (cmd, None)
          end
      end
  end.

End Common.

(** ** firefoxdriver.go *)

Module FirefoxDriver.
Import Webdriver Sys Common.

Record FirefoxDriver : Type := mkFirefoxDriver {
  core : WebDriverCore;
  Port : Z;
  LockPortTimeout : Z;
  StartTimeout : Z;
  LogFile : string;
  Prefs : gmap string PrefValue;
  DeleteProfileOnClose : bool;
  firefoxPath : string;
  xpiPath : string;
  profilePath : string;
  cmd : option Cmd;
  logFile : option string
}.

Definition setUrl (d : FirefoxDriver) (u : string) : FirefoxDriver :=
  mkFirefoxDriver (mkWebDriverCore u) (Port d) (LockPortTimeout d) (StartTimeout d)
    (LogFile d) (Prefs d) (DeleteProfileOnClose d) (firefoxPath d) (xpiPath d)
    (profilePath d) (cmd d) (logFile d).

Definition setPort (d : FirefoxDriver) (p : Z) : FirefoxDriver :=
  mkFirefoxDriver (core d) p (LockPortTimeout d) (StartTimeout d)
    (LogFile d) (Prefs d) (DeleteProfileOnClose d) (firefoxPath d) (xpiPath d)
    (profilePath d) (cmd d) (logFile d).

Definition setPrefs (d : FirefoxDriver) (m : gmap string PrefValue) : FirefoxDriver :=
  mkFirefoxDriver (core d) (Port d) (LockPortTimeout d) (StartTimeout d)
    (LogFile d) m (DeleteProfileOnClose d) (firefoxPath d) (xpiPath d)
    (profilePath d) (cmd d) (logFile d).

Definition setProfilePath (d : FirefoxDriver) (p : string) : FirefoxDriver :=
  mkFirefoxDriver (core d) (Port d) (LockPortTimeout d) (StartTimeout d)
    (LogFile d) (Prefs d) (DeleteProfileOnClose d) (firefoxPath d) (xpiPath d)
    p (cmd d) (logFile d).

Definition setCmd (d : FirefoxDriver) (c : option Cmd) : FirefoxDriver :=
  mkFirefoxDriver (core d) (Port d) (LockPortTimeout d) (StartTimeout d)
    (LogFile d) (Prefs d) (DeleteProfileOnClose d) (firefoxPath d) (xpiPath d)
    (profilePath d) c (logFile d).

Definition setLogFile (d : FirefoxDriver) (f : option string) : FirefoxDriver :=
  mkFirefoxDriver (core d) (Port d) (LockPortTimeout d) (StartTimeout d)
    (LogFile d) (Prefs d) (DeleteProfileOnClose d) (firefoxPath d) (xpiPath d)
    (profilePath d) (cmd d) f.

(** [func GetDefaultPrefs() map[string]interface{}] *)
Definition GetDefaultPrefs : gmap string PrefValue :=
  list_to_map
    [ ("browser.cache.disk.enable", PBool false);
      ("browser.cache.disk.capacity", PInt 0);
      ("browser.cache.memory.enable", PBool true);
      ("extensions.autoDisableScopes", PInt 10);
      ("signon.rememberSignons", PBool false);
      ("browser.EULA.3.accepted", PBool true);
      ("browser.EULA.override", PBool true);
      ("browser.startup.homepage", PString "about:blank");
      ("browser.startup.page", PInt 0);
      ("browser.startup.homepage_override.mstone", PString "ignore");
      ("browser.offline", PBool false);
      ("browser.shell.checkDefaultBrowser", PBool false);
      ("dom.disable_open_during_load", PBool false);
      ("network.http.phishy-userpass-length", PInt 255);
      ("security.warn_entering_secure", PBool false);
      ("security.warn_entering_secure.show_once", PBool false);
      ("security.warn_entering_weak", PBool false);
      ("security.warn_entering_weak.show_once", PBool false);
      ("security.warn_leaving_secure", PBool false);
      ("security.warn_leaving_secure.show_once", PBool false);
      ("security.warn_submit_insecure", PBool false);
      ("security.warn_submit_insecure.show_once", PBool false);
      ("security.warn_viewing_mixed", PBool false);
      ("security.warn_viewing_mixed.show_once", PBool false);
      ("toolkit.networkmanager.disable", PBool true);
      ("app.update.auto", PBool false);
      ("app.update.enabled", PBool false);
      ("extensions.update.enabled", PBool false);
      ("browser.search.update", PBool false);
      ("extensions.blocklist.enabled", PBool false);
      ("browser.safebrowsing.enabled", PBool false);
      ("browser.safebrowsing.malware.enabled", PBool false);
      ("browser.download.manager.showWhenStarting", PBool false);
      ("browser.sessionstore.resume_from_crash", PBool false);
      ("browser.tabs.warnOnClose", PBool false);
      ("browser.tabs.warnOnOpen", PBool false);
      ("devtools.errorconsole.enabled", PBool true);
      ("extensions.logging.enabled", PBool true);
      ("extensions.update.notifyUser", PBool false);
      ("network.manage-offline-status", PBool false);
      ("offline-apps.allow_by_default", PBool true);
      ("prompts.tab_modal.enabled", PBool false);
      ("security.fileuri.origin_policy", PInt 3);
      ("security.fileuri.strict_origin_policy", PBool false);
      ("toolkit.telemetry.prompted", PInt 2);
      ("toolkit.telemetry.enabled", PBool false);
      ("toolkit.telemetry.rejected", PBool true);
      ("browser.dom.window.dump.enabled", PBool true);
      ("dom.report_all_js_exceptions", PBool true);
      ("javascript.options.showInConsole", PBool true);
      ("network.http.max-connections-per-server", PInt 10);
      ("webdriver_accept_untrusted_certs", PBool true);
      ("webdriver_assume_untrusted_issuer", PBool true);
      ("webdriver_enable_native_events", PBool false);
      ("webdriver_unexpected_alert_behaviour", PString "dismiss") ].

(** [func NewFirefoxDriver(firefoxPath string, xpiPath string) *FirefoxDriver] *)
Definition NewFirefoxDriver (firefoxPath xpiPath : string) : FirefoxDriver :=
  mkFirefoxDriver (mkWebDriverCore Go.empty) 0 (60 * Second) (20 * Second)
    Go.empty GetDefaultPrefs true firefoxPath xpiPath Go.empty None None.

Definition cpferr : string := "create profile failed: ".
Definition weferr : string := "write extension failed: ".

(** The first loop of [createTempProfile]: the extension id of
    [install.rdf], or the empty name when the archive has no such entry. *)
Fixpoint findExtName (sys : System) (files : list ZipFile) : result string :=
  match files with
  | [] => Ok Go.empty
  | f :: rest =>
      if String.eqb (Name f) "install.rdf" then
        match Open f with
        | Some err => Err (errorsNew (cpferr +:+ errorString err))
        | None =>
            match ReadAll f with
            | Err err => Err (errorsNew (cpferr +:+ errorString err))
            | Ok buf =>
                match xml_Unmarshal_Id sys buf with
                | Err err => Err (errorsNew (cpferr +:+ errorString err))
                | Ok id =>
                    if String.eqb id Go.empty then
                      Err (errorsNew
                             (cpferr +:+ "unable to find extension Id from install.rdf"))
                    else Ok id
                end
            end
        end
      else findExtName sys rest
  end.

(** [func writeExtensionFile(f *zip.File, extPath string) error] *)
Definition writeExtensionFile (sys : System) (f : ZipFile) (extPath : string)
  : option error :=
  match Open f with
  | Some err => Some (errorsNew (weferr +:+ errorString err))
  | None =>
      let filename := filepath_Join sys extPath (Name f) in
      if IsDir f then os_Mkdir sys filename
      else
        match os_OpenFile sys filename with
        | Some err => Some (errorsNew (weferr +:+ errorString err))
        | None =>
            match io_Copy sys filename with
            | Some err => Some (errorsNew (weferr +:+ errorString err))
            | None => None
            end
        end
  end.

(** The second loop of [createTempProfile]. *)
Fixpoint writeExtensionFiles (sys : System) (files : list ZipFile) (extPath : string)
  : option error :=
  match files with
  | [] => None
  | f :: rest =>
      match writeExtensionFile sys f extPath with
      | Some err => Some err
      | None => writeExtensionFiles sys rest extPath
      end
  end.

(** The loop [for k, i := range prefs] of [createTempProfile] over the
    entries in the order visited: [written] is what [fuser.WriteString]
    has been handed so far (its errors are not looked at). *)
Fixpoint writePrefs (entries : list (string * PrefValue)) (written : string)
  : string * option error :=
  match entries with
  | [] => (written, None)
  | (k, i) :: rest =>
      let written := written +:+ ("user_pref(" +:+ Go.dquote +:+ k +:+ Go.dquote +:+ ", ") in
      match i with
      | PBool x =>
          let written := written +:+ (if x then "true" else "false") in
          writePrefs rest (written +:+ (");" +:+ Go.newline))
      | PInt x =>
          let written := written +:+ Go.Itoa x in
          writePrefs rest (written +:+ (");" +:+ Go.newline))
      | PString x =>
          let written := written +:+ (Go.dquote +:+ x +:+ Go.dquote) in
          writePrefs rest (written +:+ (");" +:+ Go.newline))
      | POther _ =>
          (written, Some (errorsNew (cpferr +:+ "unexpected preference type: " +:+ k)))
      end
  end.

(** [func createTempProfile(xpiPath string, prefs map[string]interface{})
    (string, error)]: the returned pair, and the text written to
    [user.js] (empty when the file was never opened). *)
Definition createTempProfile (sys : System) (xpiPath : string)
    (prefs : gmap string PrefValue) : result string * string :=
  match ioutil_TempDir sys with
  | Err err => (Err (errorsNew (cpferr +:+ errorString err)), Go.empty)
  | Ok profilePath =>
  let extsPath := filepath_Join sys profilePath "extensions" in
  match os_Mkdir sys extsPath with
  | Some err => (Err (errorsNew (cpferr +:+ errorString err)), Go.empty)
  | None =>
  match zip_OpenReader sys xpiPath with
  | Err err => (Err (errorsNew (cpferr +:+ errorString err)), Go.empty)
  | Ok files =>
  match findExtName sys files with
  | Err err => (Err err, Go.empty)
  | Ok extName =>
  let extPath := filepath_Join sys extsPath extName in
  match os_Mkdir sys extPath with
  | Some err => (Err (errorsNew (cpferr +:+ errorString err)), Go.empty)
  | None =>
  match writeExtensionFiles sys files extPath with
  | Some err => (Err err, Go.empty)
  | None =>
  let fuserName := filepath_Join sys profilePath "user.js" in
  match os_OpenFile sys fuserName with
  | Some err => (Err (errorsNew (cpferr +:+ errorString err)), Go.empty)
  | None =>
      match writePrefs (range sys prefs) Go.empty with
      | (written, Some err) => (Err err, written)
      | (written, None) => (Ok profilePath, written)
      end
  end end end end end end end.

(** The loop of [Start] that takes the mutex port, from round [k] on.
    [None]: still looping when the budget ends. *)
Fixpoint lockMutexPort (sys : System) (fuel k : nat) (timeout : Z)
  : option (option error) :=
  match fuel with
  | O => None
  | S fuel' =>
      if lock_Listen sys k then Some None
      else if lock_Since sys k >? timeout then
        Some (Some (errorsNew "timeout expired trying to lock mutex port"))
      else lockMutexPort sys fuel' (S k) timeout
  end.

(** The loop [for i := d.Port; i < 65535; i++] of [Start], with [n]
    candidates left from [i] on: the port found, if any. *)
Fixpoint findAvailablePort (sys : System) (n : nat) (i : Z) : result (option Z) :=
  match n with
  | O => Ok None
  | S n' =>
      if net_Listen sys i then
        match ln_Close sys i with
        | Some err => Err err
        | None => Ok (Some i)
        end
      else findAvailablePort sys n' (i + 1)
  end.

(** The first block of [Start]: [if d.Port == 0 { ... }].  The driver
    afterwards, and the error if the block returned one. *)
Definition allocatePort (sys : System) (fuel : nat) (d : FirefoxDriver)
  : option (FirefoxDriver * option error) :=
  if Port d =? 0 then
    let d := setPort d 7055 in
    match lockMutexPort sys fuel 0 (LockPortTimeout d) with
    | None => None
    | Some (Some err) => Some (d, Some err)
    | Some None =>
        match findAvailablePort sys (Z.to_nat (65535 - Port d)) (Port d) with
        | Err err => Some (d, Some err)
        | Ok (Some i) => Some (setPort d i, None)
        | Ok None => Some (d, None)
        end
    end
  else Some (d, None).

(** [func (d *FirefoxDriver) Start() error]: the driver afterwards and
    the returned error; [None] when a retry loop outlives the budget. *)
Definition Start (sys : System) (fuel : nat) (d : FirefoxDriver)
  : option (FirefoxDriver * option error) :=
  match allocatePort sys fuel d with
  | None => None
  | Some (d, Some err) => Some (d, Some err)
  | Some (d, None) =>
      let d := setPrefs d (<["webdriver_firefox_port" := PInt (Port d)]> (Prefs d)) in
      match createTempProfile sys (xpiPath d) (Prefs d) with
      | (Err err, _) => Some (setProfilePath d Go.empty, Some err)
      | (Ok path, _) =>
          let d := setProfilePath d path in
          let command := mkCmd (firefoxPath d) ["-no-remote"; "-profile"; path] [] None in
          let d := setCmd d (Some command) in
          (* the errors of StdoutPipe and StderrPipe are printed only *)
          match cmd_Start sys with
          | Err err =>
              Some (d, Some (errorsNew ("unable to start firefox: " +:+ errorString err)))
          | Ok pid =>
              let d := setCmd d (Some (mkCmd (Path command) (Args command)
                                         (Env command) (Some pid))) in
              let opened : FirefoxDriver * option error :=
                if negb (String.eqb (LogFile d) Go.empty) then
                  match os_OpenFile sys (LogFile d) with
                  | Some err => (setLogFile d None, Some err)
                  | None => (setLogFile d (Some (LogFile d)), None)
                  end
                else (d, None) in
              match opened with
              | (d, Some err) => Some (d, Some err)
              | (d, None) =>
                  match probePort sys fuel (Port d) (StartTimeout d) with
                  | None => None
                  | Some (Some err) => Some (d, Some err)
                  | Some None =>
                      Some (setUrl d ("http://127.0.0.1:" +:+ Go.Itoa (Port d) +:+ "/hub"),
                            None)
                  end
              end
          end
      end
  end.

(** How a call of [Stop] ends: it returns an error value (nil or not), or
    the goroutine panics on a nil pointer. *)
Inductive Outcome : Type :=
| Returned (err : option error)
| Panicked.

(** [func (d *FirefoxDriver) Stop() error]: the driver afterwards, how
    the call ends, and the actions whose result is discarded.
    [d.cmd.Process.Signal] dereferences [Process], which is nil when
    [cmd.Start()] never succeeded.  The deferred [d.cmd = nil] runs either
    way. *)
Definition Stop (d : FirefoxDriver) : FirefoxDriver * Outcome * list Effect :=
  match cmd d with
  | None => (d, Returned (Some (errorsNew "stop failed: firefoxdriver not running")), [])
  | Some c =>
      match Process c with
      | None => (setCmd d None, Panicked, [])
      | Some pid =>
          let closing := match logFile d with Some f => [CloseLog f] | None => [] end in
          let removing := if DeleteProfileOnClose d then [RemoveAll (profilePath d)] else [] in
          (setCmd d None, Returned None, Signal pid :: closing ++ removing)
      end
  end.

End FirefoxDriver.

(** ** chromedriver.go

    The source tree holds two revisions of the file.  [Start] below is the
    one that launches the child itself; [StartRunBrowser] is the one that
    delegates the launch to [runBrowser] of common.go.  [Stop] is the same
    in both. *)

Module ChromeDriver.
Import Webdriver Sys Common.

Record ChromeDriver : Type := mkChromeDriver {
  core : WebDriverCore;
  Port : Z;
  BaseUrl : string;
  Threads : Z;
  LogPath : string;
  LogFile : string;
  StartTimeout : Z;
  path : string;
  cmd : option Cmd;
  logFile : option string
}.

Definition setUrl (d : ChromeDriver) (u : string) : ChromeDriver :=
  mkChromeDriver (mkWebDriverCore u) (Port d) (BaseUrl d) (Threads d) (LogPath d)
    (LogFile d) (StartTimeout d) (path d) (cmd d) (logFile d).

Definition setCmd (d : ChromeDriver) (c : option Cmd) : ChromeDriver :=
  mkChromeDriver (core d) (Port d) (BaseUrl d) (Threads d) (LogPath d)
    (LogFile d) (StartTimeout d) (path d) c (logFile d).

Definition setLogFile (d : ChromeDriver) (f : option string) : ChromeDriver :=
  mkChromeDriver (core d) (Port d) (BaseUrl d) (Threads d) (LogPath d)
    (LogFile d) (StartTimeout d) (path d) (cmd d) f.

(** [func NewChromeDriver(path string) *ChromeDriver]; [port] is 9515 in
    one revision and [freeport.GetPort()] in the other. *)
Definition NewChromeDriver (port : Z) (path : string) : ChromeDriver :=
  mkChromeDriver (mkWebDriverCore Go.empty) port Go.empty 4 "chromedriver.log"
    Go.empty (20 * Second) path None None.

Definition csferr : string := "chromedriver start failed: ".

(** The switches both revisions of [Start] build. *)
Definition switchesOf (d : ChromeDriver) : list string :=
  let switches := [] in
  let switches := switches ++ ["-port=" +:+ Go.Itoa (Port d)] in
  let switches := switches ++ ["-log-path=" +:+ LogPath d] in
  let switches := switches ++ ["-http-threads=" +:+ Go.Itoa (Threads d)] in
  if negb (String.eqb (BaseUrl d) Go.empty)
  then switches ++ ["-url-base=" +:+ BaseUrl d]
  else switches.

(** [func (d *ChromeDriver) Start() error], the revision that calls
    [exec.Command] and [cmd.Start] itself. *)
Definition Start (sys : System) (fuel : nat) (d : ChromeDriver)
  : option (ChromeDriver * option error) :=
  match cmd d with
  | Some _ => Some (d, Some (errorsNew (csferr +:+ "chromedriver already running")))
  | None =>
      let checked : option error :=
        if negb (String.eqb (LogPath d) Go.empty) then
          match os_OpenFile sys (LogPath d) with
          | Some err =>
              Some (errorsNew (csferr +:+ "unable to write in log path: "
                               +:+ errorString err))
          | None => None
          end
        else None in
      match checked with
      | Some err => Some (d, Some err)
      | None =>
          let d := setUrl d ("http://127.0.0.1:" +:+ Go.Itoa (Port d) +:+ BaseUrl d) in
          let switches := switchesOf d in
          let d := setCmd d (Some (mkCmd (path d) switches [] None)) in
          match cmd_StdoutPipe sys with
          | Some err => Some (d, Some (errorsNew (csferr +:+ errorString err)))
          | None =>
          match cmd_StderrPipe sys with
          | Some err => Some (d, Some (errorsNew (csferr +:+ errorString err)))
          | None =>
          match cmd_Start sys with
          | Err err => Some (d, Some (errorsNew (csferr +:+ errorString err)))
          | Ok pid =>
              let d := setCmd d (Some (mkCmd (path d) switches [] (Some pid))) in
              let opened : ChromeDriver * option error :=
                if negb (String.eqb (LogFile d) Go.empty) then
                  match os_OpenFile sys (LogFile d) with
                  | Some err => (setLogFile d None, Some err)
                  | None => (setLogFile d (Some (LogFile d)), None)
                  end
                else (d, None) in
              match opened with
              | (d, Some err) => Some (d, Some err)
              | (d, None) =>
                  match probePort sys fuel (Port d) (StartTimeout d) with
                  | None => None
                  | Some (Some err) => Some (d, Some err)
                  | Some None => Some (d, None)
                  end
              end
          end end end
      end
  end.

(** [func (d *ChromeDriver) Start() error], the revision with
    [d.cmd, d.logFile, err = runBrowser(d.path, switches, d.LogFile)]:
    all three are assigned, nil and nil when [runBrowser] fails.  That
    revision passes no environment. *)
Definition StartRunBrowser (sys : System) (fuel : nat) (d : ChromeDriver)
  : option (ChromeDriver * option error) :=
  match cmd d with
  | Some _ => Some (d, Some (errorsNew (csferr +:+ "chromedriver already running")))
  | None =>
      let checked : option error :=
        if negb (String.eqb (LogPath d) Go.empty) then
          match os_OpenFile sys (LogPath d) with
          | Some err =>
              Some (errorsNew (csferr +:+ "unable to write in log path: "
                               +:+ errorString err))
          | None => None
          end
        else None in
      match checked with
      | Some err => Some (d, Some err)
      | None =>
          let d := setUrl d ("http://127.0.0.1:" +:+ Go.Itoa (Port d) +:+ BaseUrl d) in
          let switches := switchesOf d in
          match runBrowser sys (path d) switches [] (LogFile d) with
          | Err err =>
              Some (setLogFile (setCmd d None) None,
                    Some (errorsNew (csferr +:+ errorString err)))
          | Ok (c, f) =>
              let d := setLogFile (setCmd d (Some c)) f in
              match probePort sys fuel (Port d) (StartTimeout d) with
              | None => None
              | Some (Some err) => Some (d, Some err)
              | Some None => Some (d, None)
              end
          end
      end
  end.

Inductive Outcome : Type :=
| Returned (err : option error)
| Panicked.

(** [func (d *ChromeDriver) Stop() error]; see [FirefoxDriver.Stop] for
    the nil [Process]. *)
Definition Stop (d : ChromeDriver) : ChromeDriver * Outcome * list Effect :=
  match cmd d with
  | None => (d, Returned (Some (errorsNew "stop failed: chromedriver not running")), [])
  | Some c =>
      match Process c with
      | None => (setCmd d None, Panicked, [])
      | Some pid =>
          let closing := match logFile d with Some f => [CloseLog f] | None => [] end in
          (setCmd d None, Returned None, Signal pid :: closing)
      end
  end.

End ChromeDriver.


(** ** Notions the properties are stated with

    Nothing below is code of the package: these are the words of its
    specification, made precise. *)

Module Taxonomy.
Import Webdriver.

(** StateError: [Start] on a driver that is running, [Stop] on one that is
    not.  In the source these are the [errors.New] values of the guards on
    [d.cmd]. *)
Definition isStateError (e : error) : bool :=
  match e with
  | errorsNew msg =>
      String.eqb msg "chromedriver start failed: chromedriver already running"
      || String.eqb msg "stop failed: chromedriver not running"
      || String.eqb msg "stop failed: firefoxdriver not running"
  | _ => false
  end.

(** The category of [parseError], by HTTP status. *)
Definition category (c : Z) : string :=
  if decide (c = 200) then Go.empty
  else if decide (c = 400) then "400: Missing Command Parameters"
  else if decide (c = 404) then "404: Unknown command/Resource Not Found"
  else if decide (c = 405) then "405: Invalid Command Method"
  else if decide (c = 500) then "500: Failed Command"
  else if decide (c = 501) then "501: Unimplemented Command"
  else "Unknown error".

(** ProtocolError for an envelope that is not JSON. *)
Definition notJSONObject : error := errorsNew "error: response must be a JSON object".

(** A call of [doInternal] receives [response] as the response it goes on
    to decode: the answer to its own request or, for a POST answered by a
    redirect that names a location, the response the follow-up GET
    receives. *)
Inductive receives (rt : Runtime)
  : Params (Value rt) → string → string → World rt → Response → Prop :=
| receives_answer params method url σ body request response σ1 :
    marshalParams rt params method = Ok body →
    newRequest rt method url body = Ok request →
    http_Do rt request σ = (Ok response, σ1) →
    String.eqb method "POST" && isRedirect response = false →
    receives rt params method url σ response
| receives_redirected params url σ body request redirect σ1 target response :
    marshalParams rt params "POST" = Ok body →
    newRequest rt "POST" url body = Ok request →
    http_Do rt request σ = (Ok redirect, σ1) →
    isRedirect redirect = true →
    Location redirect = Ok target →
    receives rt paramsNil "GET" target σ1 response →
    receives rt params "POST" url σ response.

End Taxonomy.

Module UserJs.
Import Webdriver Sys FirefoxDriver.

(** The stages of [createTempProfile] before the preference loop all
    succeed, for the profile directory [profilePath]. *)
Definition opensUserJs (sys : System) (xpiPath profilePath : string) : Prop :=
  ioutil_TempDir sys = Ok profilePath
  ∧ os_Mkdir sys (filepath_Join sys profilePath "extensions") = None
  ∧ ∃ files extName,
      zip_OpenReader sys xpiPath = Ok files
      ∧ findExtName sys files = Ok extName
      ∧ os_Mkdir sys (filepath_Join sys (filepath_Join sys profilePath "extensions")
                        extName) = None
      ∧ writeExtensionFiles sys files
          (filepath_Join sys (filepath_Join sys profilePath "extensions") extName) = None
      ∧ os_OpenFile sys (filepath_Join sys profilePath "user.js") = None.

(** The value types the preferences file supports. *)
Definition supported (v : PrefValue) : bool :=
  match v with
  | POther _ => false
  | _ => true
  end.

(** The text of a value: booleans as [true]/[false], integers in decimal,
    strings between double quotes. *)
Definition valueText (v : PrefValue) : string :=
  match v with
  | PBool true => "true"
  | PBool false => "false"
  | PInt n => Go.Itoa n
  | PString s => Go.dquote +:+ s +:+ Go.dquote
  | POther _ => Go.empty
  end.

(** The statement of one entry: [user_pref("key", value);] and a line end. *)
Definition statementOf (kv : string * PrefValue) : string :=
  "user_pref(" +:+ Go.dquote +:+ kv.1 +:+ Go.dquote +:+ ", " +:+ valueText kv.2
  +:+ ");" +:+ Go.newline.

Fixpoint concatStatements (entries : list (string * PrefValue)) : string :=
  match entries with
  | [] => Go.empty
  | kv :: rest => statementOf kv +:+ concatStatements rest
  end.

(** Bytes a quoted text carries as they are: no double quote, no backslash,
    no line break. *)
Definition plainChar (c : Ascii.ascii) : bool :=
  let n := Ascii.nat_of_ascii c in
  negb ((n =? 34)%nat || (n =? 92)%nat || (n =? 10)%nat || (n =? 13)%nat).

Definition plainText (s : string) : bool :=
  forallb plainChar (String.list_ascii_of_string s).

Definition plainEntry (kv : string * PrefValue) : bool :=
  plainText kv.1 &&
  match kv.2 with
  | PString s => plainText s
  | _ => true
  end.

(** *** Reading the statements back

    The reader of a JavaScript-like [user.js]: a quoted text ends at the
    first double quote that no backslash escapes, a backslash escapes the
    byte after it, and a line break inside quotes is an error. *)

Fixpoint stripPrefix (p s : string) : option string :=
  match p with
  | EmptyString => Some s
  | String a p' =>
      match s with
      | String b s' => if Ascii.eqb a b then stripPrefix p' s' else None
      | EmptyString => None
      end
  end.

Definition unescape (c : Ascii.ascii) : Ascii.ascii :=
  let n := Ascii.nat_of_ascii c in
  if (n =? 110)%nat then Ascii.ascii_of_nat 10
  else if (n =? 116)%nat then Ascii.ascii_of_nat 9
  else c.

(** The text up to the closing quote, and what follows the quote. *)
Fixpoint scanQuoted (s : string) : option (string * string) :=
  match s with
  | EmptyString => None
  | String c rest =>
      let n := Ascii.nat_of_ascii c in
      if (n =? 34)%nat then Some (Go.empty, rest)
      else if (n =? 10)%nat || (n =? 13)%nat then None
      else if (n =? 92)%nat then
        match rest with
        | EmptyString => None
        | String e rest' =>
            match scanQuoted rest' with
            | Some (x, r) => Some (String (unescape e) x, r)
            | None => None
            end
        end
      else
        match scanQuoted rest with
        | Some (x, r) => Some (String c x, r)
        | None => None
        end
  end.

Definition numChar (c : Ascii.ascii) : bool :=
  let n := Ascii.nat_of_ascii c in
  (n =? 45)%nat || ((48 <=? n)%nat && (n <=? 57)%nat).

Definition numText (s : string) : bool :=
  forallb numChar (String.list_ascii_of_string s).

(** The longest prefix of sign and digit bytes, and the rest. *)
Fixpoint spanNum (s : string) : string * string :=
  match s with
  | EmptyString => (Go.empty, Go.empty)
  | String c r =>
      if numChar c then
        let '(a, b) := spanNum r in (String c a, b)
      else (Go.empty, s)
  end.

Definition parseValue (s : string) : option (PrefValue * string) :=
  match stripPrefix Go.dquote s with
  | Some r =>
      '(x, r') ← scanQuoted r; Some (PString x, r')
  | None =>
      match stripPrefix "true" s with
      | Some r => Some (PBool true, r)
      | None =>
          match stripPrefix "false" s with
          | Some r => Some (PBool false, r)
          | None =>
              let '(num, r) := spanNum s in
              d ← NilZero.int_of_string num; Some (PInt (Z.of_int d), r)
          end
      end
  end.

Definition parseStatement (s : string) : option ((string * PrefValue) * string) :=
  r0 ← stripPrefix ("user_pref(" +:+ Go.dquote) s;
  '(k, r1) ← scanQuoted r0;
  r2 ← stripPrefix ", " r1;
  '(v, r3) ← parseValue r2;
  r4 ← stripPrefix (");" +:+ Go.newline) r3;
  Some ((k, v), r4).

Fixpoint parseStatements (fuel : nat) (s : string) : option (list (string * PrefValue)) :=
  match s with
  | EmptyString => Some []
  | _ =>
      match fuel with
      | O => None
      | S fuel' =>
          '(kv, r) ← parseStatement s;
          rest ← parseStatements fuel' r;
          Some (kv :: rest)
      end
  end.

(** The entries a preferences file states, in the order of the file.  A
    statement is not empty, so the length of the text bounds their number. *)
Definition parseUserJs (s : string) : option (list (string * PrefValue)) :=
  parseStatements (String.length s) s.

End UserJs.


(** ** Concrete runs

    Runtimes and systems with fixed answers, on which the embedded code is
    evaluated. *)

Module Scenario.
Import Json Webdriver Sys.

(** A text between double quotes. *)
Definition q (s : string) : string := Go.dquote +:+ s +:+ Go.dquote.

(** The error value [{"message":"boom"}], and parsed. *)
Definition plainValue : Go.bytes :=
  "{" +:+ q "message" +:+ ":" +:+ q "boom" +:+ "}".
Definition plainValueParsed : json := JObject [("message", JString "boom")].

(** The error value [{"message":"boom","statusCode":7,"errorType":"spoofed"}],
    and parsed. *)
Definition overridingValue : Go.bytes :=
  "{" +:+ q "message" +:+ ":" +:+ q "boom" +:+ "," +:+ q "statusCode" +:+ ":7,"
  +:+ q "errorType" +:+ ":" +:+ q "spoofed" +:+ "}".
Definition overridingValueParsed : json :=
  JObject [("message", JString "boom"); ("statusCode", JInt 7);
           ("errorType", JString "spoofed")].

Definition jsonTexts : list (Go.bytes * json) :=
  [(plainValue, plainValueParsed); (overridingValue, overridingValueParsed)].

(** A runtime whose HTTP client hands out the answers of a script, one per
    request; whose JSON parser knows the texts of [texts], and whose
    envelope decoder knows the bodies of [envelopes]; anything else is a
    syntax error, which leaves the target untouched.  Values are JSON texts
    already. *)
Definition scripted (texts : list (Go.bytes * json))
    (envelopes : list (Go.bytes * jsonResponse)) : Runtime :=
  mkRuntime string (list (result Response))
    (λ v, Ok v)
    (λ b, snd <$> find (λ p, String.eqb b p.1) texts)
    (λ b, match find (λ p, String.eqb b p.1) envelopes with
          | Some p => (p.2, false)
          | None => (zeroJsonResponse, true)
          end)
    (λ _ _, None)
    (λ _ σ, match σ with
            | a :: σ' => (a, σ')
            | [] => (Err (libError "connection refused"), [])
            end)
    (λ format _, format).

(** The envelope [{"sessionId":"abc","status":0,"value":{}}], and decoded. *)
Definition sessionBody : Go.bytes :=
  "{" +:+ q "sessionId" +:+ ":" +:+ q "abc" +:+ "," +:+ q "status" +:+ ":0,"
  +:+ q "value" +:+ ":{}}".
Definition sessionEnvelope : jsonResponse := mkJsonResponse (q "abc") 0 "{}".

(** The envelope [{"sessionId":"abc","status":28,"value":{"message":"boom"}}],
    and decoded. *)
Definition timeoutBody : Go.bytes :=
  "{" +:+ q "sessionId" +:+ ":" +:+ q "abc" +:+ "," +:+ q "status" +:+ ":28,"
  +:+ q "value" +:+ ":" +:+ plainValue +:+ "}".
Definition timeoutEnvelope : jsonResponse := mkJsonResponse (q "abc") 28 plainValue.

Definition envelopes : list (Go.bytes * jsonResponse) :=
  [(sessionBody, sessionEnvelope); (timeoutBody, timeoutEnvelope)].

Definition server : Runtime := scripted jsonTexts envelopes.

Definition hub : WebDriverCore := mkWebDriverCore "http://127.0.0.1:7055/hub".

Definition noLocation : result string :=
  Err (libError "http: no Location header in response").

(** [GET /status] answered by HTTP 200 with the session envelope. *)
Definition answersSession : World server :=
  [Ok (mkResponse 200 noLocation (Ok sessionBody))].

(** [POST /session/abc/execute_async] answered by HTTP 500 with the
    timeout envelope. *)
Definition answersTimeout : World server :=
  [Ok (mkResponse 500 noLocation (Ok timeoutBody))].

(** [POST /session] answered by HTTP 303 with a location and a body that
    is no envelope, then the GET answered by the session envelope. *)
Definition answersRedirect : World server :=
  [Ok (mkResponse 303 (Ok "http://127.0.0.1:7055/hub/session/abc") (Ok "See Other"));
   Ok (mkResponse 200 noLocation (Ok sessionBody))].

(** [GET /status] answered by HTTP 204 with a body that is not JSON. *)
Definition answersNoContent : World server :=
  [Ok (mkResponse 204 noLocation (Ok "<html>"))].

(** [GET /status] answered by HTTP 200 with a body that is not JSON. *)
Definition answersHTML : World server :=
  [Ok (mkResponse 200 noLocation (Ok "<html>"))].

(** The extension archive: the manifest and one script. *)
Definition xpi : list ZipFile :=
  [mkZipFile "install.rdf" None (Ok "<RDF/>") false;
   mkZipFile "components/driver.js" None (Ok "// driver") false].

(** A machine on which every call succeeds, but for what the arguments
    say: [listen] tells on which ports a listener can be opened, [launch]
    is the result of [cmd.Start()], [draws] shuffles map iteration.  The
    clock advances one second per round of a retry loop. *)
Definition machine (listen : Z → bool) (launch : result Z) (draws : list nat) : System :=
  mkSystem
    (λ _, true) (λ k, Z.of_nat k * Second)
    listen (λ _, None)
    (λ _ _, true) None (λ k, Z.of_nat k * Second)
    [] None None launch
    (λ _, None) (λ _, None)
    (Ok "/tmp/webdriver042")
    (λ a b, a +:+ "/" +:+ b)
    (λ _, Ok xpi)
    (λ _, Ok "fxdriver@googlecode.com")
    (λ _, None)
    draws.

(** All goes well; the ports 7055 and 7056 are taken. *)
Definition healthy : System := machine (λ p, 7057 <=? p) (Ok 4242) [].

(** The browser binary cannot be launched. *)
Definition noBinary : System :=
  machine (λ p, 7057 <=? p)
    (Err (libError "exec: executable file not found in $PATH")) [].

(** No port from 7055 up accepts a listener. *)
Definition allPortsTaken : System := machine (λ _, false) (Ok 4242) [].

(** One preference whose text holds a double quote. *)
Definition quotedPrefs : gmap string PrefValue :=
  {[ "homepage" := PString ("a" +:+ Go.dquote +:+ "b") ]}.

(** One preference whose text closes the statement and opens another, and
    the two preferences it passes for. *)
Definition smugglingPrefs : gmap string PrefValue :=
  {[ "a" := PString ("x" +:+ Go.dquote +:+ ");" +:+ Go.newline +:+ "user_pref("
                     +:+ Go.dquote +:+ "b" +:+ Go.dquote +:+ ", " +:+ Go.dquote +:+ "y") ]}.
Definition twoPrefs : gmap string PrefValue :=
  {[ "a" := PString "x"; "b" := PString "y" ]}.

(** A preference of a type the profile does not support, among others. *)
Definition floatPrefs : gmap string PrefValue :=
  {[ "browser.startup.page" := PInt 0; "layout.css.devPixelsPerPx" := POther "float64" ]}.

(** Three preferences, one of each supported type. *)
Definition fewPrefs : gmap string PrefValue :=
  {[ "browser.startup.homepage" := PString "about:blank";
     "browser.startup.page" := PInt 0;
     "browser.offline" := PBool false ]}.

(** A new Firefox driver whose [Prefs] the caller replaced by those three. *)
Definition firefox : FirefoxDriver.FirefoxDriver :=
  FirefoxDriver.setPrefs (FirefoxDriver.NewFirefoxDriver "firefox" "webdriver.xpi")
    fewPrefs.

Definition chrome : ChromeDriver.ChromeDriver :=
  ChromeDriver.NewChromeDriver 9515 "chromedriver".

(** That driver after a [Start] on a machine with 7055 and 7056 taken:
    port 7057, the port among the preferences, the profile, the command
    with [process] as its [Process], and [u] as its URL. *)
Definition firefoxAfterStart (process : option Z) (u : string) : FirefoxDriver.FirefoxDriver :=
  FirefoxDriver.setUrl
    (FirefoxDriver.setCmd
       (FirefoxDriver.setProfilePath
          (FirefoxDriver.setPrefs (FirefoxDriver.setPort firefox 7057)
             (<["webdriver_firefox_port" := PInt 7057]> fewPrefs))
          "/tmp/webdriver042")
       (Some (mkCmd "firefox" ["-no-remote"; "-profile"; "/tmp/webdriver042"] [] process)))
    u.

(** The chromedriver after a [Start] of the launching revision. *)
Definition chromeAfterStart (process : option Z) : ChromeDriver.ChromeDriver :=
  ChromeDriver.setCmd
    (ChromeDriver.setUrl chrome "http://127.0.0.1:9515")
    (Some (mkCmd "chromedriver"
             ["-port=9515"; "-log-path=chromedriver.log"; "-http-threads=4"] []
             process)).

End Scenario.

(** ** firefoxdriver.go: the preferences of the log files *)

Module Preferences.
Import Webdriver Sys FirefoxDriver.

(** [func (d *FirefoxDriver) SetLogPath(path string)]: four assignments
    into the map [d.Prefs]. *)
Definition SetLogPath (sys : System) (d : FirefoxDriver) (path : string) : FirefoxDriver :=
  let prefs := Prefs d in
  let prefs :=
    <["webdriver.log.file" := PString (filepath_Join sys path "jsconsole.log")]> prefs in
  let prefs :=
    <["webdriver.log.driver.file" := PString (filepath_Join sys path "driver.log")]> prefs in
  let prefs :=
    <["webdriver.log.profiler.file" := PString (filepath_Join sys path "profiler.log")]> prefs in
  let prefs :=
    <["webdriver.log.browser.file" := PString (filepath_Join sys path "browser.log")]> prefs in
  setPrefs d prefs.

End Preferences.

(** ** More machines *)

Module Machines.
Import Webdriver Sys.

(** The machine [Scenario.healthy], except that the file [name] cannot be
    opened. *)
Definition readOnly (name : string) : System :=
  mkSystem
    (λ _, true) (λ k, Z.of_nat k * Second)
    (λ p, 7057 <=? p) (λ _, None)
    (λ _ _, true) None (λ k, Z.of_nat k * Second)
    [] None None (Ok 4242)
    (λ n, if String.eqb n name then Some (libError "permission denied") else None)
    (λ _, None)
    (Ok "/tmp/webdriver042")
    (λ a b, a +:+ "/" +:+ b)
    (λ _, Ok Scenario.xpi)
    (λ _, Ok "fxdriver@googlecode.com")
    (λ _, None)
    [].

(** A machine on which the mutex port is never free and the clock advances
    25 seconds per round. *)
Definition mutexHeld : System :=
  mkSystem
    (λ _, false) (λ k, Z.of_nat (S k) * 25 * Second)
    (λ p, 7057 <=? p) (λ _, None)
    (λ _ _, true) None (λ k, Z.of_nat k * Second)
    [] None None (Ok 4242)
    (λ _, None) (λ _, None)
    (Ok "/tmp/webdriver042")
    (λ a b, a +:+ "/" +:+ b)
    (λ _, Ok Scenario.xpi)
    (λ _, Ok "fxdriver@googlecode.com")
    (λ _, None)
    [].

(** A machine on which the browser answers the third dial, and one on which
    it never answers. *)
Definition slowBrowser : System :=
  mkSystem
    (λ _, true) (λ k, Z.of_nat k * Second)
    (λ p, 7057 <=? p) (λ _, None)
    (λ _ k, (2 <=? k)%nat) None (λ k, Z.of_nat k * Second)
    [] None None (Ok 4242)
    (λ _, None) (λ _, None)
    (Ok "/tmp/webdriver042")
    (λ a b, a +:+ "/" +:+ b)
    (λ _, Ok Scenario.xpi)
    (λ _, Ok "fxdriver@googlecode.com")
    (λ _, None)
    [].

(** [GET /status] answered by HTTP 404 with a page that is no envelope. *)
Definition answersNotFound : World Scenario.server :=
  [Ok (mkResponse 404 Scenario.noLocation (Ok "<html>"))].

(** An archive whose manifest comes second. *)
Definition manifestSecond : list ZipFile :=
  [mkZipFile "components/driver.js" None (Ok "// driver") false;
   mkZipFile "install.rdf" None (Ok "<RDF/>") false;
   mkZipFile "install.rdf" None (Ok "<other/>") false].

(** A chromedriver that dumps its output to [chrome.out]. *)
Definition chromeWithLogFile : ChromeDriver.ChromeDriver :=
  ChromeDriver.mkChromeDriver (mkWebDriverCore Go.empty) 9515 Go.empty 4 "chromedriver.log"
    "chrome.out" (20 * Second) "chromedriver" None None.

End Machines.


(** ** Strings as sequences of runes

    [for i, k := range s] over a Go string visits the code points of its
    UTF-8 encoding, [i] the index of the first byte of each; a byte that
    starts no valid encoding is visited as U+FFFD, one byte wide.
    [string(k)] is the UTF-8 encoding of [k].  Both as in [unicode/utf8]. *)

Module Utf8.

Definition RuneError : Z := 0xFFFD.
Definition MaxRune : Z := 0x10FFFF.
Definition surrogateMin : Z := 0xD800.
Definition surrogateMax : Z := 0xDFFF.

Definition tx : Z := 0x80.
Definition t2 : Z := 0xC0.
Definition t3 : Z := 0xE0.
Definition t4 : Z := 0xF0.
Definition maskx : Z := 0x3F.
Definition mask2 : Z := 0x1F.
Definition mask3 : Z := 0x0F.
Definition mask4 : Z := 0x07.
Definition rune1Max : Z := 2 ^ 7 - 1.
Definition rune2Max : Z := 2 ^ 11 - 1.
Definition rune3Max : Z := 2 ^ 16 - 1.
Definition locb : Z := 0x80.
Definition hicb : Z := 0xBF.

(** The information byte of a first byte: the size in the low bits, the
    index of the range of the second byte in the high ones. *)
Definition xx : Z := 0xF1.
Definition as_ : Z := 0xF0.
Definition s1 : Z := 0x02.
Definition s2 : Z := 0x13.
Definition s3 : Z := 0x03.
Definition s4 : Z := 0x23.
Definition s5 : Z := 0x34.
Definition s6 : Z := 0x04.
Definition s7 : Z := 0x44.

(** The table [first], by ranges of the first byte. *)
Definition first (b : Z) : Z :=
  if b <? 0x80 then as_
  else if b <? 0xC2 then xx
  else if b <? 0xE0 then s1
  else if b =? 0xE0 then s2
  else if b <? 0xED then s3
  else if b =? 0xED then s4
  else if b <? 0xF0 then s3
  else if b =? 0xF0 then s5
  else if b <? 0xF4 then s6
  else if b =? 0xF4 then s7
  else xx.

(** The table [acceptRanges]: lowest and highest second byte. *)
Definition acceptRanges (i : Z) : Z * Z :=
  match i with
  | 0 => (locb, hicb)
  | 1 => (0xA0, hicb)
  | 2 => (locb, 0x9F)
  | 3 => (0x90, hicb)
  | 4 => (locb, 0x8F)
  | _ => (0, 0)
  end.

(** A byte of a string as a number, and the conversion [byte(x)]. *)
Definition byteOf (c : Ascii.ascii) : Z := Z.of_N (Ascii.N_of_ascii c).
Definition byte (x : Z) : Ascii.ascii := Ascii.ascii_of_N (Z.to_N (Z.land x 0xFF)).

(** [utf8.DecodeRuneInString]: the first rune of [s] and its width. *)
Definition DecodeRuneInString (s : list Ascii.ascii) : Z * nat :=
  match s with
  | [] => (RuneError, 0%nat)
  | c0 :: rest0 =>
      let b0 := byteOf c0 in
      let x := first b0 in
      if x >=? as_ then ((if x =? as_ then b0 else RuneError), 1%nat)
      else
        let sz := Z.to_nat (Z.land x 7) in
        let accept := acceptRanges (Z.shiftr x 4) in
        if (length s <? sz)%nat then (RuneError, 1%nat)
        else
          match rest0 with
          | [] => (RuneError, 1%nat)
          | c1 :: rest1 =>
              let b1 := byteOf c1 in
              if (b1 <? accept.1) || (accept.2 <? b1) then (RuneError, 1%nat)
              else if (sz <=? 2)%nat then
                (Z.lor (Z.shiftl (Z.land b0 mask2) 6) (Z.land b1 maskx), 2%nat)
              else
                match rest1 with
                | [] => (RuneError, 1%nat)
                | c2 :: rest2 =>
                    let b2 := byteOf c2 in
                    if (b2 <? locb) || (hicb <? b2) then (RuneError, 1%nat)
                    else if (sz <=? 3)%nat then
                      (Z.lor (Z.lor (Z.shiftl (Z.land b0 mask3) 12)
                                    (Z.shiftl (Z.land b1 maskx) 6))
                             (Z.land b2 maskx), 3%nat)
                    else
                      match rest2 with
                      | [] => (RuneError, 1%nat)
                      | c3 :: _ =>
                          let b3 := byteOf c3 in
                          if (b3 <? locb) || (hicb <? b3) then (RuneError, 1%nat)
                          else
                            (Z.lor (Z.lor (Z.lor (Z.shiftl (Z.land b0 mask4) 18)
                                                 (Z.shiftl (Z.land b1 maskx) 12))
                                          (Z.shiftl (Z.land b2 maskx) 6))
                                   (Z.land b3 maskx), 4%nat)
                      end
                end
          end
  end.

(** [utf8.EncodeRune]: a rune that is no code point is encoded as
    U+FFFD. *)
Definition EncodeRune (r : Z) : list Ascii.ascii :=
  if (0 <=? r) && (r <=? rune1Max) then [byte r]
  else if (0 <=? r) && (r <=? rune2Max) then
    [byte (Z.lor t2 (Z.shiftr r 6)); byte (Z.lor tx (Z.land r maskx))]
  else
    let r :=
      if (r <? 0) || (MaxRune <? r) || ((surrogateMin <=? r) && (r <=? surrogateMax))
      then RuneError else r in
    if r <=? rune3Max then
      [byte (Z.lor t3 (Z.shiftr r 12));
       byte (Z.lor tx (Z.land (Z.shiftr r 6) maskx));
       byte (Z.lor tx (Z.land r maskx))]
    else
      [byte (Z.lor t4 (Z.shiftr r 18));
       byte (Z.lor tx (Z.land (Z.shiftr r 12) maskx));
       byte (Z.lor tx (Z.land (Z.shiftr r 6) maskx));
       byte (Z.lor tx (Z.land r maskx))].

(** The conversion [string(k)] of a rune. *)
Definition stringOfRune (k : Z) : string := String.string_of_list_ascii (EncodeRune k).

(** The pairs [(i, k)] of [for i, k := range s], from index [i] on. *)
Fixpoint rangeFrom (fuel i : nat) (s : list Ascii.ascii) : list (nat * Z) :=
  match fuel with
  | O => []
  | S fuel' =>
      match s with
      | [] => []
      | _ =>
          let '(k, size) := DecodeRuneInString s in
          (i, k) :: rangeFrom fuel' (i + size) (drop size s)
      end
  end.

(** Every round consumes a byte at least: the length is budget enough. *)
Definition rangeString (s : string) : list (nat * Z) :=
  let l := String.list_ascii_of_string s in
  rangeFrom (length l) 0 l.

End Utf8.

(** ** Formatting *)

Module Fmt.

Definition percent : Ascii.ascii := Ascii.ascii_of_nat 37.
Definition verb_s : Ascii.ascii := Ascii.ascii_of_nat 115.

(** [fmt.Sprintf(format, a...)] for a format whose only verbs are [%s],
    as many as there are operands, all of them strings: each verb is
    replaced by its operand, as it is.  [None] outside that fragment. *)
Fixpoint Sprintf_s (format : list Ascii.ascii) (a : list string) : option string :=
  match format with
  | [] => match a with [] => Some Go.empty | _ :: _ => None end
  | c :: rest =>
      if Ascii.eqb c percent then
        match rest with
        | v :: rest' =>
            if Ascii.eqb v verb_s then
              match a with
              | x :: a' => (λ r, x +:+ r) <$> Sprintf_s rest' a'
              | [] => None
              end
            else None
        | [] => None
        end
      else String c <$> Sprintf_s rest a
  end.

End Fmt.

(** ** session.go, and the commands of webdriver.go that make sessions

    A command reaches the server through [s.wd.do]: the [do] of the
    [WebDriverCore] embedded in the driver the session is bound to.  That
    core, as it is when the command is called, is the argument [w] of the
    commands below; sessions are bound ([wd] is not nil). *)

Module Session.
Import Json Webdriver.

Record Session_ (V : Type) : Type := mkSession {
  Id : string;
  Capabilities : option (gmap string V)
}.
Arguments mkSession {V} _ _.
Arguments Id {V} _.
Arguments Capabilities {V} _.

(** The fields [s] and [id] of [WebElement] carry the initials of the
    struct.  [s] is a pointer: nil in the zero value. *)
Record WebElement_ (V : Type) : Type := mkWebElement {
  we_s : option (Session_ V);
  we_id : string
}.
Arguments mkWebElement {V} _ _.
Arguments we_s {V} _.
Arguments we_id {V} _.

(** The Go values the commands put into an [interface{}]: the nil
    interface, values of the basic types, slices, maps with string keys
    ([map[string]interface{}] and the types [params] and [Capabilities]
    defined as it; [None] is the nil map), a [WebElement], a value of a
    named type over its underlying value ([FindElementStrategy],
    [ScreenOrientation], [MouseButton]), and values of any other type. *)
#[warnings="-register-all"]
Inductive GoValue : Type :=
| VNil
| VBool (b : bool)
| VInt (n : Z)
| VString (x : string)
| VStrings (l : list string)
| VSlice (l : option (list GoValue))
| VMap (m : option (gmap string GoValue))
| VWebElement (e : WebElement_ GoValue)
| VNamed (goType : string) (underlying : GoValue)
| VOther (goType : string).

Definition Session : Type := Session_ GoValue.
Definition WebElement : Type := WebElement_ GoValue.
Definition Capabilities_ : Type := option (gmap string GoValue).

Record element : Type := mkElement { ELEMENT : string }.

(** [type params map[string]interface{}], as the value handed to [do]. *)
Definition params (m : gmap string GoValue) : Params GoValue :=
  paramsValue (VMap (Some m)).

(** The library calls of the commands whose result the package does not
    determine. *)
Record Library : Type := mkLibrary {
  Network : Type;
  (** [json.Marshal] *)
  Marshal : GoValue → result Go.bytes;
  (** the JSON parser: [None] on a syntax error *)
  parse : Go.bytes → option json;
  (** [json.Unmarshal] into a zero [jsonResponse] *)
  Unmarshal_jsonResponse : Go.bytes → jsonResponse * bool;
  (** [json.Unmarshal] into a nil [Capabilities] *)
  Unmarshal_Capabilities : Go.bytes → Capabilities_ * option error;
  (** the error [json.Unmarshal] returns, when it returns one, for a
      target of that type and that input *)
  Unmarshal_error : string → Go.bytes → error;
  NewRequest : string → string → option error;
  Do : Request → Network → result Response * Network;
  (** [fmt.Sprintf] outside the fragment of [Fmt.Sprintf_s] *)
  Sprintf_other : string → list GoValue → string;
  (** [ioutil.ReadAll] of a [base64.StdEncoding] decoder over the bytes *)
  base64_ReadAll : Go.bytes → Go.bytes * option error
}.

(** The operands of a call of [Sprintf] when all are strings. *)
Fixpoint stringOperands (a : list GoValue) : option (list string) :=
  match a with
  | [] => Some []
  | VString x :: a' => (λ l, x :: l) <$> stringOperands a'
  | _ :: _ => None
  end.

Definition Sprintf (lib : Library) (format : string) (a : list GoValue) : string :=
  match stringOperands a with
  | Some operands =>
      match Fmt.Sprintf_s (String.list_ascii_of_string format) operands with
      | Some text => text
      | None => Sprintf_other lib format a
      end
  | None => Sprintf_other lib format a
  end.

(** The runtime of the transport that these library calls make up. *)
Definition runtime (lib : Library) : Runtime :=
  mkRuntime GoValue (Network lib) (Marshal lib) (parse lib) (Unmarshal_jsonResponse lib)
    (NewRequest lib) (Do lib) (Sprintf lib).

(** [json.Unmarshal(data, &x)] for a target whose decoding is [store]: a
    syntax error leaves the target as it was; a value of the wrong type is
    an error, what could be stored is. *)
Definition Unmarshal {A : Type} (lib : Library) (goType : string)
    (store : json → A → A * bool) (data : Go.bytes) (x : A) : A * option error :=
  match parse lib data with
  | None => (x, Some (Unmarshal_error lib goType data))
  | Some v =>
      let '(y, bad) := store v x in
      (y, if bad then Some (Unmarshal_error lib goType data) else None)
  end.

(** Storing a JSON value into a [bool]. *)
Definition storeBool (v : json) (old : bool) : bool * bool :=
  match v with
  | JNull => (old, false)
  | JBool b => (b, false)
  | _ => (old, true)
  end.

(** Storing a JSON value into a [[]string]: [null] makes the slice nil; an
    array replaces it, element by element, an element of another type
    staying empty. *)
Definition storeStrings (v : json) (old : list string) : list string * bool :=
  match v with
  | JNull => ([], false)
  | JArray elems =>
      let rs := map (λ e, storeString e Go.empty) elems in
      (map fst rs, existsb snd rs)
  | _ => (old, true)
  end.

Inductive elementField : Type := fELEMENT.

Definition elementFields : list (string * elementField) := [("ELEMENT", fELEMENT)].

Definition storeElementField (acc : element * bool) (kv : string * json) : element * bool :=
  let '(e, bad) := acc in
  match findField elementFields kv.1 with
  | Some fELEMENT =>
      let '(x, b) := storeString kv.2 (ELEMENT e) in
      (mkElement x, bad || b)
  | None => acc
  end.

(** Storing a JSON value into an [element]. *)
Definition storeElement (v : json) (old : element) : element * bool :=
  match v with
  | JNull => (old, false)
  | JObject members => fold_left storeElementField members (old, false)
  | _ => (old, true)
  end.

(** Storing a JSON value into a [[]element]. *)
Definition storeElements (v : json) (old : list element) : list element * bool :=
  match v with
  | JNull => ([], false)
  | JArray elems =>
      let rs := map (λ e, storeElement e (mkElement Go.empty)) elems in
      (map fst rs, existsb snd rs)
  | _ => (old, true)
  end.

(** What a command yields: its results ([None] when the budget of the
    transport ran out), the network afterwards, the requests sent. *)
Record Reply (lib : Library) (A : Type) : Type := mkReply {
  answer : option A;
  network : Network lib;
  requests : list Request
}.
Arguments mkReply {lib A} _ _ _.
Arguments answer {lib A} _.
Arguments network {lib A} _.
Arguments requests {lib A} _.

(** The results of a command computed from those of its call of [do]. *)
Definition reply {lib : Library} {A : Type} (r : Run (runtime lib))
    (k : result (string * Go.bytes) → A) : Reply lib A :=
  mkReply (k <$> returned r) (world r) (sent r).

(** A command either returns or panics. *)
Inductive Outcome (A : Type) : Type :=
| Returned (a : A)
| Panicked.
Arguments Returned {A} a.
Arguments Panicked {A}.

Section Commands.

Variable lib : Library.

(** [func (w WebDriverCore) newSession(desired, required Capabilities)],
    which returns a pointer to a session, nil or not, and an error. *)
Definition newSession (w : WebDriverCore) (desired required : Capabilities_)
    (σ : Network lib) : Reply lib (option Session * option error) :=
  let desired := match desired with None => Some ∅ | Some _ => desired end in
  let p := params {[ "desiredCapabilities" := VMap desired;
                     "requiredCapabilities" := VMap required ]} in
  reply (do (runtime lib) w p "POST" "/session" [] σ)
    (λ r, match r with
          | Err err => (None, Some err)
          | Ok (sessionId, data) =>
              let '(capabilities, err) := Unmarshal_Capabilities lib data in
              (Some (mkSession sessionId capabilities), err)
          end).

(** [func (d *FirefoxDriver) NewSession(desired, required Capabilities)]
    and its twin of [ChromeDriver]: the session of [newSession], bound to
    the driver, or nil with the error. *)
Definition NewSession (w : WebDriverCore) (desired required : Capabilities_)
    (σ : Network lib) : Reply lib (option Session * option error) :=
  let r := newSession w desired required σ in
  mkReply ((λ a : option Session * option error,
              match a.2 with
              | Some err => (None, Some err)
              | None => (a.1, None)
              end) <$> answer r)
    (network r) (requests r).

Definition FirefoxDriver_NewSession (d : FirefoxDriver.FirefoxDriver)
    (desired required : Capabilities_) (σ : Network lib)
  : Reply lib (option Session * option error) :=
  NewSession (FirefoxDriver.core d) desired required σ.

Definition ChromeDriver_NewSession (d : ChromeDriver.ChromeDriver)
    (desired required : Capabilities_) (σ : Network lib)
  : Reply lib (option Session * option error) :=
  NewSession (ChromeDriver.core d) desired required σ.

(** The error of a call of [do], for the commands that return nothing
    else. *)
Definition errorOf (r : result (string * Go.bytes)) : option error :=
  match r with
  | Err err => Some err
  | Ok _ => None
  end.

(** [func (s Session) Delete() error] *)
Definition Delete (w : WebDriverCore) (s : Session) (σ : Network lib)
  : Reply lib (option error) :=
  reply (do (runtime lib) w paramsNil "DELETE" "/session/%s" [VString (Id s)] σ) errorOf.

(** [func (s Session) Screenshot() ([]byte, error)].  The slice expression
    [data[1 : len(data)-1]] panics unless [1 <= len(data)-1]. *)
Definition Screenshot (w : WebDriverCore) (s : Session) (σ : Network lib)
  : Reply lib (Outcome (Go.bytes * option error)) :=
  reply (do (runtime lib) w paramsNil "GET" "/session/%s/screenshot" [VString (Id s)] σ)
    (λ r, match r with
          | Err err => Returned (Go.empty, Some err)
          | Ok (_, data) =>
              let n := String.length data in
              if (n <? 2)%nat then Panicked
              else Returned (base64_ReadAll lib (String.substring 1 (n - 2) data))
          end).

(** [func (s Session) IMEAvailableEngines() ([]string, error)] *)
Definition IMEAvailableEngines (w : WebDriverCore) (s : Session) (σ : Network lib)
  : Reply lib (list string * option error) :=
  reply (do (runtime lib) w paramsNil "GET" "session/%s/ime/available_engines"
           [VString (Id s)] σ)
    (λ r, match r with
          | Err err => ([], Some err)
          | Ok (_, data) => Unmarshal lib "[]string" storeStrings data []
          end).

(** [func (s Session) IMEActiveEngine() (string, error)] *)
Definition IMEActiveEngine (w : WebDriverCore) (s : Session) (σ : Network lib)
  : Reply lib (string * option error) :=
  reply (do (runtime lib) w paramsNil "GET" "session/%s/ime/active_engine"
           [VString (Id s)] σ)
    (λ r, match r with
          | Err err => (Go.empty, Some err)
          | Ok (_, data) => Unmarshal lib "string" storeString data Go.empty
          end).

(** [func (s Session) IsIMEActivated() (bool, error)] *)
Definition IsIMEActivated (w : WebDriverCore) (s : Session) (σ : Network lib)
  : Reply lib (bool * option error) :=
  reply (do (runtime lib) w paramsNil "GET" "session/%s/ime/activated" [VString (Id s)] σ)
    (λ r, match r with
          | Err err => (false, Some err)
          | Ok (_, data) => Unmarshal lib "bool" storeBool data false
          end).

(** [func (s Session) IMEDeactivate() error] *)
Definition IMEDeactivate (w : WebDriverCore) (s : Session) (σ : Network lib)
  : Reply lib (option error) :=
  reply (do (runtime lib) w paramsNil "GET" "session/%s/ime/deactivate" [VString (Id s)] σ)
    errorOf.

(** [func (s Session) IMEActivate(engine string) error] *)
Definition IMEActivate (w : WebDriverCore) (s : Session) (engine : string)
    (σ : Network lib) : Reply lib (option error) :=
  let p := params {[ "engine" := VString engine ]} in
  reply (do (runtime lib) w p "POST" "/session/%s/ime/activate" [VString (Id s)] σ) errorOf.

(** [func (s Session) FocusOnFrame(frameId interface{}) error] *)
Definition FocusOnFrame (w : WebDriverCore) (s : Session) (frameId : GoValue)
    (σ : Network lib) : Reply lib (option error) :=
  let accepted :=
    match frameId with
    | VNil => true
    | VString _ => true
    | VInt _ => true
    | VWebElement _ => true
    | _ => false
    end in
  if accepted then
    let p := params {[ "id" := frameId ]} in
    reply (do (runtime lib) w p "POST" "/session/%s/frame" [VString (Id s)] σ) errorOf
  else
    mkReply (Some (Some (errorsNew "invalid frame, must be string|int|nil|WebElement")))
      σ [].

(** [type FindElementStrategy string] *)
Definition FindElementStrategy : Type := string.

Definition strategy (using_ : FindElementStrategy) : GoValue :=
  VNamed "FindElementStrategy" (VString using_).

(** The loop that turns the decoded elements into [WebElement]s of the
    session [s]. *)
Definition elementsOf (s : option Session) (v : list element) : list WebElement :=
  let elements := replicate (length v) (mkWebElement None Go.empty) in
  fold_left (λ elements ie, <[ie.1 := mkWebElement s (ELEMENT ie.2)]> elements)
    (imap pair v) elements.

(** [func (s Session) FindElements(using FindElementStrategy, value string)
    ([]WebElement, error)] *)
Definition FindElements (w : WebDriverCore) (s : Session) (using_ : FindElementStrategy)
    (value : string) (σ : Network lib) : Reply lib (list WebElement * option error) :=
  let p := params {[ "using" := strategy using_; "value" := VString value ]} in
  reply (do (runtime lib) w p "POST" "/session/%s/elements" [VString (Id s)] σ)
    (λ r, match r with
          | Err err => ([], Some err)
          | Ok (_, data) =>
              match Unmarshal lib "[]webdriver.element" storeElements data [] with
              | (_, Some err) => ([], Some err)
              | (v, None) => (elementsOf (Some s) v, None)
              end
          end).

(** [func (e WebElement) FindElements(using FindElementStrategy,
    value string) ([]WebElement, error)]: [e.s] is dereferenced before
    anything is sent. *)
Definition WebElement_FindElements (w : WebDriverCore) (e : WebElement)
    (using_ : FindElementStrategy) (value : string) (σ : Network lib)
  : Reply lib (Outcome (list WebElement * option error)) :=
  match we_s e with
  | None => mkReply (Some Panicked) σ []
  | Some s =>
      let p := params {[ "using" := strategy using_; "value" := VString value ]} in
      reply (do (runtime lib) w p "POST" "/session/%s/element/%s/elements"
               [VString (Id s); VString (we_id e)] σ)
        (λ r, match r with
              | Err err => Returned ([], Some err)
              | Ok (_, data) =>
                  match Unmarshal lib "[]webdriver.element" storeElements data [] with
                  | (_, Some err) => Returned ([], Some err)
                  | (v, None) => Returned (elementsOf (we_s e) v, None)
                  end
              end)
  end.

(** The loop of [SendKeys] and of [SendKeysOnActiveElement]:
    [keys := make([]string, len(sequence))], then
    [for i, k := range sequence { keys[i] = string(k) }]. *)
Definition keysOf (sequence : string) : list string :=
  let keys := replicate (String.length sequence) Go.empty in
  fold_left (λ keys ik, <[ik.1 := Utf8.stringOfRune ik.2]> keys)
    (Utf8.rangeString sequence) keys.

(** [func (e WebElement) SendKeys(sequence string) error] *)
Definition WebElement_SendKeys (w : WebDriverCore) (e : WebElement) (sequence : string)
    (σ : Network lib) : Reply lib (Outcome (option error)) :=
  let p := params {[ "value" := VStrings (keysOf sequence) ]} in
  match we_s e with
  | None => mkReply (Some Panicked) σ []
  | Some s =>
      reply (do (runtime lib) w p "POST" "/session/%s/element/%s/value"
               [VString (Id s); VString (we_id e)] σ)
        (λ r, Returned (errorOf r))
  end.

(** [func (s Session) SendKeysOnActiveElement(sequence string) error] *)
Definition SendKeysOnActiveElement (w : WebDriverCore) (s : Session) (sequence : string)
    (σ : Network lib) : Reply lib (option error) :=
  let p := params {[ "value" := VStrings (keysOf sequence) ]} in
  reply (do (runtime lib) w p "POST" "/session/%s/keys" [VString (Id s)] σ) errorOf.

End Commands.

End Session.

(** ** Concrete runs of the commands *)

Module Runs.
Import Json Webdriver Session.

(** The envelope [{"sessionId":"abc","status":0}], which has no value, and
    the envelope whose value is the JSON string of the base64 text of
    [hi]. *)
Definition bareBody : Go.bytes :=
  "{" +:+ Scenario.q "sessionId" +:+ ":" +:+ Scenario.q "abc" +:+ "," +:+ Scenario.q "status"
  +:+ ":0}".
Definition bareEnvelope : jsonResponse := mkJsonResponse (Scenario.q "abc") 0 Go.empty.

Definition imageBody : Go.bytes :=
  "{" +:+ Scenario.q "sessionId" +:+ ":" +:+ Scenario.q "abc" +:+ "," +:+ Scenario.q "status"
  +:+ ":0," +:+ Scenario.q "value" +:+ ":" +:+ Scenario.q "aGk=" +:+ "}".
Definition imageEnvelope : jsonResponse :=
  mkJsonResponse (Scenario.q "abc") 0 (Scenario.q "aGk=").

(** The envelope whose value is the array of two elements [e1] and [e2],
    that value, and the value parsed. *)
Definition elementsValue : Go.bytes :=
  "[{" +:+ Scenario.q "ELEMENT" +:+ ":" +:+ Scenario.q "e1" +:+ "},{"
  +:+ Scenario.q "ELEMENT" +:+ ":" +:+ Scenario.q "e2" +:+ "}]".
Definition elementsParsed : json :=
  JArray [JObject [("ELEMENT", JString "e1")]; JObject [("ELEMENT", JString "e2")]].
Definition elementsBody : Go.bytes :=
  "{" +:+ Scenario.q "sessionId" +:+ ":" +:+ Scenario.q "abc" +:+ "," +:+ Scenario.q "status"
  +:+ ":0," +:+ Scenario.q "value" +:+ ":" +:+ elementsValue +:+ "}".
Definition elementsEnvelope : jsonResponse :=
  mkJsonResponse (Scenario.q "abc") 0 elementsValue.

(** The envelope whose value is the empty array. *)
Definition listBody : Go.bytes :=
  "{" +:+ Scenario.q "sessionId" +:+ ":" +:+ Scenario.q "abc" +:+ "," +:+ Scenario.q "status"
  +:+ ":0," +:+ Scenario.q "value" +:+ ":[]}".
Definition listEnvelope : jsonResponse := mkJsonResponse (Scenario.q "abc") 0 "[]".

(** A library whose HTTP client hands out the answers of a script, one per
    request; whose JSON parser knows the texts of [texts] and whose
    envelope decoder knows the bodies of [envelopes], anything else being
    a syntax error; whose capabilities decoder knows the empty object;
    whose base64 decoder knows the text of [hi].  [json.Marshal] answers a
    fixed text: the runs do not look at the bodies of requests. *)
Definition scripted (texts : list (Go.bytes * json))
    (envelopes : list (Go.bytes * jsonResponse)) : Library :=
  mkLibrary (list (result Response))
    (λ _, Ok "{...}")
    (λ b, snd <$> find (λ p, String.eqb b p.1) texts)
    (λ b, match find (λ p, String.eqb b p.1) envelopes with
          | Some p => (p.2, false)
          | None => (zeroJsonResponse, true)
          end)
    (λ b, if String.eqb b "{}" then (Some ∅, None)
          else (None, Some (libError "json: cannot unmarshal array into Go value")))
    (λ goType _, libError ("json: cannot unmarshal into Go value of type " +:+ goType))
    (λ _ _, None)
    (λ _ σ, match σ with
            | a :: σ' => (a, σ')
            | [] => (Err (libError "connection refused"), [])
            end)
    (λ format _, format)
    (λ b, if String.eqb b "aGk=" then ("hi", None)
          else (Go.empty, Some (libError "illegal base64 data at input byte 0"))).

Definition server : Library :=
  scripted [(elementsValue, elementsParsed)]
    [(Scenario.sessionBody, Scenario.sessionEnvelope); (bareBody, bareEnvelope);
     (imageBody, imageEnvelope); (elementsBody, elementsEnvelope);
     (listBody, listEnvelope)].

(** The core of the Firefox driver [Scenario.firefox] once started. *)
Definition started : WebDriverCore := mkWebDriverCore "http://127.0.0.1:7057/hub".

(** The session [abc] the server hands out. *)
Definition abc : Session := mkSession "abc" (Some ∅).

(** One answer with HTTP 200 and that body. *)
Definition answers (body : Go.bytes) : Network server :=
  [Ok (mkResponse 200 Scenario.noLocation (Ok body))].

(** A redirect to the new session, then the envelope of the session. *)
Definition answersSeeOther : Network server :=
  [Ok (mkResponse 303 (Ok "http://127.0.0.1:7057/hub/session/abc") (Ok "See Other"));
   Ok (mkResponse 200 Scenario.noLocation (Ok Scenario.sessionBody))].

(** The bytes of [h], of the two bytes of the letter e with an acute
    accent, and of [y]. *)
Definition accented : string :=
  String.string_of_list_ascii (map Utf8.byte [0x68; 0xC3; 0xA9; 0x79]).
Definition eAcute : string :=
  String.string_of_list_ascii (map Utf8.byte [0xC3; 0xA9]).

End Runs.

(* ===================================================================== *)
(** * Part II: theorems                                                   *)
(* ===================================================================== *)

#[local] Arguments String.append !_ _ / : simpl nomatch.

(** Case analysis on the innermost scrutinee of the goal. *)
Ltac destruct_match :=
  match goal with
  | |- context [match ?x with _ => _ end] =>
      lazymatch x with
      | context [match _ with _ => _ end] => fail
      | _ => destruct x eqn:?
      end
  end.

(** ** Strings *)

Section Strings.

Lemma append_assoc (a b c : string) : (a +:+ b) +:+ c = a +:+ (b +:+ c).
Proof. induction a as [|x a IH]; simpl; [reflexivity | by rewrite IH]. Qed.

Lemma append_empty_r (a : string) : a +:+ Go.empty = a.
Proof. induction a as [|x a IH]; simpl; [reflexivity | by rewrite IH]. Qed.

Lemma length_append (a b : string) :
  String.length (a +:+ b) = (String.length a + String.length b)%nat.
Proof. induction a as [|x a IH]; simpl; [reflexivity | by rewrite IH]. Qed.

Lemma Contains_intro (pre sub post : string) : Go.Contains (pre +:+ sub +:+ post) sub.
Proof. by exists pre, post. Qed.

Lemma list_ascii_of_string_append (a b : string) :
  String.list_ascii_of_string (a +:+ b)
  = String.list_ascii_of_string a ++ String.list_ascii_of_string b.
Proof. induction a as [|x a IH]; simpl; [reflexivity | by rewrite IH]. Qed.

(** The session id of an envelope is a JSON string: [Trim] takes its
    quotes off.  (An id that itself starts or ends with a brace or a quote
    would lose those bytes too.) *)
Lemma Trim_quoted (s : string) (c : Ascii.ascii) (l : list Ascii.ascii) (z : Ascii.ascii) :
  String.list_ascii_of_string s = c :: l →
  last (c :: l) = Some z →
  Go.inCutset ("{}" +:+ Go.dquote) c = false →
  Go.inCutset ("{}" +:+ Go.dquote) z = false →
  Go.Trim (Go.dquote +:+ s +:+ Go.dquote) ("{}" +:+ Go.dquote) = s.
Proof.
  intros Hs Hlast Hc Hz. unfold Go.Trim.
  assert (String.list_ascii_of_string (Go.dquote +:+ s +:+ Go.dquote)
          = Ascii.ascii_of_nat 34 :: (c :: l) ++ [Ascii.ascii_of_nat 34]) as ->.
  { by rewrite !list_ascii_of_string_append, Hs. }
  cbn [Go.trimLeftList].
  change (Go.inCutset ("{}" +:+ Go.dquote) (Ascii.ascii_of_nat 34)) with true.
  cbv iota. cbn [app Go.trimLeftList]. rewrite Hc.
  change (c :: l ++ [Ascii.ascii_of_nat 34]) with ((c :: l) ++ [Ascii.ascii_of_nat 34]).
  rewrite rev_app_distr. cbn [rev app Go.trimLeftList].
  change (Go.inCutset ("{}" +:+ Go.dquote) (Ascii.ascii_of_nat 34)) with true.
  cbv iota.
  destruct (rev l ++ [c]) as [|y t] eqn:Hrev.
  { by destruct (rev l). }
  assert (y = z) as ->.
  { assert (rev (y :: t) = c :: l) as Hr.
    { rewrite <- Hrev, rev_app_distr, rev_involutive. reflexivity. }
    rewrite <- Hr in Hlast. simpl in Hlast. rewrite last_snoc in Hlast. congruence. }
  cbn [Go.trimLeftList]. rewrite Hz. rewrite <- Hrev.
  rewrite rev_app_distr, rev_involutive. cbn [rev app]. rewrite <- Hs.
  apply String.string_of_list_ascii_of_string.
Qed.

End Strings.

(** ** The error classifier *)

Section Classifier.
Import Json Webdriver.

Variable rt : Runtime.

Lemma statusCodeStrings_size : size statusCodeStrings = 25%nat.
Proof. vm_compute. reflexivity. Qed.

Lemma statusCodeStrings_28 :
  statusCodeStrings !! 28 = Some "A script did not complete before its timeout expired.".
Proof. vm_compute. reflexivity. Qed.

(** C7.  Rendering a [CommandError] whose status code is 28 gives a text
    that contains the description of the script timeout; rendering one
    whose code is neither -1 nor a key of [statusCodeStrings] gives a text
    that contains [unknown status code (N)], [N] the code in decimal. *)
Theorem Error_renders_status_code (e : CommandError) :
  (StatusCode e = 28 →
   Go.Contains (Error e) "A script did not complete before its timeout expired.")
  ∧ (statusCodeStrings !! StatusCode e = None → StatusCode e ≠ -1 →
     Go.Contains (Error e)
       ("unknown status code (" +:+ Go.Itoa (StatusCode e) +:+ ")")).
Proof.
  split.
  - intros H28. unfold Error. rewrite H28, statusCodeStrings_28.
    change (28 =? -1) with false. cbv iota.
    apply Contains_intro.
  - intros Habsent Hcode. unfold Error. rewrite Habsent.
    destruct (Z.eqb_spec (StatusCode e) (-1)) as [|_]; [contradiction|].
    set (m := if String.eqb (ErrorType e) Go.empty then _ else _).
    exists m, (": " +:+ Message e).
    f_equal. rewrite !append_assoc. reflexivity.
Qed.

(** The rendering of a script timeout, and of the unknown code 99. *)
Lemma Error_renders_status_code_witness :
  Go.Contains
    (Error (mkCommandError 28 "500: Failed Command" "late" Go.empty Go.empty []))
    "A script did not complete before its timeout expired."
  ∧ Go.Contains
      (Error (mkCommandError 99 "500: Failed Command" "odd" Go.empty Go.empty []))
      "unknown status code (99)".
Proof.
  split.
  - apply (proj1 (Error_renders_status_code
                    (mkCommandError 28 "500: Failed Command" "late" Go.empty Go.empty []))).
    reflexivity.
  - apply (proj2 (Error_renders_status_code
                    (mkCommandError 99 "500: Failed Command" "odd" Go.empty Go.empty []))).
    + vm_compute. reflexivity.
    + simpl. lia.
Defined.

Lemma Error_not_specified (e : CommandError) :
  StatusCode e = -1 → Go.Contains (Error e) "status code not specified".
Proof.
  intros H. unfold Error. rewrite H. change (-1 =? -1) with true. cbv iota.
  set (m := if String.eqb (ErrorType e) Go.empty then _ else _).
  exists m, Go.empty. reflexivity.
Qed.

End Classifier.

Section ParseError.
Import Json Webdriver Taxonomy.

Variable rt : Runtime.

(** The [switch] of [parseError] is the table [category]. *)
Lemma parseError_category (c : Z) (jr : jsonResponse) :
  Status jr = 0 → ErrorType (parseError rt c jr) = category c.
Proof.
  intros H0. unfold parseError. rewrite H0. change (0 =? 0) with true. cbv iota.
  unfold ErrorType, category.
  repeat case_decide; subst; try reflexivity.
  destruct c as [|p|p]; try reflexivity.
  do 10 (try (destruct p as [p|p|]; try reflexivity; try contradiction)).
Qed.

(** An envelope with inner status 0 yields code -1, the category of the
    HTTP status, and nothing else. *)
Lemma parseError_zero_status (c : Z) (jr : jsonResponse) :
  Status jr = 0 →
  parseError rt c jr = mkCommandError (-1) (category c) Go.empty Go.empty Go.empty [].
Proof.
  intros H0. pose proof (parseError_category c jr H0) as Hc.
  unfold parseError in *. rewrite H0 in *. change (0 =? 0) with true in *.
  cbv iota in *. simpl in Hc. by rewrite Hc.
Qed.

(** A key selects a field whatever the case of its letters, a long s
    (U+017F) counting as [s] and a Kelvin sign (U+212A) as [k]; a key that
    is a prefix of a name selects nothing. *)
Lemma findField_folds :
  findField commandErrorFields "statuscode" = Some fStatusCode
  ∧ findField commandErrorFields
      (String (Ascii.ascii_of_nat 197) (String (Ascii.ascii_of_nat 191) "tatusCode"))
    = Some fStatusCode
  ∧ findField commandErrorFields
      ("Stac" +:+ String (Ascii.ascii_of_nat 226)
                    (String (Ascii.ascii_of_nat 132) (String (Ascii.ascii_of_nat 170) "Trace")))
    = Some fStackTrace
  ∧ findField commandErrorFields "status" = None.
Proof. repeat split. Qed.

(** A member that selects neither [StatusCode] nor [ErrorType] leaves both
    fields as they are. *)
Lemma storeCommandErrorField_keeps (acc : CommandError * bool) (kv : string * json) :
  findField commandErrorFields kv.1 ≠ Some fStatusCode →
  findField commandErrorFields kv.1 ≠ Some fErrorType →
  StatusCode (storeCommandErrorField acc kv).1 = StatusCode acc.1
  ∧ ErrorType (storeCommandErrorField acc kv).1 = ErrorType acc.1.
Proof.
  intros Hs He. destruct acc as [e bad]. unfold storeCommandErrorField.
  destruct (findField commandErrorFields kv.1) as [[]|]; try congruence;
    simpl; try (destruct (storeString _ _)); try (destruct (storeStackTrace _ _));
    simpl; auto.
Qed.

Lemma fold_storeCommandErrorField_keeps (members : list (string * json))
    (acc : CommandError * bool) :
  Forall (λ kv, findField commandErrorFields kv.1 ≠ Some fStatusCode
                ∧ findField commandErrorFields kv.1 ≠ Some fErrorType) members →
  StatusCode (fold_left storeCommandErrorField members acc).1 = StatusCode acc.1
  ∧ ErrorType (fold_left storeCommandErrorField members acc).1 = ErrorType acc.1.
Proof.
  intros Hall. revert acc.
  induction Hall as [|kv members [Hs He] _ IH]; intros acc; simpl; [done|].
  destruct (IH (storeCommandErrorField acc kv)) as [-> ->].
  by apply storeCommandErrorField_keeps.
Qed.

(** When the value of the envelope has no member named as [StatusCode] or
    [ErrorType], the error carries the inner status and the category of the
    HTTP status. *)
Lemma parseError_without_override (c : Z) (jr : jsonResponse) :
  Status jr ≠ 0 →
  (∀ members, json_parse rt (RawValue jr) = Some (JObject members) →
     Forall (λ kv, findField commandErrorFields kv.1 ≠ Some fStatusCode
                   ∧ findField commandErrorFields kv.1 ≠ Some fErrorType) members) →
  StatusCode (parseError rt c jr) = Status jr
  ∧ ErrorType (parseError rt c jr) = category c.
Proof.
  intros Hne Hmembers.
  pose proof (parseError_category c (mkJsonResponse Go.empty 0 Go.empty) eq_refl) as Hc.
  unfold parseError in *. simpl in Hc. rewrite <- Hc. clear Hc.
  destruct (Z.eqb_spec (Status jr) 0) as [|_]; [contradiction|].
  set (rce := match c with 200 => _ | _ => _ end).
  set (e0 := mkCommandError (Status jr) rce Go.empty Go.empty Go.empty []).
  assert (StatusCode (unmarshalCommandError (json_parse rt (RawValue jr)) e0).1 = Status jr
          ∧ ErrorType (unmarshalCommandError (json_parse rt (RawValue jr)) e0).1 = rce)
    as Hkeep.
  { unfold unmarshalCommandError.
    destruct (json_parse rt (RawValue jr)) as [[| | | | | |members]|] eqn:Hp; simpl; auto.
    exact (fold_storeCommandErrorField_keeps members (e0, false) (Hmembers members eq_refl)). }
  destruct (unmarshalCommandError _ e0) as [e err]. simpl in Hkeep.
  destruct err; simpl; exact Hkeep.
Qed.

Lemma storeCommandErrorField_statusCode (acc : CommandError * bool) (n : Z) :
  Go.inInt n = true →
  storeCommandErrorField acc ("statusCode", JInt n)
  = (mkCommandError n (ErrorType acc.1) (Message acc.1) (Screen acc.1) (Class_ acc.1)
       (StackTrace acc.1), acc.2 || false).
Proof.
  intros Hn. destruct acc as [e bad]. unfold storeCommandErrorField.
  change (findField commandErrorFields ("statusCode", JInt n).1) with (Some fStatusCode).
  cbn [snd storeInt fst]. rewrite Hn. reflexivity.
Qed.

Lemma storeCommandErrorField_errorType (acc : CommandError * bool) (s : string) :
  storeCommandErrorField acc ("errorType", JString s)
  = (mkCommandError (StatusCode acc.1) s (Message acc.1) (Screen acc.1) (Class_ acc.1)
       (StackTrace acc.1), acc.2 || false).
Proof. destruct acc as [e bad]. reflexivity. Qed.

(** C6.  The classifier decodes the value of the envelope into the very
    struct that already holds the status code and the category, and the
    decoder matches keys to all exported fields.  Whenever the inner status
    is not 0 and the value is an object that ends with the members
    [statusCode] and [errorType], the error carries the number and the text
    of those members: not the inner status of the envelope, and not the
    category of the HTTP status. *)
Theorem parseError_value_overrides_code (c : Z) (jr : jsonResponse)
    (members : list (string * json)) (n : Z) (s : string) :
  Status jr ≠ 0 →
  json_parse rt (RawValue jr)
  = Some (JObject (members ++ [("statusCode", JInt n); ("errorType", JString s)])) →
  Go.inInt n = true →
  StatusCode (parseError rt c jr) = n ∧ ErrorType (parseError rt c jr) = s.
Proof.
  intros Hne Hparse Hn. unfold parseError.
  destruct (Z.eqb_spec (Status jr) 0) as [|_]; [contradiction|].
  rewrite Hparse. unfold unmarshalCommandError. rewrite fold_left_app.
  cbn [fold_left].
  rewrite (storeCommandErrorField_statusCode _ n Hn), storeCommandErrorField_errorType.
  cbn [fst snd StatusCode ErrorType].
  match goal with |- context [if ?b then _ else _] => destruct b end; by split.
Qed.

End ParseError.

(** On HTTP 500 with the envelope [{"status":13,"value":{"message":"boom",
    "statusCode":7,"errorType":"spoofed"}}] the error has code 7 and
    category [spoofed], where the inner status is 13 and the table gives
    [500: Failed Command]. *)
Lemma parseError_value_overrides_code_witness :
  Webdriver.StatusCode
    (Webdriver.parseError (Scenario.scripted Scenario.jsonTexts []) 500
       (Webdriver.mkJsonResponse Go.empty 13 Scenario.overridingValue)) = 7
  ∧ Webdriver.ErrorType
      (Webdriver.parseError (Scenario.scripted Scenario.jsonTexts []) 500
         (Webdriver.mkJsonResponse Go.empty 13 Scenario.overridingValue)) = "spoofed"
  ∧ Webdriver.Status (Webdriver.mkJsonResponse Go.empty 13 Scenario.overridingValue) = 13
  ∧ Taxonomy.category 500 = "500: Failed Command".
Proof.
  destruct (parseError_value_overrides_code (Scenario.scripted Scenario.jsonTexts []) 500
              (Webdriver.mkJsonResponse Go.empty 13 Scenario.overridingValue)
              [("message", Json.JString "boom")] 7 "spoofed") as [Hcode Htype].
  - simpl. lia.
  - reflexivity.
  - reflexivity.
  - split; [exact Hcode|]. split; [exact Htype|]. split; reflexivity.
Defined.

(** The same envelope without the two extra members is classified as the
    table says. *)
Lemma parseError_plain_value :
  let rt := Scenario.scripted Scenario.jsonTexts [] in
  let jr := Webdriver.mkJsonResponse Go.empty 13 Scenario.plainValue in
  Webdriver.parseError rt 500 jr
  = Webdriver.mkCommandError 13 "500: Failed Command" "boom" Go.empty Go.empty [].
Proof. vm_compute. reflexivity. Qed.

(** ** The transport *)

Section DoInternal.
Import Json Webdriver Taxonomy.

Variable rt : Runtime.

(** A call with a method other than POST never calls itself: one unit of
    budget is all it uses. *)
Lemma doInternal_not_POST (n : nat) (params : Params (Value rt)) (method url : string)
    (σ : World rt) :
  String.eqb method "POST" = false →
  doInternal rt (S n) params method url σ = doInternal rt 1 params method url σ.
Proof. intros H. simpl. rewrite H. reflexivity. Qed.

(** [doInternal] calls itself at most once, and then with GET: any budget
    of two or more gives the run of the source. *)
Lemma doInternal_fuel (n : nat) (params : Params (Value rt)) (method url : string)
    (σ : World rt) :
  doInternal rt (S (S n)) params method url σ = doInternal rt 2 params method url σ.
Proof.
  cbn [doInternal].
  destruct (marshalParams rt params method); [|reflexivity].
  destruct (newRequest rt method url a); [|reflexivity].
  destruct (http_Do rt a0 σ) as [[response|] σ1]; [|reflexivity].
  destruct (String.eqb method "POST" && isRedirect response); [|reflexivity].
  destruct (Location response) as [target|]; [|reflexivity].
  pose proof (doInternal_not_POST n paramsNil "GET" target σ1 eq_refl) as H.
  cbn [doInternal] in H. rewrite H. reflexivity.
Qed.

(** With a budget of two the call returns. *)
Lemma doInternal_returns (n : nat) (params : Params (Value rt)) (method url : string)
    (σ : World rt) :
  is_Some (returned (doInternal rt (S (S n)) params method url σ)).
Proof.
  rewrite doInternal_fuel. cbn [doInternal].
  destruct (marshalParams rt params method); [|by eexists].
  destruct (newRequest rt method url a); [|by eexists].
  destruct (http_Do rt a0 σ) as [[response|] σ1]; [|by eexists].
  destruct (String.eqb method "POST" && isRedirect response).
  - destruct (Location response) as [target|]; [|by eexists].
    replace (String.eqb "GET" "POST") with false by reflexivity.
    destruct (marshalParams rt paramsNil "GET"); [|by eexists].
    destruct (newRequest rt "GET" target a1); [|by eexists].
    destruct (http_Do rt a2 σ1) as [[second|] σ2]; [|by eexists].
    cbn [andb returned].
    destruct (ReadAllBody second); [|by eexists].
    destruct (json_Unmarshal_jsonResponse rt a3) as [jr err].
    repeat match goal with |- context [if ?b then _ else _] => destruct b end;
      by eexists.
  - destruct (ReadAllBody response); [|by eexists].
    destruct (json_Unmarshal_jsonResponse rt a1) as [jr err].
    repeat match goal with |- context [if ?b then _ else _] => destruct b end;
      by eexists.
Qed.

(** What the transport makes of the response it decodes. *)
Lemma doInternal_answer (n : nat) (params : Params (Value rt)) (method url : string)
    (σ : World rt) (body : Go.bytes) (request : Request) (response : Response)
    (σ1 : World rt) (buf : Go.bytes) (jr : jsonResponse) (err : bool) :
  marshalParams rt params method = Ok body →
  newRequest rt method url body = Ok request →
  http_Do rt request σ = (Ok response, σ1) →
  String.eqb method "POST" && isRedirect response = false →
  ReadAllBody response = Ok buf →
  json_Unmarshal_jsonResponse rt buf = (jr, err) →
  doInternal rt (S n) params method url σ =
    mkRun
      (Some (if err && (RespStatusCode response =? 200) then Err notJSONObject
             else if (RespStatusCode response >=? 400) || negb (Status jr =? 0)
                  then Err (ofCommandError (parseError rt (RespStatusCode response) jr))
                  else Ok (Go.Trim (RawSessionId jr) ("{}" +:+ Go.dquote), RawValue jr)))
      σ1 [request].
Proof.
  intros Hm Hn Hd Hr Hb Hu. cbn [doInternal].
  rewrite Hm, Hn, Hd, Hr, Hb, Hu.
  repeat match goal with |- context [if ?b then _ else _] => destruct b end;
    reflexivity.
Qed.

(** A POST answered by a redirect that names a location: the run is the
    request, then the run of a GET to the location. *)
Lemma doInternal_redirect (n : nat) (params : Params (Value rt)) (url : string)
    (σ : World rt) (body : Go.bytes) (request : Request) (redirect : Response)
    (σ1 : World rt) (target : string) :
  marshalParams rt params "POST" = Ok body →
  newRequest rt "POST" url body = Ok request →
  http_Do rt request σ = (Ok redirect, σ1) →
  isRedirect redirect = true →
  Location redirect = Ok target →
  doInternal rt (S n) params "POST" url σ =
    mkRun (returned (doInternal rt n paramsNil "GET" target σ1))
          (world (doInternal rt n paramsNil "GET" target σ1))
          (request :: sent (doInternal rt n paramsNil "GET" target σ1)).
Proof.
  intros H1 H2 H3 H4 H5. cbn [doInternal]. rewrite H1, H2, H3.
  change (String.eqb "POST" "POST") with true. rewrite H4, H5. reflexivity.
Qed.

Lemma receives_not_POST (params : Params (Value rt)) (method url : string)
    (σ : World rt) (response : Response) :
  String.eqb method "POST" = false →
  receives rt params method url σ response →
  ∃ body request σ1,
    marshalParams rt params method = Ok body
    ∧ newRequest rt method url body = Ok request
    ∧ http_Do rt request σ = (Ok response, σ1).
Proof.
  intros Hm Hr. destruct Hr as [? ? ? ? body request response σ1 H1 H2 H3 H4|].
  - by exists body, request, σ1.
  - discriminate Hm.
Qed.

(** The result of a call in terms of the response it receives and of what
    the envelope decoder makes of the body. *)
Lemma doInternal_receives (n : nat) (params : Params (Value rt)) (method url : string)
    (σ : World rt) (response : Response) (buf : Go.bytes) (jr : jsonResponse)
    (err : bool) :
  receives rt params method url σ response →
  ReadAllBody response = Ok buf →
  json_Unmarshal_jsonResponse rt buf = (jr, err) →
  returned (doInternal rt (S (S n)) params method url σ) =
    Some (if err && (RespStatusCode response =? 200) then Err notJSONObject
          else if (RespStatusCode response >=? 400) || negb (Status jr =? 0)
               then Err (ofCommandError (parseError rt (RespStatusCode response) jr))
               else Ok (Go.Trim (RawSessionId jr) ("{}" +:+ Go.dquote), RawValue jr)).
Proof.
  intros Hr Hb Hu.
  destruct Hr as [params method url σ body request response σ1 H1 H2 H3 H4
                 |params url σ body request redirect σ1 target response H1 H2 H3 H4 H5 H6].
  - by rewrite (doInternal_answer _ _ _ _ _ _ _ _ _ _ _ _ H1 H2 H3 H4 Hb Hu).
  - destruct (receives_not_POST paramsNil "GET" target σ1 response eq_refl H6) as (body2 & follow & σ2 & G1 & G2 & G3).
    rewrite (doInternal_redirect (S n) _ _ _ _ _ _ _ _ H1 H2 H3 H4 H5).
    by rewrite (doInternal_answer n _ _ _ _ _ _ _ _ _ _ _ G1 G2 G3 eq_refl Hb Hu).
Qed.

End DoInternal.

Section Do.
Import Json Webdriver Taxonomy.

Variable rt : Runtime.

Lemma do_valid_method (w : WebDriverCore) (params : Params (Value rt))
    (method urlFormat : string) (urlParams : list (Value rt)) (σ : World rt) :
  method = "GET" ∨ method = "POST" ∨ method = "DELETE" →
  do rt w params method urlFormat urlParams σ
  = doInternal rt 2 params method (url w +:+ fmt_Sprintf rt urlFormat urlParams) σ.
Proof. intros [->|[->| ->]]; reflexivity. Qed.

(** Any other method is refused before a request is built. *)
Lemma do_invalid_method (w : WebDriverCore) (params : Params (Value rt))
    (method urlFormat : string) (urlParams : list (Value rt)) (σ : World rt) :
  method ≠ "GET" → method ≠ "POST" → method ≠ "DELETE" →
  do rt w params method urlFormat urlParams σ
  = mkRun (Some (Err (errorsNew ("invalid method: " +:+ method)))) σ [].
Proof.
  intros H1 H2 H3. unfold do.
  destruct (String.eqb_spec method "GET"); [contradiction|].
  destruct (String.eqb_spec method "POST"); [contradiction|].
  destruct (String.eqb_spec method "DELETE"); [contradiction|].
  reflexivity.
Qed.

(** C1.  When the response the call decodes has HTTP status 400 or more,
    or its envelope has a non-zero inner status, [do] returns the error of
    the classifier and no value; when the status is below 400 and the inner
    status is 0, it returns the session id of the envelope and the raw
    bytes of its value, and no error.  (A body that does not decode under
    HTTP 200 is the protocol error of C8 and is set apart.) *)
Theorem do_classifies_response (w : WebDriverCore) (params : Params (Value rt))
    (method urlFormat : string) (urlParams : list (Value rt)) (σ : World rt)
    (response : Response) (buf : Go.bytes) (jr : jsonResponse) (err : bool) :
  method = "GET" ∨ method = "POST" ∨ method = "DELETE" →
  receives rt params method (url w +:+ fmt_Sprintf rt urlFormat urlParams) σ response →
  ReadAllBody response = Ok buf →
  json_Unmarshal_jsonResponse rt buf = (jr, err) →
  ¬ (err = true ∧ RespStatusCode response = 200) →
  (400 ≤ RespStatusCode response ∨ Status jr ≠ 0 →
   returned (do rt w params method urlFormat urlParams σ)
   = Some (Err (ofCommandError (parseError rt (RespStatusCode response) jr))))
  ∧ (RespStatusCode response < 400 ∧ Status jr = 0 →
     returned (do rt w params method urlFormat urlParams σ)
     = Some (Ok (Go.Trim (RawSessionId jr) ("{}" +:+ Go.dquote), RawValue jr))).
Proof.
  intros Hmethod Hrecv Hbody Hdec Hjson.
  rewrite (do_valid_method _ _ _ _ _ _ Hmethod).
  rewrite (doInternal_receives rt 0 _ _ _ _ _ _ _ _ Hrecv Hbody Hdec).
  assert (err && (RespStatusCode response =? 200) = false) as ->.
  { destruct err; [|reflexivity]. simpl.
    destruct (Z.eqb_spec (RespStatusCode response) 200); [|reflexivity].
    exfalso. by apply Hjson. }
  split.
  - intros Hbad.
    assert ((RespStatusCode response >=? 400) || negb (Status jr =? 0) = true) as ->;
      [|reflexivity].
    destruct Hbad as [H|H].
    + apply orb_true_intro. left. apply Z.geb_le. lia.
    + apply orb_true_intro. right. apply negb_true_iff. by apply Z.eqb_neq.
  - intros [Hlow Hzero].
    assert ((RespStatusCode response >=? 400) || negb (Status jr =? 0) = false) as ->;
      [|reflexivity].
    apply orb_false_intro.
    + destruct (RespStatusCode response >=? 400) eqn:E; [|reflexivity].
      apply Z.geb_le in E. lia.
    + rewrite Hzero. reflexivity.
Qed.

(** C8, amended.  [do] returns the error [response must be a JSON object]
    exactly when the response it decodes has HTTP status 200 and its body
    does not decode as the envelope.  A body that does not decode under
    another status is classified when the status is 400 or more or the
    decoder left a non-zero inner status, and is otherwise returned as a
    success, with whatever the decoder left in the envelope. *)
Theorem do_not_JSON_object (w : WebDriverCore) (params : Params (Value rt))
    (method urlFormat : string) (urlParams : list (Value rt)) (σ : World rt)
    (response : Response) (buf : Go.bytes) (jr : jsonResponse) (err : bool) :
  method = "GET" ∨ method = "POST" ∨ method = "DELETE" →
  receives rt params method (url w +:+ fmt_Sprintf rt urlFormat urlParams) σ response →
  ReadAllBody response = Ok buf →
  json_Unmarshal_jsonResponse rt buf = (jr, err) →
  (returned (do rt w params method urlFormat urlParams σ) = Some (Err notJSONObject)
   ↔ RespStatusCode response = 200 ∧ err = true)
  ∧ (err = true → RespStatusCode response ≠ 200 →
     returned (do rt w params method urlFormat urlParams σ)
     = Some (if decide (400 ≤ RespStatusCode response ∨ Status jr ≠ 0)
             then Err (ofCommandError (parseError rt (RespStatusCode response) jr))
             else Ok (Go.Trim (RawSessionId jr) ("{}" +:+ Go.dquote), RawValue jr))).
Proof.
  intros Hmethod Hrecv Hbody Hdec.
  rewrite (do_valid_method _ _ _ _ _ _ Hmethod).
  rewrite (doInternal_receives rt 0 _ _ _ _ _ _ _ _ Hrecv Hbody Hdec).
  split.
  - split.
    + intros H. destruct err; simpl in H.
      * destruct (Z.eqb_spec (RespStatusCode response) 200); [done|].
        destruct ((RespStatusCode response >=? 400) || negb (Status jr =? 0));
          discriminate H.
      * destruct ((RespStatusCode response >=? 400) || negb (Status jr =? 0));
          discriminate H.
    + intros [-> ->]. reflexivity.
  - intros -> Hne. simpl.
    destruct (Z.eqb_spec (RespStatusCode response) 200); [contradiction|].
    f_equal. case_decide as Hd.
    + assert ((RespStatusCode response >=? 400) || negb (Status jr =? 0) = true) as ->;
        [|reflexivity].
      destruct Hd as [H|H].
      * apply orb_true_intro. left. apply Z.geb_le. lia.
      * apply orb_true_intro. right. apply negb_true_iff. by apply Z.eqb_neq.
    + assert ((RespStatusCode response >=? 400) || negb (Status jr =? 0) = false) as ->;
        [|reflexivity].
      apply orb_false_intro.
      * destruct (RespStatusCode response >=? 400) eqn:E; [|reflexivity].
        apply Z.geb_le in E. exfalso. apply Hd. left. lia.
      * destruct (Z.eqb_spec (Status jr) 0); [reflexivity|].
        exfalso. apply Hd. by right.
Qed.

End Do.

(** [GET /status] answered by the session envelope returns the id [abc]
    and the value; a POST answered by HTTP 500 with inner status 28 returns
    the classified error. *)
Lemma do_classifies_response_witness :
  Webdriver.returned
    (Webdriver.do Scenario.server Scenario.hub Webdriver.paramsNil "GET" "/status" []
       Scenario.answersSession)
  = Some (Webdriver.Ok ("abc", "{}"))
  ∧ Webdriver.returned
      (Webdriver.do Scenario.server Scenario.hub Webdriver.paramsNil "POST"
         "/session/abc/execute_async" [] Scenario.answersTimeout)
    = Some (Webdriver.Err (Webdriver.ofCommandError
              (Webdriver.mkCommandError 28 "500: Failed Command" "boom"
                 Go.empty Go.empty []))).
Proof.
  split.
  - refine (proj2 (do_classifies_response Scenario.server Scenario.hub
                     Webdriver.paramsNil "GET" "/status" [] Scenario.answersSession
                     (Webdriver.mkResponse 200 Scenario.noLocation (Webdriver.Ok Scenario.sessionBody))
                     Scenario.sessionBody Scenario.sessionEnvelope false
                     _ _ _ _ _) _).
    + left. reflexivity.
    + eapply Taxonomy.receives_answer; reflexivity.
    + reflexivity.
    + reflexivity.
    + intros [H _]. discriminate H.
    + split; [simpl; lia | reflexivity].
  - refine (proj1 (do_classifies_response Scenario.server Scenario.hub
                     Webdriver.paramsNil "POST" "/session/abc/execute_async" []
                     Scenario.answersTimeout
                     (Webdriver.mkResponse 500 Scenario.noLocation (Webdriver.Ok Scenario.timeoutBody))
                     Scenario.timeoutBody Scenario.timeoutEnvelope false
                     _ _ _ _ _) _).
    + right. left. reflexivity.
    + eapply Taxonomy.receives_answer; reflexivity.
    + reflexivity.
    + reflexivity.
    + intros [H _]. discriminate H.
    + left. simpl. lia.
Defined.

(** C8, as stated, fails: [GET /status] answered by HTTP 204 with the body
    [<html>], which is not JSON, is not handed to the classifier; [do]
    returns an empty session id and an empty value, and no error. *)
Lemma do_not_JSON_under_204_is_success :
  Webdriver.json_Unmarshal_jsonResponse Scenario.server "<html>"
  = (Webdriver.zeroJsonResponse, true)
  ∧ Webdriver.returned
      (Webdriver.do Scenario.server Scenario.hub Webdriver.paramsNil "GET" "/status" []
         Scenario.answersNoContent)
    = Some (Webdriver.Ok (Go.empty, Go.empty))
  ∧ Webdriver.returned
      (Webdriver.do Scenario.server Scenario.hub Webdriver.paramsNil "GET" "/status" []
         Scenario.answersNoContent)
    ≠ Some (Webdriver.Err (Webdriver.ofCommandError
              (Webdriver.parseError Scenario.server 204 Webdriver.zeroJsonResponse))).
Proof. split; [reflexivity|]. split; [reflexivity|]. intros H. discriminate H. Qed.

(** [<html>] under HTTP 200 is the protocol error; under HTTP 204 it is a
    success. *)
Lemma do_not_JSON_object_witness :
  Webdriver.returned
    (Webdriver.do Scenario.server Scenario.hub Webdriver.paramsNil "GET" "/status" []
       Scenario.answersHTML)
  = Some (Webdriver.Err Taxonomy.notJSONObject)
  ∧ Webdriver.returned
      (Webdriver.do Scenario.server Scenario.hub Webdriver.paramsNil "GET" "/status" []
         Scenario.answersNoContent)
    = Some (Webdriver.Ok (Go.empty, Go.empty)).
Proof.
  split.
  - refine (proj2 (proj1 (do_not_JSON_object Scenario.server Scenario.hub
                     Webdriver.paramsNil "GET" "/status" [] Scenario.answersHTML
                     (Webdriver.mkResponse 200 Scenario.noLocation (Webdriver.Ok "<html>"))
                     "<html>" Webdriver.zeroJsonResponse true
                     _ _ _ _)) _).
    + left. reflexivity.
    + eapply Taxonomy.receives_answer; reflexivity.
    + reflexivity.
    + reflexivity.
    + split; reflexivity.
  - refine (proj2 (do_not_JSON_object Scenario.server Scenario.hub
                     Webdriver.paramsNil "GET" "/status" [] Scenario.answersNoContent
                     (Webdriver.mkResponse 204 Scenario.noLocation (Webdriver.Ok "<html>"))
                     "<html>" Webdriver.zeroJsonResponse true
                     _ _ _ _) _ _).
    + left. reflexivity.
    + eapply Taxonomy.receives_answer; reflexivity.
    + reflexivity.
    + reflexivity.
    + reflexivity.
    + simpl. lia.
Defined.

Section Redirect.
Import Json Webdriver Taxonomy.

Variable rt : Runtime.

Lemma newRequest_fields (method url : string) (data : Go.bytes) (request : Request) :
  newRequest rt method url data = Ok request →
  Method request = method ∧ URL request = url ∧ Body request = data
  ∧ Header request !! "Content-Type"
    = (if String.eqb method "POST" then Some ["application/json;charset=utf-8"] else None)
  ∧ Header request !! "Accept" = Some ["application/json"]
  ∧ Header request !! "Accept-Charset" = Some ["utf-8"].
Proof.
  unfold newRequest. destruct (http_NewRequest rt method url); [discriminate|].
  intros [= <-]. simpl. destruct (String.eqb method "POST"); repeat split; reflexivity.
Qed.

(** C2.  A POST whose response has status 302 or 303 and names a location
    is followed by exactly one request, a GET to that location with an empty
    body; what [do] returns is what the transport makes of the answer to
    that GET: its error, or the classification of the envelope decoded from
    the body of the second response.  The body of the redirect is not read,
    and no third request is issued, whatever the second response is. *)
Theorem do_follows_POST_redirect_once (w : WebDriverCore) (params : Params (Value rt))
    (urlFormat : string) (urlParams : list (Value rt)) (σ : World rt)
    (body : Go.bytes) (request : Request) (redirect : Response) (σ1 : World rt)
    (target : string) :
  marshalParams rt params "POST" = Ok body →
  newRequest rt "POST" (url w +:+ fmt_Sprintf rt urlFormat urlParams) body = Ok request →
  http_Do rt request σ = (Ok redirect, σ1) →
  RespStatusCode redirect = 302 ∨ RespStatusCode redirect = 303 →
  Location redirect = Ok target →
  http_NewRequest rt "GET" target = None →
  ∃ follow : Request,
    Method follow = "GET" ∧ URL follow = target ∧ Body follow = Go.empty
    ∧ sent (do rt w params "POST" urlFormat urlParams σ) = [request; follow]
    ∧ world (do rt w params "POST" urlFormat urlParams σ) = (http_Do rt follow σ1).2
    ∧ (∀ e, (http_Do rt follow σ1).1 = Err e →
         returned (do rt w params "POST" urlFormat urlParams σ) = Some (Err e))
    ∧ (∀ second e, (http_Do rt follow σ1).1 = Ok second → ReadAllBody second = Err e →
         returned (do rt w params "POST" urlFormat urlParams σ) = Some (Err e))
    ∧ (∀ second buf jr err,
         (http_Do rt follow σ1).1 = Ok second →
         ReadAllBody second = Ok buf →
         json_Unmarshal_jsonResponse rt buf = (jr, err) →
         returned (do rt w params "POST" urlFormat urlParams σ)
         = Some (if err && (RespStatusCode second =? 200) then Err notJSONObject
                 else if (RespStatusCode second >=? 400) || negb (Status jr =? 0)
                      then Err (ofCommandError
                                  (parseError rt (RespStatusCode second) jr))
                      else Ok (Go.Trim (RawSessionId jr) ("{}" +:+ Go.dquote),
                               RawValue jr))).
Proof.
  intros Hm Hn Hd Hs Hl Hg.
  assert (isRedirect redirect = true) as Hr.
  { unfold isRedirect. destruct Hs as [-> | ->]; reflexivity. }
  assert (newRequest rt "GET" target Go.empty
          = Ok (mkRequest "GET" target
                  (Header_Set "Accept-Charset" "utf-8"
                     (Header_Set "Accept" "application/json" ∅)) Go.empty)) as Hf.
  { unfold newRequest. rewrite Hg. reflexivity. }
  set (follow := mkRequest "GET" target _ Go.empty) in Hf.
  exists follow.
  rewrite (do_valid_method rt w params "POST" urlFormat urlParams σ (or_intror (or_introl eq_refl))).
  rewrite (doInternal_redirect rt 1 _ _ _ _ _ _ _ _ Hm Hn Hd Hr Hl).
  cbn [doInternal]. change (marshalParams rt paramsNil "GET") with (@Ok Go.bytes Go.empty).
  cbv iota. rewrite Hf. cbv iota.
  destruct (http_Do rt follow σ1) as [[second|e2] σ2] eqn:Hdo; cbn [fst snd].
  - change (String.eqb "GET" "POST" && isRedirect second) with false. cbv iota.
    destruct (ReadAllBody second) as [buf|e3] eqn:Hb.
    + destruct (json_Unmarshal_jsonResponse rt buf) as [jr err] eqn:Hu.
      set (c1 := err && (RespStatusCode second =? 200)).
      set (c2 := (RespStatusCode second >=? 400) || negb (Status jr =? 0)).
      repeat split.
      * by destruct c1, c2.
      * by destruct c1, c2.
      * intros e [=].
      * intros second' e [= <-]. rewrite Hb. intros [=].
      * intros second' buf' jr' err' [= <-]. rewrite Hb. intros [= <-].
        rewrite Hu. intros [= <- <-]. fold c1 c2.
        by destruct c1, c2.
    + cbn [returned world sent]. repeat split; try reflexivity.
      * intros e [=].
      * intros second' e [= <-]. rewrite Hb. by intros [= <-].
      * intros second' buf' jr' err' [= <-]. rewrite Hb. intros [=].
  - cbn [returned world sent]. repeat split; try reflexivity.
    + by intros e [= <-].
    + intros second' e [=].
    + intros second' buf' jr' err' [=].
Qed.

End Redirect.

(** [POST /session] answered by 303: the POST, one GET to the location,
    and the envelope of the second response. *)
Lemma do_follows_POST_redirect_once_witness :
  Webdriver.sent
    (Webdriver.do Scenario.server Scenario.hub Webdriver.paramsNil "POST" "/session" []
       Scenario.answersRedirect)
  = [Webdriver.mkRequest "POST" "http://127.0.0.1:7055/hub/session"
       (Webdriver.Header_Set "Accept-Charset" "utf-8"
          (Webdriver.Header_Set "Accept" "application/json"
             (Webdriver.Header_Add "Content-Type" "application/json;charset=utf-8" ∅)))
       "{}";
     Webdriver.mkRequest "GET" "http://127.0.0.1:7055/hub/session/abc"
       (Webdriver.Header_Set "Accept-Charset" "utf-8"
          (Webdriver.Header_Set "Accept" "application/json" ∅))
       Go.empty]
  ∧ Webdriver.returned
      (Webdriver.do Scenario.server Scenario.hub Webdriver.paramsNil "POST" "/session" []
         Scenario.answersRedirect)
    = Some (Webdriver.Ok ("abc", "{}")).
Proof.
  destruct (do_follows_POST_redirect_once Scenario.server Scenario.hub
              Webdriver.paramsNil "/session" [] Scenario.answersRedirect
              "{}"
              (Webdriver.mkRequest "POST" "http://127.0.0.1:7055/hub/session"
                 (Webdriver.Header_Set "Accept-Charset" "utf-8"
                    (Webdriver.Header_Set "Accept" "application/json"
                       (Webdriver.Header_Add "Content-Type"
                          "application/json;charset=utf-8" ∅)))
                 "{}")
              (Webdriver.mkResponse 303 (Webdriver.Ok "http://127.0.0.1:7055/hub/session/abc")
                 (Webdriver.Ok "See Other"))
              [Webdriver.Ok (Webdriver.mkResponse 200 Scenario.noLocation
                               (Webdriver.Ok Scenario.sessionBody))]
              "http://127.0.0.1:7055/hub/session/abc"
              eq_refl eq_refl eq_refl (or_intror eq_refl) eq_refl eq_refl)
    as (follow & Hmethod & Hurl & Hbody & Hsent & Hworld & _ & _ & Hreturned).
  split.
  - reflexivity.
  - exact (Hreturned
             (Webdriver.mkResponse 200 Scenario.noLocation (Webdriver.Ok Scenario.sessionBody))
             Scenario.sessionBody Scenario.sessionEnvelope false
             eq_refl eq_refl eq_refl).
Defined.

Section RequestBodies.
Import Json Webdriver Taxonomy.

Variable rt : Runtime.

(** Every request a call hands to the HTTP client is its own, built from
    the marshalled [params], or the GET that follows a redirected POST. *)
Lemma sent_do (w : WebDriverCore) (params : Params (Value rt))
    (method urlFormat : string) (urlParams : list (Value rt)) (σ : World rt)
    (request : Request) :
  request ∈ sent (do rt w params method urlFormat urlParams σ) →
  (∃ body, marshalParams rt params method = Ok body
           ∧ newRequest rt method (url w +:+ fmt_Sprintf rt urlFormat urlParams) body
             = Ok request)
  ∨ (method = "POST" ∧ ∃ target, newRequest rt "GET" target Go.empty = Ok request).
Proof.
  unfold do.
  destruct (negb (String.eqb method "GET") && negb (String.eqb method "POST")
            && negb (String.eqb method "DELETE")).
  { cbn [sent]. by intros ?%elem_of_nil. }
  set (u := url w +:+ fmt_Sprintf rt urlFormat urlParams).
  cbn [doInternal].
  destruct (marshalParams rt params method) as [body|] eqn:Hm;
    [|cbn [sent]; by intros ?%elem_of_nil].
  destruct (newRequest rt method u body) as [first|] eqn:Hn;
    [|cbn [sent]; by intros ?%elem_of_nil].
  assert (∀ l, request ∈ first :: l →
               request = first ∨ request ∈ l) as Hcons.
  { intros l [->|H]%elem_of_cons; auto. }
  assert (∃ body0, @Ok Go.bytes body = Ok body0
                   ∧ newRequest rt method u body0 = Ok first) as Hfirst by eauto.
  destruct (http_Do rt first σ) as [[response|] σ1];
    [|cbn [sent]; intros ->%list_elem_of_singleton; left; exact Hfirst].
  destruct (String.eqb_spec method "POST") as [->|Hne]; cbn [andb].
  - destruct (isRedirect response).
    + destruct (Location response) as [target|];
        [|cbn [sent]; intros ->%list_elem_of_singleton; left; exact Hfirst].
      cbn [sent]. intros [->|Hin]%Hcons; [left; exact Hfirst|]. right. split; [reflexivity|].
      exists target. revert Hin.
      change (marshalParams rt paramsNil "GET") with (@Ok Go.bytes Go.empty). cbv iota.
      destruct (newRequest rt "GET" target Go.empty) as [follow|];
        [|cbn [sent]; by intros ?%elem_of_nil].
      destruct (http_Do rt follow σ1) as [[second|] σ2];
        [|cbn [sent]; by intros ->%list_elem_of_singleton].
      change (String.eqb "GET" "POST" && isRedirect second) with false. cbv iota.
      destruct (ReadAllBody second);
        [|cbn [sent]; by intros ->%list_elem_of_singleton].
      destruct (json_Unmarshal_jsonResponse rt a) as [jr err].
      repeat match goal with |- context [if ?b then _ else _] => destruct b end; cbn [sent]; by intros ->%list_elem_of_singleton.
    + destruct (ReadAllBody response);
        [|cbn [sent]; intros ->%list_elem_of_singleton; left; exact Hfirst].
      destruct (json_Unmarshal_jsonResponse rt a) as [jr err].
      repeat match goal with |- context [if ?b then _ else _] => destruct b end; cbn [sent]; intros ->%list_elem_of_singleton;
        left; exact Hfirst.
  - destruct (ReadAllBody response);
      [|cbn [sent]; intros ->%list_elem_of_singleton; left; exact Hfirst].
    destruct (json_Unmarshal_jsonResponse rt a) as [jr err].
    repeat match goal with |- context [if ?b then _ else _] => destruct b end; cbn [sent]; intros ->%list_elem_of_singleton;
      left; exact Hfirst.
Qed.

(** The requests of a GET: one at most, without a body and without a
    Content-Type. *)
Lemma doInternal_GET_sent (n : nat) (u : string) (σ : World rt) :
  Forall (λ r, Method r = "GET" ∧ URL r = u ∧ Body r = Go.empty
               ∧ Header r !! "Content-Type" = None)
    (sent (doInternal rt n paramsNil "GET" u σ)).
Proof.
  destruct n as [|n]; [constructor|]. cbn [doInternal].
  change (marshalParams rt paramsNil "GET") with (@Ok Go.bytes Go.empty). cbv iota.
  destruct (newRequest rt "GET" u Go.empty) as [request|] eqn:Hn; [|constructor].
  apply newRequest_fields in Hn as (HM & HU & HB & HC & _).
  destruct (http_Do rt request σ) as [[response|] σ1]; cbn [sent];
    [|by repeat constructor].
  change (String.eqb "GET" "POST" && isRedirect response) with false. cbv iota.
  repeat destruct_match; cbn [sent]; by repeat constructor.
Qed.

(** Once [newRequest] has built the request of a call, that request is the
    first the HTTP client is handed, whatever the client answers; what
    follows it, after a POST only, is the GET of a redirect. *)
Lemma doInternal_sent_first (n : nat) (params : Params (Value rt)) (method u : string)
    (σ : World rt) (body : Go.bytes) (request : Request) :
  marshalParams rt params method = Ok body →
  newRequest rt method u body = Ok request →
  ∃ rest,
    sent (doInternal rt (S n) params method u σ) = request :: rest
    ∧ (method ≠ "POST" → rest = [])
    ∧ Forall (λ r, Method r = "GET" ∧ Body r = Go.empty
                   ∧ Header r !! "Content-Type" = None) rest.
Proof.
  intros Hm Hn. cbn [doInternal]. rewrite Hm, Hn.
  destruct (http_Do rt request σ) as [[response|] σ1]; cbn [sent];
    [|exists []; by repeat split].
  destruct (String.eqb_spec method "POST") as [->|Hne]; cbn [andb].
  - destruct (isRedirect response).
    + destruct (Location response) as [target|]; cbn [sent];
        [|exists []; by repeat split].
      exists (sent (doInternal rt n paramsNil "GET" target σ1)).
      split; [reflexivity|]. split; [done|].
      eapply Forall_impl; [apply doInternal_GET_sent|].
      intros r (HM & _ & HB & HC). by repeat split.
    + repeat destruct_match; cbn [sent]; exists []; by repeat split.
  - repeat destruct_match; cbn [sent]; exists []; by repeat split.
Qed.

(** C10.  With GET or DELETE the [params] argument does not matter to the
    run, and the request the call builds and sends has an empty body and no
    Content-Type header.  With POST the request the call builds and sends
    has the JSON Content-Type header and the marshalled [params] as its
    body, the empty object for a nil [params]; nothing else the call sends
    has a body.  A request is built when [http.NewRequest] accepts the URL
    and, for POST, [json.Marshal] the [params].  And of whatever is sent:
    a request with a method other than POST has an empty body and no
    Content-Type header; a request with POST comes from a POST call and
    carries the header and the marshalled [params]. *)
Theorem do_serializes_params_for_POST_only (w : WebDriverCore)
    (params : Params (Value rt)) (method urlFormat : string)
    (urlParams : list (Value rt)) (σ : World rt) :
  (method = "GET" ∨ method = "DELETE" →
   (∀ params' : Params (Value rt),
      do rt w params' method urlFormat urlParams σ
      = do rt w params method urlFormat urlParams σ)
   ∧ (http_NewRequest rt method (url w +:+ fmt_Sprintf rt urlFormat urlParams) = None →
      ∃ request : Request,
        sent (do rt w params method urlFormat urlParams σ) = [request]
        ∧ Method request = method
        ∧ URL request = url w +:+ fmt_Sprintf rt urlFormat urlParams
        ∧ Body request = Go.empty
        ∧ Header request !! "Content-Type" = None))
  ∧ (method = "POST" →
     ∀ body : Go.bytes,
       match params with
       | paramsNil | paramsEmptyMap => body = "{}"
       | paramsValue v => json_Marshal rt v = Ok body
       end →
       http_NewRequest rt "POST" (url w +:+ fmt_Sprintf rt urlFormat urlParams) = None →
       ∃ (request : Request) (rest : list Request),
         sent (do rt w params method urlFormat urlParams σ) = request :: rest
         ∧ Method request = "POST"
         ∧ URL request = url w +:+ fmt_Sprintf rt urlFormat urlParams
         ∧ Body request = body
         ∧ Header request !! "Content-Type" = Some ["application/json;charset=utf-8"]
         ∧ Forall (λ r, Method r = "GET" ∧ Body r = Go.empty
                        ∧ Header r !! "Content-Type" = None) rest)
  ∧ (∀ request : Request,
       request ∈ sent (do rt w params method urlFormat urlParams σ) →
       (Method request ≠ "POST" →
        Body request = Go.empty ∧ Header request !! "Content-Type" = None)
       ∧ (Method request = "POST" →
          method = "POST"
          ∧ Header request !! "Content-Type" = Some ["application/json;charset=utf-8"]
          ∧ match params with
            | paramsNil | paramsEmptyMap => Body request = "{}"
            | paramsValue v => json_Marshal rt v = Ok (Body request)
            end)).
Proof.
  split; [|split].
  - intros Hmethod. split; [destruct Hmethod as [-> | ->]; reflexivity|].
    intros Hnew.
    assert (method ≠ "POST") as Hne by (destruct Hmethod as [-> | ->]; discriminate).
    assert (marshalParams rt params method = Ok Go.empty) as Hm.
    { unfold marshalParams. by destruct (String.eqb_spec method "POST"). }
    assert (∃ request,
              newRequest rt method (url w +:+ fmt_Sprintf rt urlFormat urlParams) Go.empty
              = Ok request) as [request Hn].
    { unfold newRequest. rewrite Hnew. by eexists. }
    rewrite do_valid_method by (destruct Hmethod; auto).
    destruct (doInternal_sent_first 1 params method _ σ _ _ Hm Hn)
      as (rest & Hsent & Hrest & _).
    rewrite (Hrest Hne) in Hsent.
    apply newRequest_fields in Hn as (HM & HU & HB & HC & _).
    exists request. split; [exact Hsent|]. split; [exact HM|]. split; [exact HU|].
    split; [exact HB|]. rewrite HC. by destruct (String.eqb_spec method "POST").
  - intros -> body Hbody Hnew.
    assert (marshalParams rt params "POST" = Ok body) as Hm.
    { unfold marshalParams. simpl. by destruct params; subst. }
    assert (∃ request,
              newRequest rt "POST" (url w +:+ fmt_Sprintf rt urlFormat urlParams) body
              = Ok request) as [request Hn].
    { unfold newRequest. rewrite Hnew. by eexists. }
    rewrite do_valid_method by auto.
    destruct (doInternal_sent_first 1 params "POST" _ σ _ _ Hm Hn)
      as (rest & Hsent & _ & Hall).
    apply newRequest_fields in Hn as (HM & HU & HB & HC & _).
    exists request, rest. by repeat split.
  - intros request [(body & Hm & Hn)|(-> & target & Hn)]%sent_do;
      apply newRequest_fields in Hn as (HM & _ & HB & HC & _).
    + split.
      * intros Hne. rewrite HM in Hne.
        destruct (String.eqb_spec method "POST") as [|_]; [contradiction|].
        split; [|exact HC].
        rewrite HB. unfold marshalParams in Hm.
        destruct (String.eqb_spec method "POST") as [|_]; [contradiction|].
        by injection Hm as <-.
      * intros Heq. assert (method = "POST") as -> by congruence.
        split; [reflexivity|]. split; [exact HC|].
        rewrite HB. unfold marshalParams in Hm. simpl in Hm.
        destruct params; [by injection Hm as <-|by injection Hm as <-|exact Hm].
    + split.
      * intros _. split; [exact HB|exact HC].
      * rewrite HM. intros [=].
Qed.

End RequestBodies.

(** [GET /status] with [params] and without is the same run, and hands
    the client one request without a body.  [POST /session] with the
    params [{"message":"boom"}], answered by a redirect, hands it a POST
    with that body and the JSON Content-Type, then a GET without either;
    with nil [params] the body is the empty object. *)
Lemma do_serializes_params_for_POST_only_witness :
  Webdriver.do Scenario.server Scenario.hub (Webdriver.paramsValue Scenario.plainValue)
    "GET" "/status" [] Scenario.answersSession
  = Webdriver.do Scenario.server Scenario.hub Webdriver.paramsNil "GET" "/status" []
      Scenario.answersSession
  ∧ Webdriver.sent
      (Webdriver.do Scenario.server Scenario.hub
         (Webdriver.paramsValue Scenario.plainValue) "GET" "/status" []
         Scenario.answersSession)
    = [Webdriver.mkRequest "GET" "http://127.0.0.1:7055/hub/status"
         (Webdriver.Header_Set "Accept-Charset" "utf-8"
            (Webdriver.Header_Set "Accept" "application/json" ∅))
         Go.empty]
  ∧ (∃ (request : Webdriver.Request) (rest : list Webdriver.Request),
       Webdriver.sent
         (Webdriver.do Scenario.server Scenario.hub
            (Webdriver.paramsValue Scenario.plainValue) "POST" "/session" []
            Scenario.answersRedirect)
       = request :: rest
       ∧ Webdriver.Method request = "POST"
       ∧ Webdriver.URL request = "http://127.0.0.1:7055/hub/session"
       ∧ Webdriver.Body request = Scenario.plainValue
       ∧ Webdriver.Header request !! "Content-Type"
         = Some ["application/json;charset=utf-8"]
       ∧ Forall (λ r, Webdriver.Method r = "GET" ∧ Webdriver.Body r = Go.empty
                      ∧ Webdriver.Header r !! "Content-Type" = None) rest
       ∧ length rest = 1%nat)
  ∧ (∃ (request : Webdriver.Request) (rest : list Webdriver.Request),
       Webdriver.sent
         (Webdriver.do Scenario.server Scenario.hub Webdriver.paramsNil "POST" "/session" []
            Scenario.answersRedirect)
       = request :: rest
       ∧ Webdriver.Body request = "{}").
Proof.
  destruct (do_serializes_params_for_POST_only Scenario.server Scenario.hub
              (Webdriver.paramsValue Scenario.plainValue) "GET" "/status" []
              Scenario.answersSession) as (Hget & _ & _).
  destruct (Hget (or_introl eq_refl)) as (Hsame & Hone).
  destruct (Hone eq_refl) as (request & Hsent & _).
  split; [exact (Hsame Webdriver.paramsNil)|]. split; [reflexivity|]. split.
  - destruct (do_serializes_params_for_POST_only Scenario.server Scenario.hub
                (Webdriver.paramsValue Scenario.plainValue) "POST" "/session" []
                Scenario.answersRedirect) as (_ & Hpost & _).
    destruct (Hpost eq_refl Scenario.plainValue eq_refl eq_refl)
      as (first & rest & Hfirst & HM & HU & HB & HC & Hrest).
    exists first, rest. repeat (split; [assumption|]).
    assert (length (first :: rest) = 2%nat) as Hlen by (rewrite <- Hfirst; reflexivity).
    by injection Hlen.
  - destruct (do_serializes_params_for_POST_only Scenario.server Scenario.hub
                Webdriver.paramsNil "POST" "/session" []
                Scenario.answersRedirect) as (_ & Hpost & _).
    destruct (Hpost eq_refl "{}" eq_refl eq_refl)
      as (first & rest & Hfirst & _ & _ & HB & _).
    by exists first, rest.
Defined.

(** ** The supervisors *)

Section RetryLoops.
Import Webdriver Sys Common.

Variable sys : System.

(** The mutex-port loop ends once a round gets the port or reads a clock
    past the timeout. *)
Lemma lockMutexPort_terminates (timeout : Z) (fuel k n : nat) :
  (n < fuel)%nat →
  lock_Listen sys (k + n) = true ∨ lock_Since sys (k + n) > timeout →
  is_Some (FirefoxDriver.lockMutexPort sys fuel k timeout).
Proof.
  revert fuel k. induction n as [|n IH]; intros fuel k Hlt Hend.
  - destruct fuel as [|fuel]; [lia|]. simpl. rewrite Nat.add_0_r in Hend.
    destruct (lock_Listen sys k); [by eexists|].
    destruct Hend as [Hend|Hend]; [discriminate|].
    apply Z.gt_lt, Z.gtb_lt in Hend. rewrite Hend. by eexists.
  - destruct fuel as [|fuel]; [lia|]. simpl.
    destruct (lock_Listen sys k); [by eexists|].
    destruct (lock_Since sys k >? timeout); [by eexists|].
    apply IH; [lia|]. by replace (S k + n)%nat with (k + S n)%nat by lia.
Qed.

(** Likewise [probePort]. *)
Lemma probePort_terminates (port timeout : Z) (fuel k n : nat) :
  (n < fuel)%nat →
  net_Dial sys port (k + n) = true ∨ probe_Since sys (k + n) > timeout →
  is_Some (probePort_from sys fuel k port timeout).
Proof.
  revert fuel k. induction n as [|n IH]; intros fuel k Hlt Hend.
  - destruct fuel as [|fuel]; [lia|]. simpl. rewrite Nat.add_0_r in Hend.
    destruct (net_Dial sys port k); [destruct (conn_Close sys); by eexists|].
    destruct Hend as [Hend|Hend]; [discriminate|].
    apply Z.gt_lt, Z.gtb_lt in Hend. rewrite Hend. by eexists.
  - destruct fuel as [|fuel]; [lia|]. simpl.
    destruct (net_Dial sys port k); [destruct (conn_Close sys); by eexists|].
    destruct (probe_Since sys k >? timeout); [by eexists|].
    apply IH; [lia|]. by replace (S k + n)%nat with (k + S n)%nat by lia.
Qed.

(** The scan for a port: what it finds is the first candidate that accepts
    a listener, and closing that listener succeeded. *)
Lemma findAvailablePort_found (n : nat) (i p : Z) :
  FirefoxDriver.findAvailablePort sys n i = Ok (Some p) →
  i ≤ p < i + Z.of_nat n
  ∧ net_Listen sys p = true ∧ ln_Close sys p = None
  ∧ ∀ j, i ≤ j < p → net_Listen sys j = false.
Proof.
  revert i. induction n as [|n IH]; intros i; simpl; [discriminate|].
  destruct (net_Listen sys i) eqn:Hl.
  - destruct (ln_Close sys i) eqn:Hc; [discriminate|]. intros [= <-].
    repeat split; try lia; auto.
  - intros H. destruct (IH _ H) as (Hr & Hp & Hc & Hlow).
    repeat split; try lia; auto.
    intros j Hj. destruct (decide (j = i)) as [->|]; [exact Hl|]. apply Hlow. lia.
Qed.

(** The scan finds nothing only when no candidate accepts a listener. *)
Lemma findAvailablePort_exhausted (n : nat) (i : Z) :
  FirefoxDriver.findAvailablePort sys n i = Ok None →
  ∀ j, i ≤ j < i + Z.of_nat n → net_Listen sys j = false.
Proof.
  revert i. induction n as [|n IH]; intros i; simpl; [intros _ j Hj; lia|].
  destruct (net_Listen sys i) eqn:Hl.
  - destruct (ln_Close sys i); discriminate.
  - intros H j Hj. destruct (decide (j = i)) as [->|]; [exact Hl|].
    apply (IH _ H). lia.
Qed.

End RetryLoops.

Section FirefoxSupervisor.
Import Webdriver Sys Common Taxonomy FirefoxDriver.

Variable sys : System.

(** What the first block of [Start] leaves in [d.Port] when it returns no
    error. *)
Lemma allocatePort_port (fuel : nat) (d d1 : FirefoxDriver) :
  allocatePort sys fuel d = Some (d1, None) →
  (Port d ≠ 0 → Port d1 = Port d)
  ∧ (Port d = 0 →
     7055 ≤ Port d1 < 65535
     ∧ (∀ i, 7055 ≤ i < Port d1 → net_Listen sys i = false)
     ∧ ((∃ i, 7055 ≤ i < 65535 ∧ net_Listen sys i = true) →
        net_Listen sys (Port d1) = true ∧ ln_Close sys (Port d1) = None)).
Proof.
  unfold allocatePort. destruct (Z.eqb_spec (Port d) 0) as [H0|Hne].
  - cbn [Port setPort LockPortTimeout].
    destruct (lockMutexPort sys fuel 0 (LockPortTimeout d)) as [[err|]|]; try discriminate.
    destruct (findAvailablePort sys (Z.to_nat (65535 - 7055)) 7055) as [[p|]|] eqn:Hscan;
      try discriminate.
    + intros [= <-]. cbn [Port setPort]. split; [intros Hc; contradiction|]. intros _.
      apply findAvailablePort_found in Hscan as (Hr & Hl & Hc & Hlow).
      rewrite Z2Nat.id in Hr by lia. repeat split; auto; lia.
    + intros [= <-]. cbn [Port setPort]. split; [intros Hc; contradiction|]. intros _.
      pose proof (findAvailablePort_exhausted sys _ _ Hscan) as Hnone.
      rewrite Z2Nat.id in Hnone by lia.
      split; [lia|]. split; [intros i Hi; lia|].
      intros (i & Hi & Hl). rewrite Hnone in Hl by lia. discriminate.
  - intros [= <-]. split; [reflexivity|]. intros Hc. contradiction.
Qed.

(** The later stages of [Start] do not touch [d.Port]. *)
Lemma Start_after_allocatePort (fuel : nat) (d d' : FirefoxDriver) (e : option error) :
  Start sys fuel d = Some (d', e) →
  ∃ d1 e1, allocatePort sys fuel d = Some (d1, e1) ∧ Port d' = Port d1
           ∧ (e = None → e1 = None).
Proof.
  unfold Start.
  destruct (allocatePort sys fuel d) as [[d1 [e1|]]|]; [| |discriminate].
  { intros ?; simplify_eq. exists d', (Some e1). by repeat split. }
  repeat destruct_match; intros ?; simplify_eq;
    exists d1, None; repeat split; reflexivity.
Qed.

(** What holds of the port after a [Start] that returned no error, or
    whose port block at least returned none: it is the requested one when
    that was not 0; when it was 0 the port lies in 7055..65534, no
    candidate from 7055 up to it accepts a listener, and, when some
    candidate of the range does, the port is one on which the test listener
    was opened and closed: the first such. *)
Theorem Start_port_not_below_base (fuel : nat) (d d' : FirefoxDriver)
    (e : option error) :
  Start sys fuel d = Some (d', e) →
  e = None ∨ snd <$> allocatePort sys fuel d = Some None →
  (Port d ≠ 0 → Port d' = Port d)
  ∧ (Port d = 0 →
     7055 ≤ Port d' < 65535
     ∧ (∀ i, 7055 ≤ i < Port d' → net_Listen sys i = false)
     ∧ ((∃ i, 7055 ≤ i < 65535 ∧ net_Listen sys i = true) →
        net_Listen sys (Port d') = true ∧ ln_Close sys (Port d') = None)).
Proof.
  intros H Hok. apply Start_after_allocatePort in H as (d1 & e1 & Ha & -> & He).
  assert (e1 = None) as ->.
  { destruct Hok as [->|Hok]; [by apply He|]. rewrite Ha in Hok. by injection Hok. }
  by apply allocatePort_port in Ha.
Qed.

(** With clocks that pass the timeouts within the budget, [Start] returns. *)
Lemma Start_terminates (fuel n m : nat) (d : FirefoxDriver) :
  (n < fuel)%nat → (m < fuel)%nat →
  lock_Since sys n > LockPortTimeout d →
  (∀ port, probe_Since sys m > StartTimeout d ∨ net_Dial sys port m = true) →
  is_Some (Start sys fuel d).
Proof.
  intros Hn Hm Hlock Hprobe.
  assert (∀ port, is_Some (probePort sys fuel port (StartTimeout d))) as Hp.
  { intros port. unfold probePort. apply (probePort_terminates sys _ _ fuel 0 m Hm).
    destruct (Hprobe port); auto. }
  assert (is_Some (lockMutexPort sys fuel 0 (LockPortTimeout d))) as [l Hl].
  { apply (lockMutexPort_terminates sys _ fuel 0 n Hn). auto. }
  unfold Start, allocatePort.
  destruct (Port d =? 0); cbn [LockPortTimeout setPort]; [rewrite Hl|];
    repeat destruct_match; simplify_eq; try (by eexists); exfalso;
    match goal with
    | H : probePort sys fuel ?p ?t = None |- _ =>
        destruct (Hp p) as [? Hq];
        assert (probePort sys fuel p t = probePort sys fuel p (StartTimeout d))
          by reflexivity;
        congruence
    end.
Qed.

(** [Stop] on a driver that is not running returns the StateError. *)
Lemma Stop_not_running (d : FirefoxDriver) :
  cmd d = None →
  ∃ e, Stop d = (d, Returned (Some e), []) ∧ isStateError e = true.
Proof. intros H. unfold Stop. rewrite H. by eexists. Qed.

(** [Stop] on a running driver signals the child, closes the log, removes
    the profile when asked to, and clears the marker. *)
Lemma Stop_running (d : FirefoxDriver) (c : Cmd) (pid : Z) :
  cmd d = Some c → Process c = Some pid →
  ∃ effects, Stop d = (setCmd d None, Returned None, Signal pid :: effects).
Proof. intros H1 H2. unfold Stop. rewrite H1, H2. by eexists. Qed.

(** [Start] never looks at [d.cmd]: the error it returns is the same
    whether or not the driver is running. *)
Lemma Start_ignores_running (fuel : nat) (d : FirefoxDriver) (c : option Cmd) :
  snd <$> Start sys fuel (setCmd d c) = snd <$> Start sys fuel d.
Proof.
  destruct d. unfold Start, allocatePort.
  lazy beta iota zeta delta
    [setCmd setPort setPrefs setProfilePath setLogFile setUrl core Port
     LockPortTimeout StartTimeout LogFile Prefs DeleteProfileOnClose firefoxPath
     xpiPath profilePath cmd logFile Path Args Env Process].
  repeat destruct_match; reflexivity.
Qed.

Ltac records :=
  lazy beta iota zeta delta
    [setCmd setPort setPrefs setProfilePath setLogFile setUrl core Port
     LockPortTimeout StartTimeout LogFile Prefs DeleteProfileOnClose firefoxPath
     xpiPath profilePath cmd logFile Path Args Env Process].

Lemma allocatePort_fields (fuel : nat) (d d1 : FirefoxDriver) (e : option error) :
  allocatePort sys fuel d = Some (d1, e) →
  ∃ p, d1 = setPort d p ∧ (e = None → p ≠ 0).
Proof.
  unfold allocatePort. destruct (Z.eqb_spec (Port d) 0) as [H0|Hne].
  - cbn [Port setPort LockPortTimeout].
    destruct (lockMutexPort sys fuel 0 (LockPortTimeout d)) as [[err|]|];
      [| |discriminate].
    { intros [= <- <-]. by exists 7055. }
    destruct (findAvailablePort sys (Z.to_nat (65535 - 7055)) 7055) as [[p|]|] eqn:Hscan.
    + intros [= <- <-]. exists p. split; [by destruct d|].
      intros _. apply findAvailablePort_found in Hscan. lia.
    + intros [= <- <-]. by exists 7055.
    + intros [= <- <-]. by exists 7055.
  - intros [= <- <-]. exists (Port d). split; [by destruct d|done].
Qed.

(** C3.  The Firefox [Start] has no guard on a running driver.  After a
    [Start] that returned no error the marker is set; a second [Start]
    right after it, on a machine that answers as it did the first time,
    passes every stage again and returns no error either. *)
Theorem FirefoxDriver_Start_twice_not_refused (fuel : nat) (d d1 : FirefoxDriver) :
  Start sys fuel d = Some (d1, None) →
  is_Some (cmd d1) ∧ ∃ d2, Start sys fuel d1 = Some (d2, None).
Proof.
  intros H.
  destruct (allocatePort sys fuel d) as [[da ea]|] eqn:Ha.
  2: { unfold Start in H. rewrite Ha in H. discriminate. }
  revert H. unfold Start. rewrite Ha.
  destruct ea; [discriminate|].
  destruct (allocatePort_fields _ _ _ _ Ha) as (p0 & -> & Hport).
  specialize (Hport eq_refl). clear Ha.
  destruct d as [c0 pold l0 s0 lf pr dp fp xp pp cm lg]. records.
  destruct (createTempProfile sys xp (<["webdriver_firefox_port":=PInt p0]> pr))
    as [[path|] w] eqn:Hc; [|discriminate].
  records.
  destruct (cmd_Start sys) as [pid|] eqn:Hs; [|discriminate].
  records.
  destruct (negb (String.eqb lf Go.empty)) eqn:Hlf.
  - destruct (os_OpenFile sys lf) eqn:Ho; [discriminate|]. records.
    destruct (probePort sys fuel p0 s0) as [[|]|] eqn:Hp; try discriminate.
    intros [= <-]. records. split; [by eexists|].
    unfold allocatePort. records.
    destruct (Z.eqb_spec p0 0); [contradiction|]. records.
    rewrite insert_insert_eq, Hc. records. rewrite Hlf, Ho. records. rewrite Hp.
    by eexists.
  - destruct (probePort sys fuel p0 s0) as [[|]|] eqn:Hp; try discriminate.
    intros [= <-]. records. split; [by eexists|].
    unfold allocatePort. records.
    destruct (Z.eqb_spec p0 0); [contradiction|]. records.
    rewrite insert_insert_eq, Hc. records. rewrite Hlf. records. rewrite Hp.
    by eexists.
Qed.

End FirefoxSupervisor.

Section ChromeSupervisor.
Import Webdriver Sys Common Taxonomy ChromeDriver.

Variable sys : System.

Lemma Chrome_Stop_not_running (d : ChromeDriver) :
  cmd d = None →
  ∃ e, Stop d = (d, Returned (Some e), []) ∧ isStateError e = true.
Proof. intros H. unfold Stop. rewrite H. by eexists. Qed.

(** Both revisions of [Start] refuse a driver whose marker is set. *)
Lemma Chrome_Start_while_running (fuel : nat) (d : ChromeDriver) :
  is_Some (cmd d) →
  ∃ e, isStateError e = true
       ∧ Start sys fuel d = Some (d, Some e)
       ∧ StartRunBrowser sys fuel d = Some (d, Some e).
Proof.
  intros [c Hc]. unfold Start, StartRunBrowser. rewrite Hc.
  eexists. split; [|split; reflexivity]. reflexivity.
Qed.

(** After a [Start] without error the marker is set, in both revisions. *)
Lemma Chrome_Start_sets_marker (fuel : nat) (d d' : ChromeDriver) :
  Start sys fuel d = Some (d', None) ∨ StartRunBrowser sys fuel d = Some (d', None) →
  is_Some (cmd d').
Proof.
  unfold Start, StartRunBrowser, runBrowser.
  intros [H|H]; revert H; repeat destruct_match; intros ?; simplify_eq; by eexists.
Qed.

(** Two consecutive calls of the chromedriver [Start]: when the first
    returned no error, the second returns the StateError, whatever the
    machine does. *)
Lemma Chrome_Start_twice (sys' : System) (fuel fuel' : nat) (d d1 : ChromeDriver) :
  Start sys fuel d = Some (d1, None) →
  ∃ e, isStateError e = true ∧ Start sys' fuel' d1 = Some (d1, Some e).
Proof.
  intros H.
  assert (is_Some (cmd d1)) as [c Hc] by (eapply Chrome_Start_sets_marker; eauto).
  unfold Start. rewrite Hc. eexists. split; [|reflexivity]. reflexivity.
Qed.

(** The revision that calls [runBrowser]: when the launch fails, the
    marker stays clear, so that [Stop] returns the StateError. *)
Lemma StartRunBrowser_failed_launch (fuel : nat) (d d' : ChromeDriver)
    (e : error) (r : option error) :
  cmd d = None →
  cmd_Start sys = Err e →
  StartRunBrowser sys fuel d = Some (d', r) →
  cmd d' = None ∧ is_Some r
  ∧ (∃ e', Stop d' = (d', Returned (Some e'), []) ∧ isStateError e' = true).
Proof.
  intros Hc Hl. unfold StartRunBrowser, runBrowser. rewrite Hc, Hl.
  repeat destruct_match; intros ?; simplify_eq;
    (split; [done|]; split; [by eexists|]; by apply Chrome_Stop_not_running).
Qed.

End ChromeSupervisor.

(** With [runBrowser], a [Start] that failed to launch can be retried. *)
Lemma StartRunBrowser_retry :
  ∃ d1 d2 e,
    ChromeDriver.StartRunBrowser Scenario.noBinary 8 Scenario.chrome = Some (d1, Some e)
    ∧ ChromeDriver.cmd d1 = None
    ∧ ChromeDriver.StartRunBrowser Scenario.healthy 8 d1 = Some (d2, None).
Proof.
  eexists _, _, _. split; [vm_compute; reflexivity|]. split; [reflexivity|].
  vm_compute. reflexivity.
Qed.

(** On the machine where every call succeeds: a first [Start] of a new
    driver, then a second one. *)
Lemma FirefoxDriver_Start_twice_not_refused_witness :
  FirefoxDriver.Start Scenario.healthy 8 Scenario.firefox
  = Some (Scenario.firefoxAfterStart (Some 4242) "http://127.0.0.1:7057/hub", None)
  ∧ is_Some (FirefoxDriver.cmd
               (Scenario.firefoxAfterStart (Some 4242) "http://127.0.0.1:7057/hub"))
  ∧ ∃ d2, FirefoxDriver.Start Scenario.healthy 8
            (Scenario.firefoxAfterStart (Some 4242) "http://127.0.0.1:7057/hub")
          = Some (d2, None).
Proof.
  assert (FirefoxDriver.Start Scenario.healthy 8 Scenario.firefox
          = Some (Scenario.firefoxAfterStart (Some 4242) "http://127.0.0.1:7057/hub", None))
    as Hstart by (vm_compute; reflexivity).
  split; [exact Hstart|].
  exact (FirefoxDriver_Start_twice_not_refused Scenario.healthy 8 Scenario.firefox _ Hstart).
Defined.

(** C4.  When [cmd.Start()] fails, the Firefox [Start] and the chromedriver
    [Start] that launches the child itself return their error with [d.cmd]
    already set, its [Process] nil.  [Stop] then passes its guard and
    dereferences the nil [Process]: it does not return the StateError.  A
    retried chromedriver [Start] is refused as already running, on any
    machine. *)
Theorem failed_launch_leaves_marker_set (sys : Sys.System) (fuel : nat)
    (e : Webdriver.error) :
  Sys.cmd_Start sys = Webdriver.Err e →
  (∀ (d d1 : FirefoxDriver.FirefoxDriver) (path : string),
     FirefoxDriver.allocatePort sys fuel d = Some (d1, None) →
     (FirefoxDriver.createTempProfile sys (FirefoxDriver.xpiPath d1)
        (<["webdriver_firefox_port" := Sys.PInt (FirefoxDriver.Port d1)]>
           (FirefoxDriver.Prefs d1))).1 = Webdriver.Ok path →
     ∃ d' c,
       FirefoxDriver.Start sys fuel d
       = Some (d', Some (Webdriver.errorsNew
                           ("unable to start firefox: " +:+ Webdriver.errorString e)))
       ∧ FirefoxDriver.cmd d' = Some c ∧ Sys.Process c = None
       ∧ (FirefoxDriver.Stop d').1.2 = FirefoxDriver.Panicked)
  ∧ (∀ d : ChromeDriver.ChromeDriver,
       ChromeDriver.cmd d = None →
       ChromeDriver.LogPath d = Go.empty ∨ Sys.os_OpenFile sys (ChromeDriver.LogPath d) = None →
       Sys.cmd_StdoutPipe sys = None → Sys.cmd_StderrPipe sys = None →
       ∃ d' c,
         ChromeDriver.Start sys fuel d
         = Some (d', Some (Webdriver.errorsNew
                             (ChromeDriver.csferr +:+ Webdriver.errorString e)))
         ∧ ChromeDriver.cmd d' = Some c ∧ Sys.Process c = None
         ∧ (ChromeDriver.Stop d').1.2 = ChromeDriver.Panicked
         ∧ ∀ sys' fuel',
             ChromeDriver.Start sys' fuel' d'
             = Some (d', Some (Webdriver.errorsNew
                                 (ChromeDriver.csferr +:+ "chromedriver already running")))).
Proof.
  intros Hlaunch. split.
  - intros d d1 path Ha Hp. unfold FirefoxDriver.Start. rewrite Ha.
    cbn [FirefoxDriver.Prefs FirefoxDriver.setPrefs FirefoxDriver.xpiPath
         FirefoxDriver.Port].
    destruct (FirefoxDriver.createTempProfile sys _ _) as [r w]. cbn [fst] in Hp.
    subst r. rewrite Hlaunch. eexists _, _. split; [reflexivity|].
    split; [reflexivity|]. split; reflexivity.
  - intros d Hc Hlog Hout Herr. unfold ChromeDriver.Start. rewrite Hc.
    assert ((if negb (String.eqb (ChromeDriver.LogPath d) Go.empty)
             then match Sys.os_OpenFile sys (ChromeDriver.LogPath d) with
                  | Some err =>
                      Some (Webdriver.errorsNew
                              (ChromeDriver.csferr +:+ "unable to write in log path: "
                               +:+ Webdriver.errorString err))
                  | None => None
                  end
             else None) = None) as ->.
    { destruct Hlog as [-> | ->]; [reflexivity|].
      by destruct (negb (String.eqb (ChromeDriver.LogPath d) Go.empty)). }
    rewrite Hout, Herr, Hlaunch. eexists _, _. split; [reflexivity|].
    split; [reflexivity|]. split; [reflexivity|]. split; [reflexivity|].
    intros sys' fuel'. reflexivity.
Qed.

(** The binary that cannot be found: a new Firefox driver and a new
    chromedriver after their failed [Start]. *)
Lemma failed_launch_leaves_marker_set_witness :
  (∃ d' c,
     FirefoxDriver.Start Scenario.noBinary 8 Scenario.firefox
     = Some (d', Some (Webdriver.errorsNew
               "unable to start firefox: exec: executable file not found in $PATH"))
     ∧ FirefoxDriver.cmd d' = Some c ∧ Sys.Process c = None
     ∧ (FirefoxDriver.Stop d').1.2 = FirefoxDriver.Panicked)
  ∧ (∃ d' c,
       ChromeDriver.Start Scenario.noBinary 8 Scenario.chrome
       = Some (d', Some (Webdriver.errorsNew
                 "chromedriver start failed: exec: executable file not found in $PATH"))
       ∧ ChromeDriver.cmd d' = Some c ∧ Sys.Process c = None
       ∧ (ChromeDriver.Stop d').1.2 = ChromeDriver.Panicked
       ∧ ∀ sys' fuel',
           ChromeDriver.Start sys' fuel' d'
           = Some (d', Some (Webdriver.errorsNew
                     "chromedriver start failed: chromedriver already running"))).
Proof.
  destruct (failed_launch_leaves_marker_set Scenario.noBinary 8 _ eq_refl)
    as [Hfirefox Hchrome].
  split.
  - apply (Hfirefox Scenario.firefox (FirefoxDriver.setPort Scenario.firefox 7057)
             "/tmp/webdriver042"); vm_compute; reflexivity.
  - exact (Hchrome Scenario.chrome eq_refl (or_intror eq_refl) eq_refl eq_refl).
Defined.

(** The states those two drivers are left in. *)
Lemma failed_launch_states :
  FirefoxDriver.Start Scenario.noBinary 8 Scenario.firefox
  = Some (Scenario.firefoxAfterStart None Go.empty,
          Some (Webdriver.errorsNew
                  "unable to start firefox: exec: executable file not found in $PATH"))
  ∧ ChromeDriver.Start Scenario.noBinary 8 Scenario.chrome
    = Some (Scenario.chromeAfterStart None,
            Some (Webdriver.errorsNew
                    "chromedriver start failed: exec: executable file not found in $PATH")).
Proof. split; vm_compute; reflexivity. Qed.

(** When no candidate accepts a listener the scan falls through: [Start]
    goes on with port 7055, although no listener could be opened on it. *)
Lemma Start_all_ports_taken :
  (λ r, (FirefoxDriver.Port r.1, r.2))
  <$> FirefoxDriver.Start Scenario.allPortsTaken 8 Scenario.firefox
  = Some (7055, None)
  ∧ Sys.net_Listen Scenario.allPortsTaken 7055 = false.
Proof. split; [vm_compute; reflexivity|reflexivity]. Qed.

(** ** The preferences file *)

Section MapIteration.
Import Sys.

Context {A : Type}.

Lemma extract_Permutation (i : nat) (l : list A) (x : A) (r : list A) :
  extract i l = Some (x, r) → l ≡ₚ x :: r.
Proof.
  revert i x r. induction l as [|y l IH]; intros [|i] x r; simpl; try discriminate.
  { by intros [= <- <-]. }
  destruct (extract i l) as [[z r']|] eqn:E; [|discriminate].
  intros [= <- <-]. rewrite (IH _ _ _ E). apply perm_swap.
Qed.

(** Whatever the runtime draws, [range] visits every entry once. *)
Lemma visit_Permutation (draws : list nat) (l : list A) : visit draws l ≡ₚ l.
Proof.
  revert l. induction draws as [|n draws IH]; intros l; simpl; [reflexivity|].
  destruct (extract (n mod length l) l) as [[x r]|] eqn:E; [|reflexivity].
  by rewrite IH, (extract_Permutation _ _ _ _ E).
Qed.

Lemma extract_lookup (i : nat) (l : list A) (x : A) :
  l !! i = Some x → ∃ r, extract i l = Some (x, r).
Proof.
  revert i. induction l as [|y l IH]; intros [|i]; simpl; try discriminate.
  - intros [= ->]. by eexists.
  - intros H. destruct (IH _ H) as [r ->]. by eexists.
Qed.

(** And every order of the entries is the visit of some draws. *)
Lemma visit_any_order (l l' : list A) : l' ≡ₚ l → ∃ draws, visit draws l = l'.
Proof.
  revert l. induction l' as [|x l' IH]; intros l Hp.
  - apply Permutation_nil_l in Hp. subst. by exists [].
  - assert (x ∈ l) as Hin by (rewrite <- Hp; left).
    apply list_elem_of_lookup in Hin as [i Hi].
    destruct (extract_lookup _ _ _ Hi) as [r Hr].
    assert (l' ≡ₚ r) as Hr'.
    { apply (Permutation_cons_inv (a := x)).
      by rewrite Hp, (extract_Permutation _ _ _ _ Hr). }
    destruct (IH _ Hr') as [draws Hd].
    exists (i :: draws). simpl.
    assert (i < length l)%nat as Hlt by (by eapply lookup_lt_Some).
    rewrite Nat.mod_small by exact Hlt. rewrite Hr. by rewrite Hd.
Qed.

End MapIteration.

Section Range.
Import Sys.

Lemma range_Permutation {V : Type} (sys : System) (m : gmap string V) :
  range sys m ≡ₚ map_to_list m.
Proof. apply visit_Permutation. Qed.

Lemma range_elem_of {V : Type} (sys : System) (m : gmap string V) (k : string) (v : V) :
  (k, v) ∈ range sys m ↔ m !! k = Some v.
Proof. rewrite range_Permutation. apply elem_of_map_to_list. Qed.

(** The visited entries make up the map again. *)
Lemma list_to_map_range {V : Type} (sys : System) (m : gmap string V) :
  list_to_map (range sys m) = m.
Proof.
  rewrite <- (list_to_map_to_list m) at 2.
  apply list_to_map_proper; [|apply range_Permutation].
  rewrite range_Permutation. apply NoDup_fst_map_to_list.
Qed.

End Range.

Section Writer.
Import Webdriver Sys FirefoxDriver UserJs.

(** On supported values the loop writes the statements of the entries,
    one after the other, and returns no error. *)
Lemma writePrefs_supported (entries : list (string * PrefValue)) (written : string) :
  Forall (λ kv, supported kv.2 = true) entries →
  writePrefs entries written = (written +:+ concatStatements entries, None).
Proof.
  intros Hall. revert written.
  induction Hall as [|[k v] entries Hv _ IH]; intros written.
  - simpl. by rewrite append_empty_r.
  - cbn [writePrefs concatStatements].
    destruct v as [[|]|n|s|t]; [..|discriminate Hv]; rewrite IH; f_equal;
      unfold statementOf; cbn [fst snd valueText]; rewrite !append_assoc; reflexivity.
Qed.

(** The loop stops at the first entry of another type, with an error that
    names its key. *)
Lemma writePrefs_unsupported (entries : list (string * PrefValue)) (written : string) :
  Exists (λ kv, supported kv.2 = false) entries →
  ∃ k t written',
    (k, POther t) ∈ entries
    ∧ writePrefs entries written
      = (written', Some (errorsNew (cpferr +:+ "unexpected preference type: " +:+ k))).
Proof.
  revert written. induction entries as [|[k v] entries IH]; intros written Hex.
  - by apply Exists_nil in Hex.
  - destruct v as [b|n|s|t].
    1-3: apply Exists_cons in Hex as [Hex|Hex]; [discriminate Hex|];
         cbn [writePrefs];
         match goal with |- context [writePrefs _ ?w] =>
           destruct (IH w Hex) as (k' & t' & w' & Hin & ->) end;
         exists k', t', w'; split; [by right|reflexivity].
    exists k, t. eexists. split; [by left|reflexivity].
Qed.

(** Once [user.js] is open, the result of [createTempProfile] is that of
    the loop over the visited entries. *)
Lemma createTempProfile_writePrefs (sys : System) (xpiPath profilePath : string)
    (prefs : gmap string PrefValue) :
  opensUserJs sys xpiPath profilePath →
  createTempProfile sys xpiPath prefs
  = match writePrefs (range sys prefs) Go.empty with
    | (written, Some err) => (Err err, written)
    | (written, None) => (Ok profilePath, written)
    end.
Proof.
  intros (H1 & H2 & files & extName & H3 & H4 & H5 & H6 & H7).
  unfold createTempProfile. by rewrite H1, H2, H3, H4, H5, H6, H7.
Qed.

End Writer.

Section Reader.
Import Webdriver Sys UserJs.

Lemma stripPrefix_app (p s : string) : stripPrefix p (p +:+ s) = Some s.
Proof. induction p as [|a p IH]; simpl; [reflexivity|]. by rewrite Ascii.eqb_refl. Qed.

Lemma plainText_cons (c : Ascii.ascii) (s : string) :
  plainText (String c s) = plainChar c && plainText s.
Proof. reflexivity. Qed.

(** A plain text is read back up to the quote that closes it. *)
Lemma scanQuoted_plain (x rest : string) :
  plainText x = true → scanQuoted (x +:+ Go.dquote +:+ rest) = Some (x, rest).
Proof.
  induction x as [|c x IH]; intros Hx; [reflexivity|].
  rewrite plainText_cons in Hx. apply andb_prop in Hx as [Hc Hx].
  cbn [String.append scanQuoted]. rewrite (IH Hx).
  unfold plainChar in Hc.
  destruct (Ascii.nat_of_ascii c =? 34)%nat; [discriminate Hc|].
  destruct (Ascii.nat_of_ascii c =? 92)%nat; [discriminate Hc|].
  destruct (Ascii.nat_of_ascii c =? 10)%nat; [discriminate Hc|].
  destruct (Ascii.nat_of_ascii c =? 13)%nat; [discriminate Hc|].
  reflexivity.
Qed.

Lemma spanNum_numText (x : string) (c : Ascii.ascii) (r : string) :
  numText x = true → numChar c = false →
  spanNum (x +:+ String c r) = (x, String c r).
Proof.
  intros Hx Hc. induction x as [|a x IH]; cbn [String.append spanNum].
  - by rewrite Hc.
  - apply andb_prop in Hx as [Ha Hx]. rewrite Ha, (IH Hx). reflexivity.
Qed.

Lemma numText_cons (c : Ascii.ascii) (s : string) :
  numText (String c s) = numChar c && numText s.
Proof. reflexivity. Qed.

Lemma numText_uint (d : Decimal.uint) : numText (NilEmpty.string_of_uint d) = true.
Proof. induction d; simpl; auto. Qed.

Lemma numText_uint_zero (d : Decimal.uint) : numText (NilZero.string_of_uint d) = true.
Proof. destruct d; try reflexivity; unfold NilZero.string_of_uint; apply numText_uint. Qed.

Lemma numText_Itoa (n : Z) : numText (Go.Itoa n) = true.
Proof.
  unfold Go.Itoa. destruct (Z.to_int n) as [d|d]; unfold NilZero.string_of_int.
  - apply numText_uint_zero.
  - by rewrite numText_cons, numText_uint_zero.
Qed.

Lemma Itoa_nonempty (n : Z) : ∃ c r, Go.Itoa n = String c r.
Proof.
  unfold Go.Itoa. destruct (Z.to_int n) as [d|d]; simpl; [|by eexists _, _].
  destruct d; simpl; by eexists _, _.
Qed.

(** The decimal text of an integer reads back as that integer. *)
Lemma int_of_string_Itoa (n : Z) :
  Z.of_int <$> NilZero.int_of_string (Go.Itoa n) = Some n.
Proof.
  unfold Go.Itoa. rewrite NilZero.isi.
  - simpl. by rewrite DecimalZ.of_to.
  - destruct n; simpl; try discriminate.
    intros [= H]. by apply DecimalPos.Unsigned.to_uint_nonnil in H.
  - destruct n; simpl; try discriminate.
    intros [= H]. by apply DecimalPos.Unsigned.to_uint_nonnil in H.
Qed.

Lemma eqb_numChar (a c : Ascii.ascii) :
  numChar a = false → numChar c = true → Ascii.eqb a c = false.
Proof. intros Ha Hc. destruct (Ascii.eqb_spec a c); [congruence|reflexivity]. Qed.

(** A supported value whose text is plain reads back as itself. *)
Lemma parseValue_valueText (v : PrefValue) (rest : string) :
  supported v = true →
  match v with PString s => plainText s = true | _ => True end →
  parseValue (valueText v +:+ ")" +:+ rest) = Some (v, ")" +:+ rest).
Proof.
  intros Hs Hp. destruct v as [[|]|n|s|t]; [reflexivity|reflexivity| | |discriminate Hs].
  - destruct (Itoa_nonempty n) as (c & r & Hn).
    pose proof (numText_Itoa n) as Hnum.
    assert (numChar c = true) as Hc.
    { rewrite Hn in Hnum. by apply andb_prop in Hnum as [? _]. }
    cbn [valueText].
    assert (stripPrefix Go.dquote (Go.Itoa n +:+ ")" +:+ rest) = None) as H1.
    { rewrite Hn. cbn [String.append stripPrefix Go.dquote].
      by rewrite (eqb_numChar _ c) by (exact Hc || reflexivity). }
    assert (stripPrefix "true" (Go.Itoa n +:+ ")" +:+ rest) = None) as H2.
    { rewrite Hn. cbn [String.append stripPrefix].
      by rewrite (eqb_numChar _ c) by (exact Hc || reflexivity). }
    assert (stripPrefix "false" (Go.Itoa n +:+ ")" +:+ rest) = None) as H3.
    { rewrite Hn. cbn [String.append stripPrefix].
      by rewrite (eqb_numChar _ c) by (exact Hc || reflexivity). }
    assert (spanNum (Go.Itoa n +:+ ")" +:+ rest) = (Go.Itoa n, ")" +:+ rest)) as H4.
    { change (")" +:+ rest) with (String (Ascii.ascii_of_nat 41) rest).
      by apply spanNum_numText. }
    unfold parseValue. rewrite H1, H2, H3, H4.
    destruct (NilZero.int_of_string (Go.Itoa n)) as [d|] eqn:E;
      pose proof (int_of_string_Itoa n) as Hr; rewrite E in Hr; [|discriminate Hr].
    injection Hr as Hr. cbn [mbind option_bind]. by rewrite Hr.
  - unfold parseValue. cbn [valueText].
    rewrite !append_assoc, stripPrefix_app, scanQuoted_plain by exact Hp.
    reflexivity.
Qed.

End Reader.

Section RoundTrip.
Import Webdriver Sys FirefoxDriver UserJs.

Lemma statementOf_shape (kv : string * PrefValue) (rest : string) :
  statementOf kv +:+ rest
  = ("user_pref(" +:+ Go.dquote)
    +:+ (kv.1 +:+ Go.dquote +:+ (", " +:+ (valueText kv.2 +:+ ")"
                                            +:+ ((";" +:+ Go.newline) +:+ rest)))).
Proof. unfold statementOf. rewrite !append_assoc. reflexivity. Qed.

Lemma statementOf_nonempty (kv : string * PrefValue) (rest : string) :
  ∃ c r, statementOf kv +:+ rest = String c r.
Proof. rewrite statementOf_shape. by eexists _, _. Qed.

(** One statement reads back as its entry. *)
Lemma parseStatement_statementOf (kv : string * PrefValue) (rest : string) :
  supported kv.2 = true → plainEntry kv = true →
  parseStatement (statementOf kv +:+ rest) = Some (kv, rest).
Proof.
  intros Hs Hp. destruct kv as [k v]. apply andb_prop in Hp as [Hk Hv].
  cbn [fst snd] in *.
  rewrite statementOf_shape. unfold parseStatement. cbn [fst snd].
  rewrite stripPrefix_app. cbn [mbind option_bind].
  rewrite (scanQuoted_plain _ _ Hk). cbn [mbind option_bind].
  rewrite stripPrefix_app. cbn [mbind option_bind].
  rewrite parseValue_valueText; [|exact Hs|by destruct v].
  cbn [mbind option_bind].
  change (")" +:+ (";" +:+ Go.newline) +:+ rest) with ((");" +:+ Go.newline) +:+ rest).
  rewrite stripPrefix_app. reflexivity.
Qed.

Lemma parseStatements_step (fuel : nat) (c : Ascii.ascii) (r : string) :
  parseStatements (S fuel) (String c r)
  = '(kv, rest) ← parseStatement (String c r);
    entries ← parseStatements fuel rest;
    Some (kv :: entries).
Proof. reflexivity. Qed.

(** The statements of supported, plain entries read back as the entries,
    in order. *)
Lemma parseStatements_concatStatements (fuel : nat) (entries : list (string * PrefValue)) :
  (length entries ≤ fuel)%nat →
  Forall (λ kv, supported kv.2 = true) entries →
  Forall (λ kv, plainEntry kv = true) entries →
  parseStatements fuel (concatStatements entries) = Some entries.
Proof.
  revert fuel. induction entries as [|kv entries IH]; intros fuel Hlen Hs Hp.
  - by destruct fuel.
  - destruct fuel as [|fuel]; [simpl in Hlen; lia|].
    apply Forall_cons in Hs as [Hs Hss]. apply Forall_cons in Hp as [Hp Hps].
    cbn [concatStatements].
    destruct (statementOf_nonempty kv (concatStatements entries)) as (c & r & Hc).
    rewrite Hc, parseStatements_step, <- Hc.
    rewrite (parseStatement_statementOf _ _ Hs Hp). cbn [mbind option_bind].
    rewrite IH; [reflexivity|simpl in Hlen; lia|exact Hss|exact Hps].
Qed.

Lemma length_concatStatements (entries : list (string * PrefValue)) :
  (length entries ≤ String.length (concatStatements entries))%nat.
Proof.
  induction entries as [|kv entries IH]; [simpl; lia|].
  cbn [concatStatements length].
  destruct (statementOf_nonempty kv Go.empty) as (c & r & Hc).
  rewrite append_empty_r in Hc. rewrite length_append, Hc. simpl. lia.
Qed.

Lemma parseUserJs_concatStatements (entries : list (string * PrefValue)) :
  Forall (λ kv, supported kv.2 = true) entries →
  Forall (λ kv, plainEntry kv = true) entries →
  parseUserJs (concatStatements entries) = Some entries.
Proof.
  intros. apply parseStatements_concatStatements; auto.
  apply length_concatStatements.
Qed.

(** C5, amended.  Once [user.js] is open: when every value of the map is a
    boolean, an integer or a string, profile creation succeeds and the file
    is the statements [user_pref("key", value);] of the entries, each entry
    once, in the order the runtime visits them; when moreover no key and no
    string value holds a double quote, a backslash or a line break, reading
    the file back gives those entries, hence the map.  When some value has
    another type, profile creation fails with an error that names the key
    of such an entry. *)
Theorem createTempProfile_preferences (sys : System) (xpiPath profilePath : string)
    (prefs : gmap string PrefValue) :
  opensUserJs sys xpiPath profilePath →
  ((∀ k v, prefs !! k = Some v → supported v = true) →
   range sys prefs ≡ₚ map_to_list prefs
   ∧ createTempProfile sys xpiPath prefs
     = (Ok profilePath, concatStatements (range sys prefs))
   ∧ ((∀ k v, prefs !! k = Some v → plainEntry (k, v) = true) →
      parseUserJs (concatStatements (range sys prefs)) = Some (range sys prefs)
      ∧ list_to_map <$> parseUserJs (concatStatements (range sys prefs))
        = Some prefs))
  ∧ ((∃ k v, prefs !! k = Some v ∧ supported v = false) →
     ∃ k t written,
       prefs !! k = Some (POther t)
       ∧ createTempProfile sys xpiPath prefs
         = (Err (errorsNew (cpferr +:+ "unexpected preference type: " +:+ k)), written)).
Proof.
  intros Hopen. rewrite (createTempProfile_writePrefs _ _ _ _ Hopen). split.
  - intros Hsup.
    assert (Forall (λ kv, supported kv.2 = true) (range sys prefs)) as Hall.
    { apply Forall_forall. intros [k v] Hin. apply range_elem_of in Hin. eauto. }
    split; [apply range_Permutation|].
    rewrite (writePrefs_supported _ _ Hall). split; [reflexivity|].
    intros Hplain.
    assert (Forall (λ kv, plainEntry kv = true) (range sys prefs)) as Hpl.
    { apply Forall_forall. intros [k v] Hin. apply range_elem_of in Hin. eauto. }
    rewrite (parseUserJs_concatStatements _ Hall Hpl). split; [reflexivity|].
    cbn [fmap option_fmap option_map]. f_equal. apply list_to_map_range.
  - intros (k & v & Hkv & Hv).
    assert (Exists (λ kv, supported kv.2 = false) (range sys prefs)) as Hex.
    { apply Exists_exists. exists (k, v). split; [by apply range_elem_of|exact Hv]. }
    destruct (writePrefs_unsupported _ Go.empty Hex) as (k' & t & w & Hin & ->).
    exists k', t, w. split; [by apply range_elem_of in Hin|reflexivity].
Qed.

End RoundTrip.

Lemma opensUserJs_healthy (xpiPath : string) :
  UserJs.opensUserJs Scenario.healthy xpiPath "/tmp/webdriver042".
Proof.
  split; [reflexivity|]. split; [reflexivity|].
  exists Scenario.xpi, "fxdriver@googlecode.com". repeat split.
Qed.

(** The default preferences are written and read back; a [float64]
    preference is refused by name. *)
Lemma createTempProfile_preferences_witness :
  FirefoxDriver.createTempProfile Scenario.healthy "webdriver.xpi"
    FirefoxDriver.GetDefaultPrefs
  = (Webdriver.Ok "/tmp/webdriver042",
     UserJs.concatStatements (Sys.range Scenario.healthy FirefoxDriver.GetDefaultPrefs))
  ∧ list_to_map
    <$> UserJs.parseUserJs
          (UserJs.concatStatements (Sys.range Scenario.healthy FirefoxDriver.GetDefaultPrefs))
    = Some FirefoxDriver.GetDefaultPrefs
  ∧ ∃ k t written,
      Scenario.floatPrefs !! k = Some (Sys.POther t)
      ∧ FirefoxDriver.createTempProfile Scenario.healthy "webdriver.xpi" Scenario.floatPrefs
        = (Webdriver.Err (Webdriver.errorsNew
             (FirefoxDriver.cpferr +:+ "unexpected preference type: " +:+ k)), written).
Proof.
  assert (∀ k v, FirefoxDriver.GetDefaultPrefs !! k = Some v →
                 UserJs.supported v = true ∧ UserJs.plainEntry (k, v) = true) as Hdefault.
  { intros k v Hkv. apply elem_of_map_to_list in Hkv. revert Hkv.
    assert (Forall (λ kv, UserJs.supported kv.2 = true ∧ UserJs.plainEntry kv = true)
              (map_to_list FirefoxDriver.GetDefaultPrefs)) as Hall.
    { apply Forall_forall. intros kv Hin.
      apply (Forall_forall (λ kv, UserJs.supported kv.2 && UserJs.plainEntry kv = true)
               (map_to_list FirefoxDriver.GetDefaultPrefs)) in Hin.
      - by apply andb_prop in Hin.
      - apply Forall_fold_right. vm_compute. tauto. }
    intros Hin. by apply (proj1 (Forall_forall _ _) Hall (k, v)) in Hin. }
  destruct (createTempProfile_preferences Scenario.healthy "webdriver.xpi"
              "/tmp/webdriver042" FirefoxDriver.GetDefaultPrefs
              (opensUserJs_healthy "webdriver.xpi")) as [Hgood _].
  destruct (Hgood (λ k v H, proj1 (Hdefault k v H))) as (_ & Hfile & Hback).
  destruct (Hback (λ k v H, proj2 (Hdefault k v H))) as (_ & Hmap).
  split; [exact Hfile|]. split; [exact Hmap|].
  destruct (createTempProfile_preferences Scenario.healthy "webdriver.xpi"
              "/tmp/webdriver042" Scenario.floatPrefs
              (opensUserJs_healthy "webdriver.xpi")) as [_ Hbad].
  apply Hbad. exists "layout.css.devPixelsPerPx", (Sys.POther "float64").
  split; reflexivity.
Defined.

(** C5, as stated, fails on strings.  The one preference [homepage] with
    the value [a"b] is written as [user_pref("homepage", "a"b");], which
    does not read back.  And the one preference [a] whose value closes its
    statement and opens another gives, byte for byte, the file of the two
    preferences [a] and [b]: no reader can tell the two maps apart. *)
Lemma createTempProfile_does_not_round_trip :
  (∀ k v, Scenario.quotedPrefs !! k = Some v → UserJs.supported v = true)
  ∧ FirefoxDriver.createTempProfile Scenario.healthy "webdriver.xpi" Scenario.quotedPrefs
    = (Webdriver.Ok "/tmp/webdriver042",
       "user_pref(" +:+ Go.dquote +:+ "homepage" +:+ Go.dquote +:+ ", " +:+ Go.dquote
       +:+ "a" +:+ Go.dquote +:+ "b" +:+ Go.dquote +:+ ");" +:+ Go.newline)
  ∧ UserJs.parseUserJs
      (FirefoxDriver.createTempProfile Scenario.healthy "webdriver.xpi"
         Scenario.quotedPrefs).2
    = None
  ∧ Scenario.smugglingPrefs ≠ Scenario.twoPrefs
  ∧ (∀ k v, Scenario.smugglingPrefs !! k = Some v → UserJs.supported v = true)
  ∧ FirefoxDriver.createTempProfile Scenario.healthy "webdriver.xpi"
      Scenario.smugglingPrefs
    = FirefoxDriver.createTempProfile Scenario.healthy "webdriver.xpi" Scenario.twoPrefs.
Proof.
  split.
  { intros k v. unfold Scenario.quotedPrefs. intros [_ <-]%lookup_singleton_Some.
    reflexivity. }
  split; [vm_compute; reflexivity|]. split; [vm_compute; reflexivity|].
  split.
  { intros H. assert (Scenario.smugglingPrefs !! "b" = Scenario.twoPrefs !! "b") as Hb
      by (by rewrite H).
    vm_compute in Hb. discriminate Hb. }
  split; [|vm_compute; reflexivity].
  intros k v. unfold Scenario.smugglingPrefs. intros [_ <-]%lookup_singleton_Some.
  reflexivity.
Qed.

(** ** More on the retry loops and on port allocation *)

Section ProbePort.
Import Webdriver Sys Common.

Variable sys : System.

Lemma probePort_from_outcome (fuel k : nat) (port timeout : Z) (r : option error) :
  probePort_from sys fuel k port timeout = Some r ↔
  ∃ n, (n < fuel)%nat
    ∧ (∀ j, (j < n)%nat →
         net_Dial sys port (k + j) = false ∧ probe_Since sys (k + j) ≤ timeout)
    ∧ ((net_Dial sys port (k + n) = true ∧ r = conn_Close sys)
       ∨ (net_Dial sys port (k + n) = false ∧ probe_Since sys (k + n) > timeout
          ∧ r = Some (errorsNew "start failed: timeout expired"))).
Proof.
  revert k. induction fuel as [|fuel IH]; intros k.
  { simpl. split; [discriminate|]. intros (n & Hn & _). lia. }
  cbn [probePort_from].
  destruct (net_Dial sys port k) eqn:Hd.
  - assert (match conn_Close sys with
            | Some err => Some (Some err)
            | None => Some None
            end = Some (conn_Close sys)) as -> by (by destruct (conn_Close sys)).
    split.
    + intros [= <-]. exists 0%nat. rewrite Nat.add_0_r.
      split; [lia|]. split; [intros j Hj; lia|]. by left.
    + intros (n & _ & Hbefore & Hat). destruct n as [|n].
      * rewrite Nat.add_0_r in Hat. destruct Hat as [[_ ->]|[Hf _]]; [done|congruence].
      * destruct (Hbefore 0%nat ltac:(lia)) as [Hf _]. rewrite Nat.add_0_r in Hf.
        congruence.
  - destruct (probe_Since sys k >? timeout) eqn:Hs.
    + apply Z.gtb_lt in Hs. split.
      * intros [= <-]. exists 0%nat. rewrite Nat.add_0_r.
        split; [lia|]. split; [intros j Hj; lia|]. right. split; [done|]. split; [lia|done].
      * intros (n & _ & Hbefore & Hat). destruct n as [|n].
        -- rewrite Nat.add_0_r in Hat. destruct Hat as [[Ht _]|(_ & _ & ->)]; [congruence|done].
        -- destruct (Hbefore 0%nat ltac:(lia)) as [_ Hle]. rewrite Nat.add_0_r in Hle. lia.
    + assert (probe_Since sys k ≤ timeout) as Hle.
      { destruct (Z.gtb_spec (probe_Since sys k) timeout); [discriminate|lia]. }
      rewrite IH. split.
      * intros (n & Hn & Hbefore & Hat). exists (S n). split; [lia|]. split.
        -- intros [|j] Hj; [by rewrite Nat.add_0_r|].
           replace (k + S j)%nat with (S k + j)%nat by lia. apply Hbefore. lia.
        -- by replace (k + S n)%nat with (S k + n)%nat by lia.
      * intros (n & Hn & Hbefore & Hat). destruct n as [|n].
        { rewrite Nat.add_0_r in Hat. destruct Hat as [[Ht _]|(_ & Hgt & _)]; [congruence|lia]. }
        exists n. split; [lia|]. split.
        -- intros j Hj. replace (S k + j)%nat with (k + S j)%nat by lia. apply Hbefore. lia.
        -- by replace (S k + n)%nat with (k + S n)%nat by lia.
Qed.

(** X1.  [probePort] returns exactly when, within the budget, some round
    [n] ends the loop after [n] rounds that neither connected nor read a
    clock past the timeout: round [n] connects, and the result is that of
    closing the connection (a closing error is returned as it is); or round
    [n] fails to connect and reads a clock past the timeout, and the result
    is the timeout error.  The dial comes before the clock: at least one
    dial is made whatever the timeout. *)
Theorem probePort_outcome (fuel : nat) (port timeout : Z) (r : option error) :
  probePort sys fuel port timeout = Some r ↔
  ∃ n, (n < fuel)%nat
    ∧ (∀ j, (j < n)%nat → net_Dial sys port j = false ∧ probe_Since sys j ≤ timeout)
    ∧ ((net_Dial sys port n = true ∧ r = conn_Close sys)
       ∨ (net_Dial sys port n = false ∧ probe_Since sys n > timeout
          ∧ r = Some (errorsNew "start failed: timeout expired"))).
Proof. unfold probePort. by rewrite probePort_from_outcome. Qed.

End ProbePort.

Section MutexPort.
Import Webdriver Sys Common FirefoxDriver.

Variable sys : System.

(** The only error of the mutex-port loop is its timeout. *)
Lemma lockMutexPort_outcome_shape (fuel k : nat) (timeout : Z) (err : error) :
  lockMutexPort sys fuel k timeout = Some (Some err) →
  err = errorsNew "timeout expired trying to lock mutex port".
Proof.
  revert k. induction fuel as [|fuel IH]; intros k; simpl; [discriminate|].
  destruct (lock_Listen sys k); [discriminate|].
  destruct (lock_Since sys k >? timeout); [by intros [= <-]|]. apply IH.
Qed.

End MutexPort.

Section PortAllocation.
Import Webdriver Sys Common FirefoxDriver.

Variable sys : System.

(** A scan over candidates that all refuse a listener finds nothing. *)
Lemma findAvailablePort_none (n : nat) (i : Z) :
  (∀ j, i ≤ j < i + Z.of_nat n → net_Listen sys j = false) →
  findAvailablePort sys n i = Ok None.
Proof.
  revert i. induction n as [|n IH]; intros i Hall; [reflexivity|].
  cbn [findAvailablePort]. rewrite Hall by lia. apply IH.
  intros j Hj. apply Hall. lia.
Qed.

(** X2.  When the mutex port was taken and no port from 7055 to 65534
    accepts a listener, the port block of [Start] reports no error: the
    scan ends without a word and the driver goes on with port 7055. *)
Theorem allocatePort_exhausted (fuel : nat) (d : FirefoxDriver) :
  Port d = 0 →
  lockMutexPort sys fuel 0 (LockPortTimeout d) = Some None →
  (∀ i, 7055 ≤ i < 65535 → net_Listen sys i = false) →
  allocatePort sys fuel d = Some (setPort d 7055, None).
Proof.
  intros H0 Hlock Hall. unfold allocatePort. rewrite H0.
  change (0 =? 0) with true. cbv iota. cbn [LockPortTimeout setPort Port].
  rewrite Hlock, findAvailablePort_none; [reflexivity|].
  intros j Hj. apply Hall. lia.
Qed.

(** A scan stops at the first candidate that accepts a listener. *)
Lemma findAvailablePort_first (n : nat) (i p : Z) :
  i ≤ p < i + Z.of_nat n →
  (∀ j, i ≤ j < p → net_Listen sys j = false) →
  net_Listen sys p = true →
  findAvailablePort sys n i
  = match ln_Close sys p with Some err => Err err | None => Ok (Some p) end.
Proof.
  revert i. induction n as [|n IH]; intros i Hp Hlow Hl; [lia|].
  cbn [findAvailablePort]. destruct (decide (i = p)) as [->|Hne].
  - by rewrite Hl.
  - rewrite Hlow by lia. apply IH; [lia| |exact Hl].
    intros j Hj. apply Hlow. lia.
Qed.

(** With port 0, once the mutex port is taken, the port block returns: with
    the first port from 7055 on that accepts a listener when closing that
    listener succeeds, with the error of closing it otherwise. *)
Lemma allocatePort_first_free (fuel : nat) (d : FirefoxDriver) (p : Z) :
  Port d = 0 →
  lockMutexPort sys fuel 0 (LockPortTimeout d) = Some None →
  7055 ≤ p < 65535 →
  (∀ j, 7055 ≤ j < p → net_Listen sys j = false) →
  net_Listen sys p = true →
  allocatePort sys fuel d
  = Some (match ln_Close sys p with
          | Some err => (setPort d 7055, Some err)
          | None => (setPort d p, None)
          end).
Proof.
  intros H0 Hlock Hp Hlow Hl. unfold allocatePort. rewrite H0.
  change (0 =? 0) with true. cbv iota. cbn [LockPortTimeout setPort Port].
  rewrite Hlock, (findAvailablePort_first _ 7055 p); [|lia|exact Hlow|exact Hl].
  by destruct (ln_Close sys p).
Qed.

(** The port block never leaves [d.Port] at 0. *)
Lemma allocatePort_nonzero (fuel : nat) (d d1 : FirefoxDriver) (e : option error) :
  allocatePort sys fuel d = Some (d1, e) → Port d1 ≠ 0.
Proof.
  unfold allocatePort. destruct (Z.eqb_spec (Port d) 0) as [H0|Hne].
  - cbn [Port setPort LockPortTimeout].
    destruct (lockMutexPort sys fuel 0 (LockPortTimeout d)) as [[err|]|];
      [| |discriminate].
    { intros [= <- <-]. cbn. lia. }
    destruct (findAvailablePort sys (Z.to_nat (65535 - 7055)) 7055) as [[p|]|] eqn:Hscan.
    + intros [= <- <-]. cbn. apply findAvailablePort_found in Hscan. lia.
    + intros [= <- <-]. cbn. lia.
    + intros [= <- <-]. cbn. lia.
  - by intros [= <- <-].
Qed.

(** X3.  Whatever [Start] returns, it leaves a non-zero [d.Port]; so a
    later [Start] of the same driver, on any machine, skips the mutex port
    and the scan and keeps that port.  This holds after a failed [Start]
    too: after the timeout on the mutex port the driver is left with port
    7055, which the next [Start] uses without a check. *)
Theorem Start_allocates_once (fuel : nat) (d d' : FirefoxDriver) (e : option error) :
  Start sys fuel d = Some (d', e) →
  Port d' ≠ 0
  ∧ (∀ (sys' : System) (fuel' : nat), allocatePort sys' fuel' d' = Some (d', None))
  ∧ (Port d = 0 →
     lockMutexPort sys fuel 0 (LockPortTimeout d) ≠ Some None →
     d' = setPort d 7055
     ∧ e = Some (errorsNew "timeout expired trying to lock mutex port")).
Proof.
  intros H.
  assert (Port d' ≠ 0) as Hport.
  { destruct (Start_after_allocatePort sys _ _ _ _ H) as (d1 & e1 & Ha & -> & _).
    by apply allocatePort_nonzero in Ha. }
  split; [exact Hport|]. split.
  - intros sys' fuel'. unfold allocatePort.
    by destruct (Z.eqb_spec (Port d') 0).
  - intros H0 Hlock. revert H. unfold Start, allocatePort. rewrite H0.
    change (0 =? 0) with true. cbv iota. cbn [LockPortTimeout setPort Port].
    revert Hlock. generalize (lockMutexPort_outcome_shape sys fuel 0 (LockPortTimeout d)).
    destruct (lockMutexPort sys fuel 0 (LockPortTimeout d)) as [[err|]|];
      [|done|discriminate].
    intros Hshape _ [= <- <-]. split; [reflexivity|]. by rewrite (Hshape err).
Qed.

End PortAllocation.

(** ** A successful [Start], and the [Stop] that follows it *)

Section FirefoxLifeCycle.
Import Webdriver Sys Common FirefoxDriver.

Variable sys : System.

Ltac fields :=
  lazy beta iota zeta delta
    [setCmd setPort setPrefs setProfilePath setLogFile setUrl core Port
     LockPortTimeout StartTimeout LogFile Prefs DeleteProfileOnClose firefoxPath
     xpiPath profilePath cmd logFile Path Args Env Process url].

(** The directory [createTempProfile] returns is the one [ioutil.TempDir]
    made. *)
Lemma createTempProfile_path (xpi : string) (prefs : gmap string PrefValue)
    (path written : string) :
  createTempProfile sys xpi prefs = (Ok path, written) →
  ioutil_TempDir sys = Ok path.
Proof.
  unfold createTempProfile.
  destruct (ioutil_TempDir sys) as [p|]; [|discriminate].
  repeat destruct_match; intros ?; simplify_eq; reflexivity.
Qed.

(** The driver a [Start] without error leaves, field by field. *)
Lemma Start_success (fuel : nat) (d d' : FirefoxDriver) :
  Start sys fuel d = Some (d', None) →
  ∃ (p : Z) (path written : string) (pid : Z),
    allocatePort sys fuel d = Some (setPort d p, None)
    ∧ p ≠ 0
    ∧ createTempProfile sys (xpiPath d) (<["webdriver_firefox_port" := PInt p]> (Prefs d))
      = (Ok path, written)
    ∧ cmd_Start sys = Ok pid
    ∧ (LogFile d ≠ Go.empty → os_OpenFile sys (LogFile d) = None)
    ∧ probePort sys fuel p (StartTimeout d) = Some None
    ∧ d' = mkFirefoxDriver
             (mkWebDriverCore ("http://127.0.0.1:" +:+ Go.Itoa p +:+ "/hub"))
             p (LockPortTimeout d) (StartTimeout d) (LogFile d)
             (<["webdriver_firefox_port" := PInt p]> (Prefs d))
             (DeleteProfileOnClose d) (firefoxPath d) (xpiPath d) path
             (Some (mkCmd (firefoxPath d) ["-no-remote"; "-profile"; path] [] (Some pid)))
             (if String.eqb (LogFile d) Go.empty then logFile d else Some (LogFile d)).
Proof.
  unfold Start.
  destruct (allocatePort sys fuel d) as [[da [ea|]]|] eqn:Ha; [discriminate| |discriminate].
  destruct (allocatePort_fields sys _ _ _ _ Ha) as (p & -> & Hp). specialize (Hp eq_refl).
  destruct d as [c0 pold l0 s0 lf pr dp fp xp pp cm lg]. fields.
  destruct (createTempProfile sys xp (<["webdriver_firefox_port":=PInt p]> pr))
    as [[path|] written] eqn:Hc; [|discriminate].
  fields. destruct (cmd_Start sys) as [pid|] eqn:Hs; [|discriminate]. fields.
  destruct (String.eqb_spec lf Go.empty) as [->|Hlf]; cbn [negb]; cbv iota.
  - destruct (probePort sys fuel p s0) as [[|]|] eqn:Hprobe; try discriminate.
    intros [= <-]. exists p, path, written, pid. repeat split; try done.
  - destruct (os_OpenFile sys lf) eqn:Ho; [discriminate|]. fields.
    destruct (probePort sys fuel p s0) as [[|]|] eqn:Hprobe; try discriminate.
    intros [= <-]. exists p, path, written, pid. repeat split; try done.
Qed.

(** The converse: when the port block leaves port [p] and the later
    stages succeed, [Start] returns no error and that driver. *)
Lemma Start_returns (fuel : nat) (d : FirefoxDriver) (p : Z) (path written : string)
    (pid : Z) :
  allocatePort sys fuel d = Some (setPort d p, None) →
  createTempProfile sys (xpiPath d) (<["webdriver_firefox_port" := PInt p]> (Prefs d))
  = (Ok path, written) →
  cmd_Start sys = Ok pid →
  (LogFile d ≠ Go.empty → os_OpenFile sys (LogFile d) = None) →
  probePort sys fuel p (StartTimeout d) = Some None →
  Start sys fuel d
  = Some (mkFirefoxDriver
            (mkWebDriverCore ("http://127.0.0.1:" +:+ Go.Itoa p +:+ "/hub"))
            p (LockPortTimeout d) (StartTimeout d) (LogFile d)
            (<["webdriver_firefox_port" := PInt p]> (Prefs d))
            (DeleteProfileOnClose d) (firefoxPath d) (xpiPath d) path
            (Some (mkCmd (firefoxPath d) ["-no-remote"; "-profile"; path] [] (Some pid)))
            (if String.eqb (LogFile d) Go.empty then logFile d else Some (LogFile d)),
          None).
Proof.
  intros Ha Hc Hs Hlog Hprobe. unfold Start. rewrite Ha. revert Hc Hlog Hprobe.
  destruct d as [c0 pold l0 s0 lf pr dp fp xp pp cm lg]. fields.
  intros Hc Hlog Hprobe. rewrite Hc. fields. rewrite Hs. fields.
  destruct (String.eqb_spec lf Go.empty) as [->|Hlf]; cbn [negb]; cbv iota.
  - by rewrite Hprobe.
  - rewrite (Hlog Hlf). fields. by rewrite Hprobe.
Qed.

(** C9.  An allocation that reports no error does not always leave a port
    on which a test listener could be opened.  With port 0, once the mutex
    port is taken, when no port from 7055 to 65534 accepts a listener the
    scan ends without having set a port and without an error: the port
    block leaves 7055, and [Start], when its later stages succeed, returns
    no error with the driver on port 7055, a port that refused the test
    listener, written to the profile and made the address of the
    driver. *)
Theorem Start_goes_on_with_untested_port (fuel : nat) (d : FirefoxDriver)
    (path written : string) (pid : Z) :
  Port d = 0 →
  lockMutexPort sys fuel 0 (LockPortTimeout d) = Some None →
  (∀ i, 7055 ≤ i < 65535 → net_Listen sys i = false) →
  createTempProfile sys (xpiPath d) (<["webdriver_firefox_port" := PInt 7055]> (Prefs d))
  = (Ok path, written) →
  cmd_Start sys = Ok pid →
  (LogFile d ≠ Go.empty → os_OpenFile sys (LogFile d) = None) →
  probePort sys fuel 7055 (StartTimeout d) = Some None →
  allocatePort sys fuel d = Some (setPort d 7055, None)
  ∧ ∃ d',
      Start sys fuel d = Some (d', None)
      ∧ Port d' = 7055
      ∧ net_Listen sys (Port d') = false
      ∧ Prefs d' !! "webdriver_firefox_port" = Some (PInt 7055)
      ∧ url (core d') = "http://127.0.0.1:7055/hub".
Proof.
  intros H0 Hlock Hall Hc Hs Hlog Hprobe.
  assert (allocatePort sys fuel d = Some (setPort d 7055, None)) as Ha.
  { unfold allocatePort. rewrite H0.
    change (0 =? 0) with true. cbv iota. cbn [LockPortTimeout setPort Port].
    rewrite Hlock, findAvailablePort_none; [reflexivity|].
    intros j Hj. apply Hall. lia. }
  split; [exact Ha|].
  eexists. split; [exact (Start_returns fuel d 7055 path written pid Ha Hc Hs Hlog Hprobe)|].
  cbn [Port Prefs core url]. split; [reflexivity|]. split; [apply Hall; lia|].
  split; [apply lookup_insert_eq|reflexivity].
Qed.

(** When some port accepts a listener, the allocation is as the scan is
    meant: [Start] returns no error with the driver on the first port from
    7055 on that accepted the test listener, closed without error. *)
Lemma Start_on_first_free_port (fuel : nat) (d : FirefoxDriver) (p : Z)
    (path written : string) (pid : Z) :
  Port d = 0 →
  lockMutexPort sys fuel 0 (LockPortTimeout d) = Some None →
  7055 ≤ p < 65535 →
  (∀ j, 7055 ≤ j < p → net_Listen sys j = false) →
  net_Listen sys p = true → ln_Close sys p = None →
  createTempProfile sys (xpiPath d) (<["webdriver_firefox_port" := PInt p]> (Prefs d))
  = (Ok path, written) →
  cmd_Start sys = Ok pid →
  (LogFile d ≠ Go.empty → os_OpenFile sys (LogFile d) = None) →
  probePort sys fuel p (StartTimeout d) = Some None →
  ∃ d', Start sys fuel d = Some (d', None) ∧ Port d' = p.
Proof.
  intros H0 Hlock Hp Hlow Hl Hclose Hc Hs Hlog Hprobe.
  pose proof (allocatePort_first_free sys fuel d p H0 Hlock Hp Hlow Hl) as Ha.
  rewrite Hclose in Ha.
  eexists. split; [exact (Start_returns fuel d p path written pid Ha Hc Hs Hlog Hprobe)|].
  reflexivity.
Qed.

(** X4.  After a [Start] without error: the port is not 0 and is recorded
    among the preferences under [webdriver_firefox_port], replacing any
    value the caller had put there, all other preferences being as they
    were; the URL is [http://127.0.0.1:PORT/hub]; the profile path is the
    directory [ioutil.TempDir] made; the command is the Firefox binary with
    [-no-remote -profile PATH] and holds the process [cmd.Start()] made;
    the settings of the caller are untouched. *)
Theorem Start_postconditions (fuel : nat) (d d' : FirefoxDriver) :
  Start sys fuel d = Some (d', None) →
  Port d' ≠ 0
  ∧ Prefs d' = <["webdriver_firefox_port" := PInt (Port d')]> (Prefs d)
  ∧ url (core d') = "http://127.0.0.1:" +:+ Go.Itoa (Port d') +:+ "/hub"
  ∧ ioutil_TempDir sys = Ok (profilePath d')
  ∧ (∃ pid, cmd_Start sys = Ok pid
            ∧ cmd d' = Some (mkCmd (firefoxPath d)
                               ["-no-remote"; "-profile"; profilePath d'] []
                               (Some pid)))
  ∧ (LogFile d ≠ Go.empty → logFile d' = Some (LogFile d))
  ∧ (LockPortTimeout d', StartTimeout d', LogFile d', DeleteProfileOnClose d',
     firefoxPath d', xpiPath d')
    = (LockPortTimeout d, StartTimeout d, LogFile d, DeleteProfileOnClose d,
       firefoxPath d, xpiPath d).
Proof.
  intros H.
  destruct (Start_success _ _ _ H) as (p & path & written & pid & _ & Hp & Hc & Hs & _ & _ & ->).
  cbn [Port Prefs core url profilePath cmd logFile LockPortTimeout StartTimeout LogFile
       DeleteProfileOnClose firefoxPath xpiPath].
  split; [exact Hp|]. split; [reflexivity|]. split; [reflexivity|].
  split; [by eapply createTempProfile_path|]. split; [by exists pid|].
  split; [|reflexivity].
  intros Hne. by destruct (String.eqb_spec (LogFile d) Go.empty).
Qed.

(** X5.  [Stop] after a [Start] without error returns no error, signals the
    process that [Start] launched, closes the log file if one is held, and
    removes the profile directory that [Start] created exactly when
    [DeleteProfileOnClose] is set.  It clears the marker: a second [Stop]
    returns the error of a driver that is not running and does nothing. *)
Theorem Stop_after_Start (fuel : nat) (d d1 : FirefoxDriver) :
  Start sys fuel d = Some (d1, None) →
  ∃ (pid : Z) (path : string),
    cmd_Start sys = Ok pid
    ∧ ioutil_TempDir sys = Ok path
    ∧ Stop d1
      = (setCmd d1 None, Returned None,
         Signal pid
         :: match logFile d1 with Some f => [CloseLog f] | None => [] end
         ++ (if DeleteProfileOnClose d then [RemoveAll path] else []))
    ∧ Stop (setCmd d1 None)
      = (setCmd d1 None,
         Returned (Some (errorsNew "stop failed: firefoxdriver not running")), []).
Proof.
  intros H.
  destruct (Start_success _ _ _ H) as (p & path & written & pid & _ & Hp & Hc & Hs & _ & _ & ->).
  exists pid, path. split; [exact Hs|]. split; [by eapply createTempProfile_path|].
  split; reflexivity.
Qed.

End FirefoxLifeCycle.

Section ChromeLifeCycle.
Import Webdriver Sys Common ChromeDriver.

Variable sys : System.

Ltac chrome_fields :=
  cbn [setUrl setCmd setLogFile core Port BaseUrl Threads LogPath LogFile StartTimeout
       path cmd logFile Sys.Path Args Env Process url negb].

(** The driver a chromedriver [Start] without error leaves, in the
    revision that launches the child itself. *)
Lemma Chrome_Start_success (fuel : nat) (d d1 : ChromeDriver) :
  Start sys fuel d = Some (d1, None) →
  ∃ pid : Z,
    cmd d = None
    ∧ (LogPath d = Go.empty ∨ os_OpenFile sys (LogPath d) = None)
    ∧ cmd_StdoutPipe sys = None ∧ cmd_StderrPipe sys = None
    ∧ cmd_Start sys = Ok pid
    ∧ (LogFile d ≠ Go.empty → os_OpenFile sys (LogFile d) = None)
    ∧ probePort sys fuel (Port d) (StartTimeout d) = Some None
    ∧ d1 = mkChromeDriver
             (mkWebDriverCore ("http://127.0.0.1:" +:+ Go.Itoa (Port d) +:+ BaseUrl d))
             (Port d) (BaseUrl d) (Threads d) (LogPath d) (LogFile d) (StartTimeout d)
             (path d)
             (Some (mkCmd (path d) (switchesOf d) [] (Some pid)))
             (if String.eqb (LogFile d) Go.empty then logFile d else Some (LogFile d)).
Proof.
  unfold Start. destruct d as [c0 p b t lp lf st pa cm lg]; chrome_fields.
  destruct cm; [discriminate|].
  destruct (String.eqb_spec lp Go.empty) as [Hlp|Hlp]; chrome_fields.
  - destruct (cmd_StdoutPipe sys) eqn:H1; [discriminate|].
    destruct (cmd_StderrPipe sys) eqn:H2; [discriminate|].
    destruct (cmd_Start sys) as [pid|] eqn:H3; [|discriminate]. chrome_fields.
    destruct (String.eqb_spec lf Go.empty) as [Hlf|Hlf]; chrome_fields.
    + destruct (probePort sys fuel p st) as [[|]|] eqn:H4; try discriminate.
      intros [= <-]. exists pid. repeat split; auto; try reflexivity; try done.
    + destruct (os_OpenFile sys lf) eqn:H5; [discriminate|]. chrome_fields.
      destruct (probePort sys fuel p st) as [[|]|] eqn:H4; try discriminate.
      intros [= <-]. exists pid. repeat split; auto; try reflexivity; try done.
  - destruct (os_OpenFile sys lp) eqn:Ho; [discriminate|]. chrome_fields.
    destruct (cmd_StdoutPipe sys) eqn:H1; [discriminate|].
    destruct (cmd_StderrPipe sys) eqn:H2; [discriminate|].
    destruct (cmd_Start sys) as [pid|] eqn:H3; [|discriminate]. chrome_fields.
    destruct (String.eqb_spec lf Go.empty) as [Hlf|Hlf]; chrome_fields.
    + destruct (probePort sys fuel p st) as [[|]|] eqn:H4; try discriminate.
      intros [= <-]. exists pid. repeat split; auto; try reflexivity; try done.
    + destruct (os_OpenFile sys lf) eqn:H5; [discriminate|]. chrome_fields.
      destruct (probePort sys fuel p st) as [[|]|] eqn:H4; try discriminate.
      intros [= <-]. exists pid. repeat split; auto; try reflexivity; try done.
Qed.

(** The same for the revision that calls [runBrowser]. *)
Lemma StartRunBrowser_success (fuel : nat) (d d1 : ChromeDriver) :
  StartRunBrowser sys fuel d = Some (d1, None) →
  ∃ pid : Z,
    cmd d = None
    ∧ (LogPath d = Go.empty ∨ os_OpenFile sys (LogPath d) = None)
    ∧ cmd_StdoutPipe sys = None ∧ cmd_StderrPipe sys = None
    ∧ cmd_Start sys = Ok pid
    ∧ (LogFile d ≠ Go.empty → os_OpenFile sys (LogFile d) = None)
    ∧ probePort sys fuel (Port d) (StartTimeout d) = Some None
    ∧ d1 = mkChromeDriver
             (mkWebDriverCore ("http://127.0.0.1:" +:+ Go.Itoa (Port d) +:+ BaseUrl d))
             (Port d) (BaseUrl d) (Threads d) (LogPath d) (LogFile d) (StartTimeout d)
             (path d)
             (Some (mkCmd (path d) (switchesOf d) (os_Environ sys ++ []) (Some pid)))
             (if String.eqb (LogFile d) Go.empty then None else Some (LogFile d)).
Proof.
  unfold StartRunBrowser, runBrowser, environment.
  destruct d as [c0 p b t lp lf st pa cm lg]; chrome_fields.
  destruct cm; [discriminate|].
  destruct (String.eqb_spec lp Go.empty) as [Hlp|Hlp]; chrome_fields.
  - destruct (cmd_StdoutPipe sys) eqn:H1; [discriminate|].
    destruct (cmd_StderrPipe sys) eqn:H2; [discriminate|].
    destruct (cmd_Start sys) as [pid|] eqn:H3; [|discriminate]. chrome_fields.
    destruct (String.eqb_spec lf Go.empty) as [Hlf|Hlf]; chrome_fields.
    + destruct (probePort sys fuel p st) as [[|]|] eqn:H4; try discriminate.
      intros [= <-]. exists pid. repeat split; auto; try reflexivity; try done.
    + destruct (os_OpenFile sys lf) eqn:H5; [discriminate|]. chrome_fields.
      destruct (probePort sys fuel p st) as [[|]|] eqn:H4; try discriminate.
      intros [= <-]. exists pid. repeat split; auto; try reflexivity; try done.
  - destruct (os_OpenFile sys lp) eqn:Ho; [discriminate|]. chrome_fields.
    destruct (cmd_StdoutPipe sys) eqn:H1; [discriminate|].
    destruct (cmd_StderrPipe sys) eqn:H2; [discriminate|].
    destruct (cmd_Start sys) as [pid|] eqn:H3; [|discriminate]. chrome_fields.
    destruct (String.eqb_spec lf Go.empty) as [Hlf|Hlf]; chrome_fields.
    + destruct (probePort sys fuel p st) as [[|]|] eqn:H4; try discriminate.
      intros [= <-]. exists pid. repeat split; auto; try reflexivity; try done.
    + destruct (os_OpenFile sys lf) eqn:H5; [discriminate|]. chrome_fields.
      destruct (probePort sys fuel p st) as [[|]|] eqn:H4; try discriminate.
      intros [= <-]. exists pid. repeat split; auto; try reflexivity; try done.
Qed.

(** Running either [Start] on a stopped driver whose other fields are
    those of a started one. *)
Lemma Chrome_Start_again (fuel : nat) (d : ChromeDriver) (pid : Z) :
  (LogPath d = Go.empty ∨ os_OpenFile sys (LogPath d) = None) →
  cmd_StdoutPipe sys = None → cmd_StderrPipe sys = None →
  cmd_Start sys = Ok pid →
  (LogFile d ≠ Go.empty → os_OpenFile sys (LogFile d) = None) →
  probePort sys fuel (Port d) (StartTimeout d) = Some None →
  cmd d = None →
  Start sys fuel d
  = Some (mkChromeDriver
            (mkWebDriverCore ("http://127.0.0.1:" +:+ Go.Itoa (Port d) +:+ BaseUrl d))
            (Port d) (BaseUrl d) (Threads d) (LogPath d) (LogFile d) (StartTimeout d)
            (path d)
            (Some (mkCmd (path d) (switchesOf d) [] (Some pid)))
            (if String.eqb (LogFile d) Go.empty then logFile d else Some (LogFile d)),
          None)
  ∧ StartRunBrowser sys fuel d
    = Some (mkChromeDriver
              (mkWebDriverCore ("http://127.0.0.1:" +:+ Go.Itoa (Port d) +:+ BaseUrl d))
              (Port d) (BaseUrl d) (Threads d) (LogPath d) (LogFile d) (StartTimeout d)
              (path d)
              (Some (mkCmd (path d) (switchesOf d) (os_Environ sys ++ []) (Some pid)))
              (if String.eqb (LogFile d) Go.empty then None else Some (LogFile d)),
            None).
Proof.
  intros Hlog H1 H2 H3 Hlf H4 Hc.
  unfold Start, StartRunBrowser, runBrowser, environment.
  destruct d as [c0 p b t lp lf st pa cm lg]; chrome_fields. cbn in Hc. subst cm.
  cbn [LogPath LogFile Port StartTimeout] in Hlog, Hlf, H4.
  assert ((if negb (String.eqb lp Go.empty)
           then match os_OpenFile sys lp with
                | Some err =>
                    Some (errorsNew (csferr +:+ "unable to write in log path: "
                                     +:+ errorString err))
                | None => None
                end
           else None) = None) as ->.
  { destruct Hlog as [-> | ->]; [reflexivity|].
    by destruct (negb (String.eqb lp Go.empty)). }
  chrome_fields. rewrite H1, H2, H3. chrome_fields.
  destruct (String.eqb_spec lf Go.empty) as [Heq|Hne]; chrome_fields.
  - rewrite H4. split; reflexivity.
  - rewrite (Hlf Hne). chrome_fields. rewrite H4. split; reflexivity.
Qed.

(** X6.  [Stop] after a chromedriver [Start] without error (either
    revision) returns no error, signals the process that [Start] launched
    and closes the log file if one is held.  It clears the marker and
    nothing else, so that the same [Start] is accepted again and, on a
    machine that answers as before, leads back to the same running
    driver. *)
Theorem Chrome_Stop_then_Start (fuel : nat) (d d1 : ChromeDriver) :
  Start sys fuel d = Some (d1, None) ∨ StartRunBrowser sys fuel d = Some (d1, None) →
  (∃ pid, cmd_Start sys = Ok pid
          ∧ Stop d1
            = (setCmd d1 None, Returned None,
               Signal pid :: match logFile d1 with Some f => [CloseLog f] | None => [] end))
  ∧ (Start sys fuel d = Some (d1, None) →
     Start sys fuel (setCmd d1 None) = Some (d1, None))
  ∧ (StartRunBrowser sys fuel d = Some (d1, None) →
     StartRunBrowser sys fuel (setCmd d1 None) = Some (d1, None)).
Proof.
  intros Hstarted. split; [|split].
  - destruct Hstarted as [H|H];
      [apply Chrome_Start_success in H|apply StartRunBrowser_success in H];
      destruct H as (pid & _ & _ & _ & _ & H3 & _ & _ & ->);
      exists pid; (split; [exact H3|reflexivity]).
  - clear Hstarted. intros H. apply Chrome_Start_success in H.
    destruct H as (pid & Hc & Hlog & H1 & H2 & H3 & Hlf & H4 & ->).
    destruct d as [c0 p b t lp lf st pa cm lg]; chrome_fields.
    cbn [LogPath LogFile Port StartTimeout] in Hlog, Hlf, H4.
    match goal with |- Start sys fuel ?d0 = _ =>
      destruct (Chrome_Start_again fuel d0 pid Hlog H1 H2 H3 Hlf H4 eq_refl) as [-> _]
    end.
    chrome_fields. do 2 f_equal. f_equal. by destruct (String.eqb lf Go.empty).
  - clear Hstarted. intros H. apply StartRunBrowser_success in H.
    destruct H as (pid & Hc & Hlog & H1 & H2 & H3 & Hlf & H4 & ->).
    destruct d as [c0 p b t lp lf st pa cm lg]; chrome_fields.
    cbn [LogPath LogFile Port StartTimeout] in Hlog, Hlf, H4.
    match goal with |- StartRunBrowser sys fuel ?d0 = _ =>
      destruct (Chrome_Start_again fuel d0 pid Hlog H1 H2 H3 Hlf H4 eq_refl) as [_ ->]
    end.
    reflexivity.
Qed.

(** X7.  The revision of [Start] that calls [runBrowser] opens the file of
    [LogFile] after the child has been launched.  When that file cannot be
    opened, [runBrowser] returns no command: [Start] reports the error and
    leaves the marker clear, although [cmd.Start()] had succeeded, so that
    [Stop] only returns the error of a driver that is not running and the
    child is never signalled. *)
Theorem StartRunBrowser_log_file_failure (fuel : nat) (d : ChromeDriver)
    (pid : Z) (err : error) :
  cmd d = None →
  LogPath d = Go.empty ∨ os_OpenFile sys (LogPath d) = None →
  cmd_StdoutPipe sys = None → cmd_StderrPipe sys = None →
  cmd_Start sys = Ok pid →
  LogFile d ≠ Go.empty →
  os_OpenFile sys (LogFile d) = Some err →
  ∃ d',
    StartRunBrowser sys fuel d
    = Some (d', Some (errorsNew (csferr +:+ errorString err)))
    ∧ cmd d' = None ∧ logFile d' = None
    ∧ Stop d'
      = (d', Returned (Some (errorsNew "stop failed: chromedriver not running")), []).
Proof.
  intros Hc Hlog Hout Herr Hlaunch Hlf Hopen. unfold StartRunBrowser, runBrowser.
  rewrite Hc.
  assert ((if negb (String.eqb (LogPath d) Go.empty)
           then match os_OpenFile sys (LogPath d) with
                | Some err =>
                    Some (errorsNew (csferr +:+ "unable to write in log path: "
                                     +:+ errorString err))
                | None => None
                end
           else None) = None) as ->.
  { destruct Hlog as [-> | ->]; [reflexivity|].
    by destruct (negb (String.eqb (LogPath d) Go.empty)). }
  chrome_fields. rewrite Hout, Herr, Hlaunch.
  destruct (String.eqb_spec (LogFile d) Go.empty) as [|_]; [contradiction|].
  chrome_fields. rewrite Hopen. eexists. split; [reflexivity|].
  split; [reflexivity|]. split; reflexivity.
Qed.

End ChromeLifeCycle.

(** ** The extension archive *)

Section ExtensionName.
Import Webdriver Sys FirefoxDriver.

Variable sys : System.

(** X8.  The loop of [createTempProfile] that looks for the extension id
    reads it from the first entry of the archive whose name is exactly
    [install.rdf]: the entries before it are skipped without being opened,
    the entries after it play no part.  Over an archive with no such entry
    the loop opens nothing and ends with the name still empty, without an
    error of its own; this says nothing of the [os.Mkdir] that comes next,
    which is then handed the path joined with an empty name. *)
Theorem findExtName_first (pre : list ZipFile) :
  Forall (λ g, Name g ≠ "install.rdf") pre →
  findExtName sys pre = Ok Go.empty
  ∧ ∀ (f : ZipFile) (post : list ZipFile),
      Name f = "install.rdf" →
      findExtName sys (pre ++ f :: post) = findExtName sys [f].
Proof.
  induction 1 as [|g pre Hg _ [IH1 IH2]].
  - split; [reflexivity|]. intros f post Hf. cbn [app findExtName]. rewrite Hf.
    change (String.eqb "install.rdf" "install.rdf") with true. cbv iota.
    repeat destruct_match; reflexivity.
  - assert (String.eqb (Name g) "install.rdf" = false) as Hne.
    { by destruct (String.eqb_spec (Name g) "install.rdf"). }
    split.
    + cbn [findExtName]. by rewrite Hne.
    + intros f post Hf. cbn [app findExtName]. rewrite Hne. by apply IH2.
Qed.

End ExtensionName.

(** ** More on the error classifier *)

Section ErrorTexts.
Import Json Webdriver Taxonomy.

Variable rt : Runtime.

(** X9.  When the inner status is not 0 and the value of the envelope is
    neither a JSON object nor [null], the error carries the inner status,
    the category of the HTTP status, and as its message the bytes of the
    value as they came: a value that is a JSON string keeps its quotes and
    its escapes, a value that is not JSON at all is kept whole.  When the
    value is [null] the message is empty. *)
Theorem parseError_message_of_other_value (c : Z) (jr : jsonResponse) :
  Status jr ≠ 0 →
  (∀ members, json_parse rt (RawValue jr) ≠ Some (JObject members)) →
  parseError rt c jr
  = mkCommandError (Status jr) (category c)
      (match json_parse rt (RawValue jr) with
       | Some JNull => Go.empty
       | _ => RawValue jr
       end)
      Go.empty Go.empty [].
Proof.
  intros Hne Hobj.
  pose proof (parseError_category rt c (mkJsonResponse Go.empty 0 Go.empty) eq_refl) as Hc.
  unfold parseError in *. simpl in Hc. rewrite <- Hc. clear Hc.
  destruct (Z.eqb_spec (Status jr) 0) as [|_]; [contradiction|].
  unfold unmarshalCommandError.
  destruct (json_parse rt (RawValue jr)) as [[| | | | | |members]|]; try reflexivity.
  by destruct (Hobj members).
Qed.

Lemma category_not_empty (c : Z) : c ≠ 200 → String.eqb (category c) Go.empty = false.
Proof. intros Hc. unfold category. repeat case_decide; done. Qed.

(** X10.  A response with HTTP status 400 or more whose body leaves the
    inner status at 0 (an error page that is no envelope, for one) gives an
    error whose text is the category of the HTTP status followed by
    [: status code not specified]: for 404,
    [404: Unknown command/Resource Not Found: status code not specified]. *)
Theorem do_error_text_without_inner_status (w : WebDriverCore)
    (params : Params (Value rt)) (method urlFormat : string)
    (urlParams : list (Value rt)) (σ : World rt)
    (response : Response) (buf : Go.bytes) (jr : jsonResponse) (err : bool) :
  method = "GET" ∨ method = "POST" ∨ method = "DELETE" →
  receives rt params method (url w +:+ fmt_Sprintf rt urlFormat urlParams) σ response →
  ReadAllBody response = Ok buf →
  json_Unmarshal_jsonResponse rt buf = (jr, err) →
  400 ≤ RespStatusCode response →
  Status jr = 0 →
  ∃ e, returned (do rt w params method urlFormat urlParams σ) = Some (Err e)
       ∧ errorString e
         = category (RespStatusCode response) +:+ ": status code not specified".
Proof.
  intros Hmethod Hrecv Hbody Hdec Hhigh Hzero.
  rewrite (do_valid_method _ _ _ _ _ _ _ Hmethod).
  rewrite (doInternal_receives rt 0 _ _ _ _ _ _ _ _ Hrecv Hbody Hdec).
  destruct (Z.eqb_spec (RespStatusCode response) 200) as [H200|H200]; [lia|].
  rewrite andb_false_r.
  assert ((RespStatusCode response >=? 400) = true) as -> by (apply Z.geb_le; lia).
  cbn [orb]. eexists. split; [reflexivity|].
  rewrite (parseError_zero_status rt _ _ Hzero). cbn [errorString]. unfold Error.
  cbn [ErrorType StatusCode]. rewrite (category_not_empty _ H200).
  change (-1 =? -1) with true. cbv iota. by rewrite append_assoc.
Qed.

Lemma storeCommandErrorField_message (acc : CommandError * bool) (m : string) :
  storeCommandErrorField acc ("message", JString m)
  = (mkCommandError (StatusCode acc.1) (ErrorType acc.1) m (Screen acc.1) (Class_ acc.1)
       (StackTrace acc.1), acc.2 || false).
Proof. destruct acc as [e bad]. reflexivity. Qed.

(** X11.  The text of a classified error, from the envelope to the words:
    for an inner status [s] of the table and a value that is an object with
    the one member [message], under an HTTP status other than 200, it is
    the category, the description of [s] and the message, each followed by
    a colon and a space but the last. *)
Theorem parseError_text (c s : Z) (jr : jsonResponse) (m description : string) :
  c ≠ 200 →
  Status jr = s → s ≠ 0 → s ≠ -1 →
  statusCodeStrings !! s = Some description →
  json_parse rt (RawValue jr) = Some (JObject [("message", JString m)]) →
  Error (parseError rt c jr) = category c +:+ ": " +:+ description +:+ ": " +:+ m.
Proof.
  intros Hc Hs Hs0 Hs1 Htable Hparse.
  pose proof (parseError_category rt c (mkJsonResponse Go.empty 0 Go.empty) eq_refl) as Hcat.
  unfold parseError in *. simpl in Hcat. rewrite <- Hcat.
  set (rce := match c with 200 => _ | _ => _ end) in *.
  assert (String.eqb rce Go.empty = false) as Hrce.
  { rewrite Hcat. by apply category_not_empty. }
  clear Hcat. rewrite Hs. destruct (Z.eqb_spec s 0) as [|_]; [contradiction|].
  rewrite Hparse. unfold unmarshalCommandError. cbn [fold_left].
  rewrite storeCommandErrorField_message. cbn [fst snd orb].
  unfold Error. cbn [ErrorType StatusCode Message]. rewrite Hrce.
  destruct (Z.eqb_spec s (-1)) as [|_]; [contradiction|].
  rewrite Htable. by rewrite !append_assoc.
Qed.

End ErrorTexts.

(** ** The session id the transport returns *)

Section SessionId.
Import Json Webdriver Taxonomy.

Lemma trimLeftList_split (cutset : string) (l : list Ascii.ascii) :
  ∃ pre, l = pre ++ Go.trimLeftList cutset l.
Proof.
  induction l as [|c l [pre IH]]; [by exists []|]. cbn [Go.trimLeftList].
  destruct (Go.inCutset cutset c); [|by exists []].
  exists (c :: pre). cbn [app]. by rewrite <- IH.
Qed.

Lemma trimLeftList_head (cutset : string) (l : list Ascii.ascii) (c : Ascii.ascii) :
  head (Go.trimLeftList cutset l) = Some c → Go.inCutset cutset c = false.
Proof.
  induction l as [|x l IH]; [discriminate|]. cbn [Go.trimLeftList].
  destruct (Go.inCutset cutset x) eqn:Hx; [exact IH|]. by intros [= <-].
Qed.

(** What [bytes.Trim] returns neither begins nor ends with a byte of the
    cutset. *)
Lemma Trim_ends (s cutset : string) (c : Ascii.ascii) :
  head (String.list_ascii_of_string (Go.Trim s cutset)) = Some c
  ∨ last (String.list_ascii_of_string (Go.Trim s cutset)) = Some c →
  Go.inCutset cutset c = false.
Proof.
  unfold Go.Trim. rewrite String.list_ascii_of_string_of_list_ascii.
  set (l1 := Go.trimLeftList cutset (String.list_ascii_of_string s)).
  set (l2 := Go.trimLeftList cutset (rev l1)).
  intros [H|H].
  - destruct (trimLeftList_split cutset (rev l1)) as [pre Hpre]. fold l2 in Hpre.
    assert (l1 = rev l2 ++ rev pre) as Hl1.
    { by rewrite <- rev_app_distr, <- Hpre, rev_involutive. }
    destruct (rev l2) as [|y t] eqn:Hr; [discriminate|]. cbn in H. injection H as ->.
    apply (trimLeftList_head cutset (String.list_ascii_of_string s)).
    fold l1. by rewrite Hl1.
  - apply (trimLeftList_head cutset (rev l1)). fold l2.
    destruct l2 as [|y t]; [discriminate|]. cbn [rev] in H.
    rewrite last_snoc in H. exact H.
Qed.

Variable rt : Runtime.

(** A call that returns no error returns what an envelope with inner status
    0 held. *)
Lemma doInternal_Ok (n : nat) (params : Params (Value rt)) (method url : string)
    (σ : World rt) (sid : string) (value : Go.bytes) :
  returned (doInternal rt n params method url σ) = Some (Ok (sid, value)) →
  ∃ (buf : Go.bytes) (jr : jsonResponse) (err : bool),
    json_Unmarshal_jsonResponse rt buf = (jr, err)
    ∧ Status jr = 0
    ∧ sid = Go.Trim (RawSessionId jr) ("{}" +:+ Go.dquote)
    ∧ value = RawValue jr.
Proof.
  revert params method url σ. induction n as [|n IH]; intros params method url σ;
    [discriminate|].
  cbn [doInternal].
  destruct (marshalParams rt params method) as [body|]; [|discriminate].
  destruct (newRequest rt method url body) as [request|]; [|discriminate].
  destruct (http_Do rt request σ) as [[response|] σ1]; [|discriminate].
  destruct (String.eqb method "POST" && isRedirect response).
  - destruct (Location response) as [target|]; [|discriminate].
    cbn [returned]. apply IH.
  - destruct (ReadAllBody response) as [buf|]; [|discriminate].
    destruct (json_Unmarshal_jsonResponse rt buf) as [jr err] eqn:Hdec.
    destruct (err && (RespStatusCode response =? 200)); [discriminate|].
    destruct (RespStatusCode response >=? 400); [discriminate|].
    destruct (Z.eqb_spec (Status jr) 0) as [Hz|]; [|discriminate].
    cbn [orb negb returned]. intros [= <- <-]. by exists buf, jr, err.
Qed.

Lemma do_Ok (w : WebDriverCore) (params : Params (Value rt))
    (method urlFormat : string) (urlParams : list (Value rt)) (σ : World rt)
    (sid : string) (value : Go.bytes) :
  returned (do rt w params method urlFormat urlParams σ) = Some (Ok (sid, value)) →
  ∃ (buf : Go.bytes) (jr : jsonResponse) (err : bool),
    json_Unmarshal_jsonResponse rt buf = (jr, err)
    ∧ Status jr = 0
    ∧ sid = Go.Trim (RawSessionId jr) ("{}" +:+ Go.dquote)
    ∧ value = RawValue jr.
Proof.
  unfold do.
  destruct (negb (String.eqb method "GET") && negb (String.eqb method "POST")
            && negb (String.eqb method "DELETE")); [discriminate|].
  apply doInternal_Ok.
Qed.

(** X12.  The session id a call returns is what is left of the raw
    [sessionId] of an envelope with inner status 0 once the braces and the
    double quotes at both ends are gone: it neither begins nor ends with a
    brace or a double quote, whatever the server sent.  The value returned
    with it is the raw value of that envelope. *)
Theorem do_session_id_bare (w : WebDriverCore) (params : Params (Value rt))
    (method urlFormat : string) (urlParams : list (Value rt)) (σ : World rt)
    (sid : string) (value : Go.bytes) :
  returned (do rt w params method urlFormat urlParams σ) = Some (Ok (sid, value)) →
  (∃ (buf : Go.bytes) (jr : jsonResponse) (err : bool),
     json_Unmarshal_jsonResponse rt buf = (jr, err)
     ∧ Status jr = 0
     ∧ sid = Go.Trim (RawSessionId jr) ("{}" +:+ Go.dquote)
     ∧ value = RawValue jr)
  ∧ ∀ c, head (String.list_ascii_of_string sid) = Some c
         ∨ last (String.list_ascii_of_string sid) = Some c →
         Go.inCutset ("{}" +:+ Go.dquote) c = false.
Proof.
  intros H. pose proof (do_Ok _ _ _ _ _ _ _ _ H) as Hshape. split; [exact Hshape|].
  destruct Hshape as (buf & jr & err & _ & _ & -> & _). intros c. apply Trim_ends.
Qed.

End SessionId.

(** ** The requests of a call *)

Section Requests.
Import Json Webdriver Taxonomy.

Variable rt : Runtime.

(** One round of [doInternal]. *)
Lemma doInternal_S (n : nat) (params : Params (Value rt)) (method url : string)
    (σ : World rt) :
  doInternal rt (S n) params method url σ
  = match marshalParams rt params method with
    | Err err => mkRun (Some (Err err)) σ []
    | Ok jsonParams =>
        match newRequest rt method url jsonParams with
        | Err err => mkRun (Some (Err err)) σ []
        | Ok request =>
            let '(answer, σ1) := http_Do rt request σ in
            match answer with
            | Err err => mkRun (Some (Err err)) σ1 [request]
            | Ok response =>
                if String.eqb method "POST" && isRedirect response then
                  match Location response with
                  | Err err => mkRun (Some (Err err)) σ1 [request]
                  | Ok url' =>
                      let r := doInternal rt n paramsNil "GET" url' σ1 in
                      mkRun (returned r) (world r) (request :: sent r)
                  end
                else
                  match ReadAllBody response with
                  | Err err => mkRun (Some (Err err)) σ1 [request]
                  | Ok buf =>
                      let '(jr, err) := json_Unmarshal_jsonResponse rt buf in
                      if err && (RespStatusCode response =? 200) then
                        mkRun (Some (Err (errorsNew "error: response must be a JSON object")))
                          σ1 [request]
                      else if (RespStatusCode response >=? 400)
                              || negb (Status jr =? 0) then
                        mkRun (Some (Err (ofCommandError
                                 (parseError rt (RespStatusCode response) jr))))
                          σ1 [request]
                      else
                        let sessionId := Go.Trim (RawSessionId jr) ("{}" +:+ Go.dquote) in
                        mkRun (Some (Ok (sessionId, RawValue jr))) σ1 [request]
                  end
            end
        end
    end.
Proof. reflexivity. Qed.

(** X13.  A call of the transport hands at most two requests to the HTTP
    client, and more than one only with POST: a redirect is followed once,
    whatever answers the request that follows it; a request that failed is
    not tried again; a method that is refused sends nothing. *)
Theorem do_sends_at_most_two (w : WebDriverCore) (params : Params (Value rt))
    (method urlFormat : string) (urlParams : list (Value rt)) (σ : World rt) :
  (length (sent (do rt w params method urlFormat urlParams σ)) ≤ 2)%nat
  ∧ (method ≠ "POST" →
     (length (sent (do rt w params method urlFormat urlParams σ)) ≤ 1)%nat)
  ∧ (method ≠ "GET" ∧ method ≠ "POST" ∧ method ≠ "DELETE" →
     sent (do rt w params method urlFormat urlParams σ) = []).
Proof.
  assert (∀ p m u s, (length (sent (doInternal rt 1 p m u s)) ≤ 1)%nat) as Hone.
  { intros p m u s. cbn [doInternal].
    repeat (destruct_match; cbn [sent length]; try lia). }
  assert (∀ p m u s, (length (sent (doInternal rt 2 p m u s)) ≤ 2)%nat
                     ∧ (m ≠ "POST" → (length (sent (doInternal rt 2 p m u s)) ≤ 1)%nat))
    as Htwo.
  { intros p m u s. split.
    - rewrite doInternal_S.
      destruct (marshalParams rt p m); [|cbn; lia].
      destruct (newRequest rt m u a); [|cbn; lia].
      destruct (http_Do rt a0 s) as [[response|] s1]; [|cbn; lia].
      destruct (String.eqb m "POST" && isRedirect response).
      + destruct (Location response) as [target|]; [|cbn; lia].
        cbn [sent length]. specialize (Hone paramsNil "GET" target s1). lia.
      + repeat (destruct_match; cbn [sent length]; try lia).
    - intros Hm. rewrite doInternal_not_POST; [apply Hone|].
      by destruct (String.eqb_spec m "POST"). }
  unfold do.
  destruct (negb (String.eqb method "GET") && negb (String.eqb method "POST")
            && negb (String.eqb method "DELETE")) eqn:Hguard.
  - cbn [sent length]. repeat split; lia || reflexivity.
  - destruct (Htwo params method (url w +:+ fmt_Sprintf rt urlFormat urlParams) σ)
      as [H2 H1].
    split; [exact H2|]. split; [exact H1|].
    intros (Hg & Hp & Hd). exfalso.
    destruct (String.eqb_spec method "GET"); [contradiction|].
    destruct (String.eqb_spec method "POST"); [contradiction|].
    destruct (String.eqb_spec method "DELETE"); [contradiction|].
    discriminate Hguard.
Qed.

(** The one request of a call with GET or DELETE. *)
Lemma sent_do_not_POST (w : WebDriverCore) (params : Params (Value rt))
    (method urlFormat : string) (urlParams : list (Value rt)) (σ : World rt)
    (request : Request) :
  method ≠ "POST" →
  request ∈ sent (do rt w params method urlFormat urlParams σ) →
  Method request = method
  ∧ URL request = url w +:+ fmt_Sprintf rt urlFormat urlParams
  ∧ Body request = Go.empty.
Proof.
  intros Hm [(body & Hb & Hn)|[-> _]]%sent_do; [|contradiction].
  apply newRequest_fields in Hn as (HM & HU & HB & _).
  split; [exact HM|]. split; [exact HU|]. rewrite HB.
  unfold marshalParams in Hb. destruct (String.eqb_spec method "POST"); [contradiction|].
  by injection Hb as <-.
Qed.

(** The requests of a call with POST: the POST itself, or a GET without a
    body. *)
Lemma sent_do_POST (w : WebDriverCore) (params : Params (Value rt))
    (urlFormat : string) (urlParams : list (Value rt)) (σ : World rt)
    (request : Request) :
  request ∈ sent (do rt w params "POST" urlFormat urlParams σ) →
  (Method request = "POST"
   ∧ URL request = url w +:+ fmt_Sprintf rt urlFormat urlParams
   ∧ marshalParams rt params "POST" = Ok (Body request))
  ∨ (Method request = "GET" ∧ Body request = Go.empty).
Proof.
  intros [(body & Hb & Hn)|[_ (target & Hn)]]%sent_do;
    apply newRequest_fields in Hn as (HM & HU & HB & _).
  - left. by rewrite HB.
  - by right.
Qed.

End Requests.

(** ** The commands of a session *)

Section SessionCommands.
Import Json Webdriver Taxonomy Session.

Variable lib : Library.

(** A call that receives an envelope with inner status 0 under an HTTP
    status below 400 succeeds. *)
Lemma do_success (w : WebDriverCore) (p : Params (Value (runtime lib)))
    (method urlFormat : string) (urlParams : list (Value (runtime lib))) (σ : Network lib)
    (response : Response) (buf : Go.bytes) (jr : jsonResponse) (err : bool) :
  method = "GET" ∨ method = "POST" ∨ method = "DELETE" →
  receives (runtime lib) p method (url w +:+ Sprintf lib urlFormat urlParams) σ response →
  ReadAllBody response = Ok buf →
  Unmarshal_jsonResponse lib buf = (jr, err) →
  ¬ (err = true ∧ RespStatusCode response = 200) →
  RespStatusCode response < 400 →
  Status jr = 0 →
  returned (do (runtime lib) w p method urlFormat urlParams σ)
  = Some (Ok (Go.Trim (RawSessionId jr) ("{}" +:+ Go.dquote), RawValue jr)).
Proof.
  intros Hmethod Hrecv Hbody Hdec Hjson Hlow Hzero.
  rewrite (do_valid_method (runtime lib) _ _ _ _ _ _ Hmethod).
  change (fmt_Sprintf (runtime lib) urlFormat urlParams) with (Sprintf lib urlFormat urlParams).
  rewrite (doInternal_receives (runtime lib) 0 _ _ _ _ _ _ _ _ Hrecv Hbody Hdec).
  assert (err && (RespStatusCode response =? 200) = false) as ->.
  { destruct err; [|reflexivity]. simpl.
    destruct (Z.eqb_spec (RespStatusCode response) 200); [|reflexivity].
    exfalso. by apply Hjson. }
  assert ((RespStatusCode response >=? 400) = false) as ->.
  { destruct (RespStatusCode response >=? 400) eqn:E; [|reflexivity].
    apply Z.geb_le in E. lia. }
  by rewrite Hzero.
Qed.

(** X14.  [Screenshot] takes the first and the last byte off the value the
    server returned, whatever they are, and decodes what is between them.
    A value of fewer than two bytes (an envelope with no value, for one)
    makes the slice expression panic: the call does not return an error. *)
Theorem Screenshot_of_value (w : WebDriverCore) (s : Session) (σ : Network lib)
    (response : Response) (buf : Go.bytes) (jr : jsonResponse) (err : bool) :
  receives (runtime lib) paramsNil "GET"
    (url w +:+ "/session/" +:+ Id s +:+ "/screenshot") σ response →
  ReadAllBody response = Ok buf →
  Unmarshal_jsonResponse lib buf = (jr, err) →
  ¬ (err = true ∧ RespStatusCode response = 200) →
  RespStatusCode response < 400 →
  Status jr = 0 →
  answer (Screenshot lib w s σ)
  = Some (if (String.length (RawValue jr) <? 2)%nat then Panicked
          else Returned (base64_ReadAll lib
                           (String.substring 1 (String.length (RawValue jr) - 2)
                              (RawValue jr)))).
Proof.
  intros Hrecv Hbody Hdec Hjson Hlow Hzero. unfold Screenshot, reply. cbn [answer].
  rewrite (do_success w paramsNil "GET" "/session/%s/screenshot" [VString (Id s)] σ
             response buf jr err (or_introl eq_refl) Hrecv Hbody Hdec Hjson Hlow Hzero).
  reflexivity.
Qed.

(** X15.  The four IME queries build their URL from a format that does not
    begin with a slash: the request goes to the URL of the driver followed
    at once by [session/ID/ime/...], with GET, [IMEDeactivate] too.
    [IMEActivate] has the slash, and POST. *)
Theorem IME_requests (w : WebDriverCore) (s : Session) (engine : string)
    (σ : Network lib) (request : Request) :
  (request ∈ requests (IMEAvailableEngines lib w s σ) →
   Method request = "GET"
   ∧ URL request = url w +:+ "session/" +:+ Id s +:+ "/ime/available_engines")
  ∧ (request ∈ requests (IMEActiveEngine lib w s σ) →
     Method request = "GET"
     ∧ URL request = url w +:+ "session/" +:+ Id s +:+ "/ime/active_engine")
  ∧ (request ∈ requests (IsIMEActivated lib w s σ) →
     Method request = "GET"
     ∧ URL request = url w +:+ "session/" +:+ Id s +:+ "/ime/activated")
  ∧ (request ∈ requests (IMEDeactivate lib w s σ) →
     Method request = "GET"
     ∧ URL request = url w +:+ "session/" +:+ Id s +:+ "/ime/deactivate")
  ∧ (request ∈ requests (IMEActivate lib w s engine σ) →
     Method request = "POST" →
     URL request = url w +:+ "/session/" +:+ Id s +:+ "/ime/activate"
     ∧ Marshal lib (VMap (Some {[ "engine" := VString engine ]})) = Ok (Body request)).
Proof.
  split; [|split; [|split; [|split]]].
  1-4: intros (HM & HU & _)%(sent_do_not_POST (runtime lib)); [|done]; done.
  intros [(HM & HU & HB)|[HM _]]%(sent_do_POST (runtime lib)) Hpost;
    [done|congruence].
Qed.

(** The loop that fills a slice index by index with the images of the
    entries of another builds the list of the images. *)
Lemma fill_by_index {A B : Type} (f : A → B) (zero : B) (v : list A) :
  fold_left (λ acc ix, <[ix.1 := f ix.2]> acc) (imap pair v) (replicate (length v) zero)
  = map f v.
Proof.
  assert (∀ (done_ : list B) (rest : list A) (n : nat),
            length done_ = n →
            fold_left (λ acc ix, <[ix.1 := f ix.2]> acc)
              (imap (λ i, pair (n + i)%nat) rest)
              (done_ ++ replicate (length rest) zero)
            = done_ ++ map f rest) as Hgen.
  { intros done_ rest. revert done_.
    induction rest as [|x rest IH]; intros done_ n Hn; [reflexivity|].
    cbn [imap fold_left length replicate map fst snd].
    rewrite Nat.add_0_r.
    replace (<[n:=f x]> (done_ ++ zero :: replicate (length rest) zero))
      with ((done_ ++ [f x]) ++ replicate (length rest) zero).
    2: { pose proof (insert_app_r done_ (zero :: replicate (length rest) zero) 0 (f x))
           as Hins.
         rewrite Nat.add_0_r, Hn in Hins. rewrite Hins. cbn. by rewrite <- app_assoc. }
    rewrite (imap_ext _ (λ i, pair (S n + i)%nat) rest).
    2: { intros i y _. cbn. f_equal. lia. }
    rewrite (IH (done_ ++ [f x]) (S n)).
    - by rewrite <- app_assoc.
    - rewrite length_app. cbn. lia. }
  exact (Hgen [] v 0%nat eq_refl).
Qed.

Lemma elementsOf_map (s : option Session) (v : list element) :
  elementsOf s v = map (λ x, mkWebElement s (ELEMENT x)) v.
Proof. unfold elementsOf. apply (fill_by_index (λ x, mkWebElement s (ELEMENT x))). Qed.

(** Decoding an array of objects that hold an [ELEMENT] each. *)
Lemma storeElements_ids (ids : list string) (old : list element) :
  storeElements (JArray (map (λ id, JObject [("ELEMENT", JString id)]) ids)) old
  = (map mkElement ids, false).
Proof.
  cbn [storeElements]. rewrite !map_map. f_equal.
  induction ids as [|id ids IH]; [reflexivity|]. cbn [map existsb]. rewrite IH.
  reflexivity.
Qed.

(** X16.  [FindElements] returns one element per entry of the array the
    server sent, in the order of the array, each with the [ELEMENT] of its
    entry as its id and each bound to the session of the receiver: the
    session [s] for the command of the session, the session of the element
    for the command of an element.  The session id of the response plays no
    part.  On an element without a session (the zero value that comes with
    an error) the command panics before anything is sent. *)
Theorem FindElements_elements (w : WebDriverCore) (s : Session)
    (using_ : FindElementStrategy) (value : string) (σ : Network lib)
    (sid : string) (data : Go.bytes) (ids : list string) :
  returned (do (runtime lib) w
              (params {[ "using" := strategy using_; "value" := VString value ]})
              "POST" "/session/%s/elements" [VString (Id s)] σ)
  = Some (Ok (sid, data)) →
  parse lib data = Some (JArray (map (λ id, JObject [("ELEMENT", JString id)]) ids)) →
  answer (FindElements lib w s using_ value σ)
  = Some (map (λ id, mkWebElement (Some s) id) ids, None)
  ∧ (∀ (e : WebElement) (σ' : Network lib) (sid' : string) (data' : Go.bytes),
       we_s e = Some s →
       returned (do (runtime lib) w
                   (params {[ "using" := strategy using_; "value" := VString value ]})
                   "POST" "/session/%s/element/%s/elements"
                   [VString (Id s); VString (we_id e)] σ')
       = Some (Ok (sid', data')) →
       parse lib data' = parse lib data →
       answer (WebElement_FindElements lib w e using_ value σ')
       = Some (Returned (map (λ id, mkWebElement (Some s) id) ids, None)))
  ∧ (∀ (e : WebElement) (σ' : Network lib),
       we_s e = None →
       WebElement_FindElements lib w e using_ value σ' = mkReply (Some Panicked) σ' []).
Proof.
  intros Hdo Hparse. split; [|split].
  - unfold FindElements, reply. cbn [answer]. rewrite Hdo.
    cbn [fmap option_fmap option_map]. unfold Unmarshal. rewrite Hparse, storeElements_ids.
    rewrite elementsOf_map, map_map. reflexivity.
  - intros e σ' sid' data' He Hdo' Hparse'. unfold WebElement_FindElements, reply.
    rewrite He. cbn [answer]. rewrite Hdo'.
    cbn [fmap option_fmap option_map]. unfold Unmarshal.
    rewrite Hparse', Hparse, storeElements_ids.
    rewrite elementsOf_map, map_map. reflexivity.
  - intros e σ' He. unfold WebElement_FindElements. by rewrite He.
Qed.

(** X17.  [FocusOnFrame] accepts a frame id that is nil, a string, an int
    or a [WebElement] and sends it as the member [id] of the parameters of
    a POST to [/session/ID/frame].  A frame id of any other dynamic type (a
    bool, a float, a pointer to an element, a string of a named type, ...)
    is refused with an error before anything is sent. *)
Theorem FocusOnFrame_frame_id (w : WebDriverCore) (s : Session) (frameId : GoValue)
    (σ : Network lib) :
  match frameId with
  | VNil | VString _ | VInt _ | VWebElement _ =>
      FocusOnFrame lib w s frameId σ
      = reply (do (runtime lib) w (params {[ "id" := frameId ]}) "POST"
                 "/session/%s/frame" [VString (Id s)] σ) errorOf
      ∧ ∀ request, request ∈ requests (FocusOnFrame lib w s frameId σ) →
                   Method request = "POST" →
                   URL request = url w +:+ "/session/" +:+ Id s +:+ "/frame"
                   ∧ Marshal lib (VMap (Some {[ "id" := frameId ]})) = Ok (Body request)
  | _ =>
      FocusOnFrame lib w s frameId σ
      = mkReply (Some (Some (errorsNew "invalid frame, must be string|int|nil|WebElement")))
          σ []
  end.
Proof.
  destruct frameId; try reflexivity;
    (split; [reflexivity|]);
    intros request [(HM & HU & HB)|[HM _]]%(sent_do_POST (runtime lib)) Hpost;
    done || congruence.
Qed.

End SessionCommands.

(** ** The keys of [SendKeys] *)

Section Keys.
Import Utf8 Session.

Lemma length_list_ascii_of_string (s : string) :
  length (String.list_ascii_of_string s) = String.length s.
Proof. induction s as [|c s IH]; [reflexivity|]. cbn. by rewrite IH. Qed.

(** A rune of a non-empty string is at least one byte wide and no wider
    than the string. *)
Lemma DecodeRuneInString_size (s : list Ascii.ascii) :
  s ≠ [] →
  (1 ≤ (DecodeRuneInString s).2 ≤ length s)%nat.
Proof.
  intros Hs. destruct s as [|c0 rest0]; [done|]. unfold DecodeRuneInString.
  repeat (destruct_match; cbn [snd length]; try lia).
Qed.

Lemma EncodeRune_not_nil (k : Z) : EncodeRune k ≠ [].
Proof. unfold EncodeRune. repeat destruct_match; discriminate. Qed.

Lemma stringOfRune_not_empty (k : Z) : stringOfRune k ≠ Go.empty.
Proof.
  unfold stringOfRune. pose proof (EncodeRune_not_nil k) as H.
  destruct (EncodeRune k); [done|discriminate].
Qed.

(** The slice after the loop, from the rune at index [length done_] on:
    the entries before are kept; the others hold the runes at the indices
    where they start and the empty string elsewhere. *)
Lemma keys_loop (fuel : nat) (s : list Ascii.ascii) (done_ : list string) :
  (length s ≤ fuel)%nat →
  ∃ tail : list string,
    fold_left (λ keys ik, <[ik.1 := stringOfRune ik.2]> keys)
      (rangeFrom fuel (length done_) s) (done_ ++ replicate (length s) Go.empty)
    = done_ ++ tail
    ∧ length tail = length s
    ∧ (length (rangeFrom fuel (length done_) s) ≤ length s)%nat
    ∧ tail ≡ₚ map (λ ik, stringOfRune ik.2) (rangeFrom fuel (length done_) s)
              ++ replicate (length s - length (rangeFrom fuel (length done_) s)) Go.empty
    ∧ (∀ j k, (j, k) ∈ rangeFrom fuel (length done_) s →
              (length done_ ≤ j)%nat
              ∧ tail !! (j - length done_)%nat = Some (stringOfRune k))
    ∧ (∀ j, (j < length s)%nat →
            (∀ k, (length done_ + j, k)%nat ∉ rangeFrom fuel (length done_) s) →
            tail !! j = Some Go.empty).
Proof.
  revert s done_. induction fuel as [|fuel IH]; intros s done_ Hfuel.
  { destruct s; [|cbn in Hfuel; lia]. exists []. cbn. rewrite app_nil_r.
    split; [done|]. split; [done|]. split; [done|]. split; [done|].
    split; [intros j k Hin; by apply elem_of_nil in Hin|]. intros j Hj. lia. }
  destruct s as [|c rest].
  { exists []. cbn. rewrite app_nil_r.
    split; [done|]. split; [done|]. split; [done|]. split; [done|].
    split; [intros j k Hin; by apply elem_of_nil in Hin|]. intros j Hj. lia. }
  cbn [rangeFrom].
  pose proof (DecodeRuneInString_size (c :: rest) ltac:(done)) as Hsize.
  destruct (DecodeRuneInString (c :: rest)) as [k size]. cbn [snd] in Hsize.
  set (s := c :: rest) in *.
  cbn [fold_left fst snd].
  assert (length (drop size s) = (length s - size)%nat) as Hdrop by apply length_drop.
  assert (<[length done_ := stringOfRune k]> (done_ ++ replicate (length s) Go.empty)
          = (done_ ++ stringOfRune k :: replicate (size - 1) Go.empty)
            ++ replicate (length (drop size s)) Go.empty) as ->.
  { pose proof (insert_app_r done_ (replicate (length s) Go.empty) 0 (stringOfRune k))
      as Hins.
    rewrite Nat.add_0_r in Hins. rewrite Hins.
    replace (length s) with (S ((size - 1) + length (drop size s))) by lia.
    cbn [replicate]. cbn. rewrite replicate_add, <- app_assoc. reflexivity. }
  assert (length (done_ ++ stringOfRune k :: replicate (size - 1) Go.empty)
          = (length done_ + size)%nat) as Hlen.
  { rewrite length_app. cbn [length]. rewrite length_replicate. lia. }
  destruct (IH (drop size s) (done_ ++ stringOfRune k :: replicate (size - 1) Go.empty))
    as (tail & Hfold & Htail & Hcount & Hperm & Hat & Hempty).
  { rewrite Hdrop. cbn [length] in *. subst s. cbn [length] in *. lia. }
  rewrite Hlen in Hfold, Hcount, Hperm, Hat, Hempty.
  exists (stringOfRune k :: replicate (size - 1) Go.empty ++ tail).
  split; [by rewrite Hfold, <- app_assoc|].
  split; [cbn [length]; rewrite length_app, length_replicate, Htail, Hdrop; lia|].
  split; [cbn [length]; lia|].
  split.
  { cbn [map snd length]. cbn [app]. constructor.
    rewrite Hperm.
    rewrite (Permutation_app_comm (replicate (size - 1) Go.empty)).
    rewrite <- app_assoc, <- replicate_add. do 2 f_equiv. lia. }
  split.
  { intros j k' [Heq|Hin]%elem_of_cons.
    - injection Heq as -> ->. split; [lia|]. by rewrite Nat.sub_diag.
    - destruct (Hat _ _ Hin) as [Hj Hlook]. split; [lia|].
      replace (j - length done_)%nat with (S ((size - 1) + (j - (length done_ + size))))
        by lia.
      rewrite lookup_cons. rewrite lookup_app_r; rewrite length_replicate; [|lia].
      by replace (size - 1 + (j - (length done_ + size)) - (size - 1))%nat
        with (j - (length done_ + size))%nat by lia. }
  intros j Hj Hnot. destruct j as [|j].
  { exfalso. apply (Hnot k). rewrite Nat.add_0_r. left. }
  rewrite lookup_cons.
  destruct (decide (j < size - 1)%nat) as [Hin|Hout].
  - rewrite lookup_app_l by (rewrite length_replicate; lia).
    by apply lookup_replicate_2.
  - rewrite lookup_app_r; rewrite length_replicate; [|lia].
    apply Hempty; [rewrite Hdrop; cbn [length] in *; lia|].
    intros k' Hk'. apply (Hnot k'). right.
    by replace (length done_ + S j)%nat
      with (length done_ + size + (j - (size - 1)))%nat by lia.
Qed.

(** X18.  [SendKeys] and [SendKeysOnActiveElement] send one key per byte of
    the sequence, not one per character: the key at the index where a rune
    starts is that rune, the key at every other index is the empty string.
    So the keys are, up to their order, the runes of the sequence and one
    empty string for each byte that continues a rune. *)
Theorem keysOf_runes (sequence : string) :
  length (keysOf sequence) = String.length sequence
  ∧ (length (rangeString sequence) ≤ String.length sequence)%nat
  ∧ (∀ i k, (i, k) ∈ rangeString sequence →
            keysOf sequence !! i = Some (stringOfRune k))
  ∧ (∀ i, (i < String.length sequence)%nat →
          (∀ k, (i, k) ∉ rangeString sequence) →
          keysOf sequence !! i = Some Go.empty)
  ∧ keysOf sequence
    ≡ₚ map (λ ik, stringOfRune ik.2) (rangeString sequence)
       ++ replicate (String.length sequence - length (rangeString sequence)) Go.empty.
Proof.
  unfold keysOf, rangeString. rewrite <- length_list_ascii_of_string.
  set (l := String.list_ascii_of_string sequence).
  destruct (keys_loop (length l) l [] (le_n _))
    as (tail & Hfold & Htail & Hcount & Hperm & Hat & Hempty).
  cbn [length app] in *. rewrite Hfold.
  split; [exact Htail|]. split; [exact Hcount|]. split.
  { intros i k Hin. destruct (Hat _ _ Hin) as [_ Hlook].
    by rewrite Nat.sub_0_r in Hlook. }
  split; [|exact Hperm].
  intros i Hi Hnot. by apply Hempty.
Qed.

Lemma byte_byteOf (c : Ascii.ascii) : byte (byteOf c) = c.
Proof. destruct c as [[] [] [] [] [] [] [] []]; reflexivity. Qed.

Lemma byteOf_range (c : Ascii.ascii) : 0 ≤ byteOf c < 256.
Proof.
  destruct c as [[] [] [] [] [] [] [] []];
    (split; [apply Z.leb_le|apply Z.ltb_lt]); reflexivity.
Qed.

(** A byte below 0x80 is a rune of its own. *)
Lemma DecodeRuneInString_ASCII (c : Ascii.ascii) (rest : list Ascii.ascii) :
  byteOf c < 0x80 →
  DecodeRuneInString (c :: rest) = (byteOf c, 1%nat)
  ∧ stringOfRune (byteOf c) = String c EmptyString.
Proof.
  intros Hc. pose proof (byteOf_range c) as Hr. split.
  - unfold DecodeRuneInString, first.
    destruct (Z.ltb_spec (byteOf c) 0x80); [reflexivity|lia].
  - unfold stringOfRune, EncodeRune.
    destruct (Z.leb_spec 0 (byteOf c)); [|lia].
    destruct (Z.leb_spec (byteOf c) rune1Max) as [|Hgt];
      [|unfold rune1Max in Hgt; lia].
    cbn [andb]. by rewrite byte_byteOf.
Qed.

Lemma keys_loop_ASCII (fuel : nat) (s : list Ascii.ascii) (done_ : list string) :
  (length s ≤ fuel)%nat →
  Forall (λ c, byteOf c < 0x80) s →
  fold_left (λ keys ik, <[ik.1 := stringOfRune ik.2]> keys)
    (rangeFrom fuel (length done_) s) (done_ ++ replicate (length s) Go.empty)
  = done_ ++ map (λ c, String c EmptyString) s.
Proof.
  revert s done_. induction fuel as [|fuel IH]; intros s done_ Hfuel Hall.
  { destruct s; [reflexivity|cbn in Hfuel; lia]. }
  destruct Hall as [|c rest Hc Hrest]; [reflexivity|].
  cbn [rangeFrom]. destruct (DecodeRuneInString_ASCII c rest Hc) as [-> Hstr].
  cbn [fold_left fst snd drop length replicate map]. rewrite Hstr.
  pose proof (insert_app_r done_ (Go.empty :: replicate (length rest) Go.empty) 0
                (String c EmptyString)) as Hins.
  rewrite Nat.add_0_r in Hins. rewrite Hins. cbn.
  replace (done_ ++ String c EmptyString :: replicate (length rest) Go.empty)
    with ((done_ ++ [String c EmptyString]) ++ replicate (length rest) Go.empty)
    by (by rewrite <- app_assoc).
  replace (length done_ + 1)%nat with (length (done_ ++ [String c EmptyString]))
    by (rewrite length_app; reflexivity).
  rewrite IH; [by rewrite <- app_assoc| cbn in Hfuel; lia | exact Hrest].
Qed.

(** X19.  For a sequence of ASCII bytes the keys are its characters, one by
    one. *)
Theorem keysOf_ASCII (sequence : string) :
  Forall (λ c, byteOf c < 0x80) (String.list_ascii_of_string sequence) →
  keysOf sequence
  = map (λ c, String c EmptyString) (String.list_ascii_of_string sequence).
Proof.
  intros Hall. unfold keysOf, rangeString. rewrite <- length_list_ascii_of_string.
  exact (keys_loop_ASCII _ _ [] (le_n _) Hall).
Qed.

End Keys.

(** ** The keys of a sequence in UTF-8 *)

Section KeysRoundTrip.
Import Utf8 Session.

Lemma land_low (a n : Z) : 0 ≤ n → Z.land a (2 ^ n - 1) = a mod 2 ^ n.
Proof. intros Hn. rewrite <- Z.land_ones by exact Hn. by rewrite Z.ones_equiv, <- Z.sub_1_r. Qed.

Lemma lor_low (x lo n : Z) :
  0 ≤ n → 0 ≤ lo < 2 ^ n → x mod 2 ^ n = 0 → Z.lor x lo = x + lo.
Proof.
  intros Hn Hlo Hx. rewrite <- Z.add_lor_land.
  assert (Z.land x lo = 0) as ->; [|lia].
  apply Z.bits_inj'. intros m Hm. rewrite Z.land_spec, Z.bits_0.
  destruct (Z.lt_ge_cases m n) as [Hlt|Hge].
  - assert (Z.testbit x m = false) as ->; [|reflexivity].
    rewrite <- (Z.mod_pow2_bits_low x n m) by lia. rewrite Hx. apply Z.bits_0.
  - assert (Z.testbit lo m = false) as ->; [|apply andb_false_r].
    rewrite <- (Z.mod_small lo (2 ^ n)) by lia. apply Z.mod_pow2_bits_high. lia.
Qed.

Lemma two_bytes (b0 b1 : Z) :
  0xC2 ≤ b0 ≤ 0xDF → 0x80 ≤ b1 ≤ 0xBF →
  let k := Z.lor (Z.shiftl (Z.land b0 mask2) 6) (Z.land b1 maskx) in
  0x80 ≤ k ≤ rune2Max
  ∧ Z.lor t2 (Z.shiftr k 6) = b0
  ∧ Z.lor tx (Z.land k maskx) = b1.
Proof.
  intros H0 H1. cbv zeta.
  change mask2 with (2 ^ 5 - 1). change maskx with (2 ^ 6 - 1).
  rewrite !land_low by lia. rewrite Z.shiftl_mul_pow2 by lia.
  rewrite (lor_low _ _ 6); [|lia|apply Z.mod_pos_bound; lia|Z.div_mod_to_equations; lia].
  rewrite Z.shiftr_div_pow2 by lia.
  rewrite (lor_low t2 _ 6); [|lia|unfold rune2Max; Z.div_mod_to_equations; lia|reflexivity].
  rewrite (lor_low tx _ 6); [|lia|apply Z.mod_pos_bound; lia|reflexivity].
  unfold rune2Max, t2, tx. change (2 ^ 6) with 64. change (2 ^ 5) with 32.
  change (2 ^ 11) with 2048.
  Z.div_mod_to_equations. lia.
Qed.

Lemma three_bytes (b0 b1 b2 : Z) :
  0xE0 ≤ b0 ≤ 0xEF → 0x80 ≤ b1 ≤ 0xBF → 0x80 ≤ b2 ≤ 0xBF →
  (b0 = 0xE0 → 0xA0 ≤ b1) → (b0 = 0xED → b1 ≤ 0x9F) →
  let k := Z.lor (Z.lor (Z.shiftl (Z.land b0 mask3) 12) (Z.shiftl (Z.land b1 maskx) 6))
                 (Z.land b2 maskx) in
  rune2Max < k ≤ rune3Max
  ∧ ¬ (surrogateMin ≤ k ≤ surrogateMax)
  ∧ Z.lor t3 (Z.shiftr k 12) = b0
  ∧ Z.lor tx (Z.land (Z.shiftr k 6) maskx) = b1
  ∧ Z.lor tx (Z.land k maskx) = b2.
Proof.
  intros H0 H1 H2 Hlow Hhigh. cbv zeta.
  change mask3 with (2 ^ 4 - 1). change maskx with (2 ^ 6 - 1).
  rewrite !land_low by lia. rewrite !Z.shiftl_mul_pow2 by lia.
  rewrite (lor_low _ (b1 mod 2 ^ 6 * 2 ^ 6) 12);
    [|lia|Z.div_mod_to_equations; lia|Z.div_mod_to_equations; lia].
  rewrite (lor_low _ (b2 mod 2 ^ 6) 6);
    [|lia|apply Z.mod_pos_bound; lia|Z.div_mod_to_equations; lia].
  rewrite !Z.shiftr_div_pow2 by lia.
  rewrite (lor_low t3 _ 4); [|lia|unfold t3; Z.div_mod_to_equations; lia|reflexivity].
  rewrite !(lor_low tx _ 6); [|lia|apply Z.mod_pos_bound; lia|reflexivity
                              |lia|apply Z.mod_pos_bound; lia|reflexivity].
  unfold rune2Max, rune3Max, surrogateMin, surrogateMax, t3, tx.
  change (2 ^ 4) with 16. change (2 ^ 6) with 64. change (2 ^ 12) with 4096.
  change (2 ^ 11) with 2048. change (2 ^ 16) with 65536.
  Z.div_mod_to_equations. lia.
Qed.

Lemma four_bytes (b0 b1 b2 b3 : Z) :
  0xF0 ≤ b0 ≤ 0xF4 → 0x80 ≤ b1 ≤ 0xBF → 0x80 ≤ b2 ≤ 0xBF → 0x80 ≤ b3 ≤ 0xBF →
  (b0 = 0xF0 → 0x90 ≤ b1) → (b0 = 0xF4 → b1 ≤ 0x8F) →
  let k := Z.lor (Z.lor (Z.lor (Z.shiftl (Z.land b0 mask4) 18)
                               (Z.shiftl (Z.land b1 maskx) 12))
                        (Z.shiftl (Z.land b2 maskx) 6))
                 (Z.land b3 maskx) in
  rune3Max < k ≤ MaxRune
  ∧ Z.lor t4 (Z.shiftr k 18) = b0
  ∧ Z.lor tx (Z.land (Z.shiftr k 12) maskx) = b1
  ∧ Z.lor tx (Z.land (Z.shiftr k 6) maskx) = b2
  ∧ Z.lor tx (Z.land k maskx) = b3.
Proof.
  intros H0 H1 H2 H3 Hlow Hhigh. cbv zeta.
  change mask4 with (2 ^ 3 - 1). change maskx with (2 ^ 6 - 1).
  rewrite !land_low by lia. rewrite !Z.shiftl_mul_pow2 by lia.
  rewrite (lor_low _ (b1 mod 2 ^ 6 * 2 ^ 12) 18);
    [|lia|Z.div_mod_to_equations; lia|Z.div_mod_to_equations; lia].
  rewrite (lor_low _ (b2 mod 2 ^ 6 * 2 ^ 6) 12);
    [|lia|Z.div_mod_to_equations; lia|Z.div_mod_to_equations; lia].
  rewrite (lor_low _ (b3 mod 2 ^ 6) 6);
    [|lia|apply Z.mod_pos_bound; lia|Z.div_mod_to_equations; lia].
  rewrite !Z.shiftr_div_pow2 by lia.
  rewrite (lor_low t4 _ 4); [|lia|unfold t4; Z.div_mod_to_equations; lia|reflexivity].
  rewrite !(lor_low tx _ 6); [|lia|apply Z.mod_pos_bound; lia|reflexivity
                              |lia|apply Z.mod_pos_bound; lia|reflexivity
                              |lia|apply Z.mod_pos_bound; lia|reflexivity].
  unfold rune3Max, MaxRune, t4, tx.
  change (2 ^ 3) with 8. change (2 ^ 4) with 16. change (2 ^ 6) with 64.
  change (2 ^ 12) with 4096. change (2 ^ 18) with 262144. change (2 ^ 16) with 65536.
  Z.div_mod_to_equations. lia.
Qed.

Lemma first_spec (b : Z) :
  0 ≤ b < 256 →
  (b < 0x80 ∧ first b = as_)
  ∨ first b = xx
  ∨ (0xC2 ≤ b ≤ 0xDF ∧ first b = s1)
  ∨ (b = 0xE0 ∧ first b = s2)
  ∨ ((0xE1 ≤ b ≤ 0xEC ∨ 0xEE ≤ b ≤ 0xEF) ∧ first b = s3)
  ∨ (b = 0xED ∧ first b = s4)
  ∨ (b = 0xF0 ∧ first b = s5)
  ∨ (0xF1 ≤ b ≤ 0xF3 ∧ first b = s6)
  ∨ (b = 0xF4 ∧ first b = s7).
Proof.
  intros Hb. unfold first.
  repeat match goal with
         | |- context [if ?a <? ?b then _ else _] => destruct (Z.ltb_spec a b)
         | |- context [if ?a =? ?b then _ else _] => destruct (Z.eqb_spec a b)
         end; intuition lia.
Qed.

Ltac info_byte :=
  cbv [xx as_ s1 s2 s3 s4 s5 s6 s7];
  repeat match goal with
         | |- context [?a >=? 240] =>
             let v := eval compute in (a >=? 240) in change (a >=? 240) with v
         | |- context [Z.to_nat (Z.land ?a 7)] =>
             let v := eval compute in (Z.to_nat (Z.land a 7)) in
             change (Z.to_nat (Z.land a 7)) with v
         | |- context [acceptRanges (Z.shiftr ?a 4)] =>
             let v := eval cbv [acceptRanges Z.shiftr Z.shiftl Z.eqb Z.opp Pos.iter Z.div2 Pos.eqb Pos.div2]
                      in (acceptRanges (Z.shiftr a 4)) in
             change (acceptRanges (Z.shiftr a 4)) with v
         end;
  cbv iota; cbn [fst snd Nat.leb Nat.ltb length].

Lemma EncodeRune_two (k : Z) :
  0x80 ≤ k ≤ rune2Max →
  EncodeRune k = [byte (Z.lor t2 (Z.shiftr k 6)); byte (Z.lor tx (Z.land k maskx))].
Proof.
  intros Hk. unfold EncodeRune.
  destruct (Z.leb_spec 0 k); [|lia].
  destruct (Z.leb_spec k rune1Max) as [H1|H1]; [unfold rune1Max in H1; lia|].
  destruct (Z.leb_spec k rune2Max); [done|lia].
Qed.

Lemma EncodeRune_three (k : Z) :
  rune2Max < k ≤ rune3Max → ¬ (surrogateMin ≤ k ≤ surrogateMax) →
  EncodeRune k =
    [byte (Z.lor t3 (Z.shiftr k 12));
     byte (Z.lor tx (Z.land (Z.shiftr k 6) maskx));
     byte (Z.lor tx (Z.land k maskx))].
Proof.
  intros Hk Hs. unfold EncodeRune. unfold rune2Max, rune3Max in Hk.
  destruct (Z.leb_spec 0 k); [|lia].
  destruct (Z.leb_spec k rune1Max) as [H1|H1]; [unfold rune1Max in H1; lia|].
  destruct (Z.leb_spec k rune2Max) as [H2|H2]; [unfold rune2Max in H2; lia|].
  cbn [andb].
  destruct (Z.ltb_spec k 0); [lia|].
  destruct (Z.ltb_spec MaxRune k) as [H3|H3]; [unfold MaxRune in H3; lia|].
  cbn [orb].
  destruct (Z.leb_spec surrogateMin k), (Z.leb_spec k surrogateMax); cbn [andb];
    try (exfalso; apply Hs; lia).
  all: destruct (Z.leb_spec k rune3Max) as [Hr|Hr]; [done|unfold rune3Max in Hr; lia].
Qed.

Lemma EncodeRune_four (k : Z) :
  rune3Max < k ≤ MaxRune →
  EncodeRune k =
    [byte (Z.lor t4 (Z.shiftr k 18));
     byte (Z.lor tx (Z.land (Z.shiftr k 12) maskx));
     byte (Z.lor tx (Z.land (Z.shiftr k 6) maskx));
     byte (Z.lor tx (Z.land k maskx))].
Proof.
  intros Hk. unfold EncodeRune. unfold rune3Max, MaxRune in Hk.
  destruct (Z.leb_spec 0 k); [|lia].
  destruct (Z.leb_spec k rune1Max) as [H1|H1]; [unfold rune1Max in H1; lia|].
  destruct (Z.leb_spec k rune2Max) as [H2|H2]; [unfold rune2Max in H2; lia|].
  cbn [andb].
  destruct (Z.ltb_spec k 0); [lia|].
  destruct (Z.ltb_spec MaxRune k) as [H3|H3]; [unfold MaxRune in H3; lia|].
  cbn [orb].
  destruct (Z.leb_spec surrogateMin k), (Z.leb_spec k surrogateMax) as [H5|H5]; cbn [andb];
    try (unfold surrogateMax in H5; lia).
  all: destruct (Z.leb_spec k rune3Max) as [Hr|Hr]; [unfold rune3Max in Hr; lia|done].
Qed.

Lemma continuation (b lo hi : Z) :
  (b <? lo) || (hi <? b) = false → lo ≤ b ≤ hi.
Proof.
  intros [H1 H2]%orb_false_iff. apply Z.ltb_ge in H1, H2. lia.
Qed.

Ltac invalid :=
  intros [= <- <-];
  match goal with H : ¬ _ |- _ => by destruct H end.

Ltac next_byte l c rest :=
  destruct l as [|c rest];
  [cbn [length Nat.leb];
   repeat match goal with |- (if ?b then _ else _) = _ → _ => destruct b end;
   invalid|];
  cbn [length Nat.leb].

Ltac in_range c :=
  let H := fresh "Hc" in
  lazymatch goal with
  | |- context [(byteOf c <? ?lo) || (?hi <? byteOf c)] =>
      destruct ((byteOf c <? lo) || (hi <? byteOf c)) eqn:H
  end;
  [invalid|apply continuation in H; unfold locb, hicb in H].

Ltac bytes_back :=
  repeat match goal with H : _ = byteOf _ |- _ => rewrite H; clear H end;
  by rewrite !byte_byteOf.

Lemma DecodeRune_EncodeRune (s : list Ascii.ascii) (k : Z) (size : nat) :
  DecodeRuneInString s = (k, size) →
  ¬ (k = RuneError ∧ size = 1%nat) →
  s ≠ [] →
  EncodeRune k = take size s.
Proof.
  intros Hdec Hvalid Hs. destruct s as [|c0 rest0]; [done|]. clear Hs.
  revert Hdec. unfold DecodeRuneInString.
  pose proof (byteOf_range c0) as Hb0.
  destruct (first_spec _ Hb0)
    as [[H0 ->]|[->|[[H0 ->]|[[H0 ->]|[[H0 ->]|[[H0 ->]|[[H0 ->]|[[H0 ->]|[H0 ->]]]]]]]]];
    info_byte.
  - intros [= <- <-]. destruct (DecodeRuneInString_ASCII c0 rest0 H0) as [_ Hstr].
    unfold stringOfRune in Hstr. cbn [take].
    apply (f_equal String.list_ascii_of_string) in Hstr.
    by rewrite String.list_ascii_of_string_of_list_ascii in Hstr.
  - invalid.
  - next_byte rest0 c1 rest1. in_range c1. intros [= <- <-].
    destruct (two_bytes (byteOf c0) (byteOf c1)) as (Hk & E0 & E1); [lia|lia|].
    rewrite EncodeRune_two by exact Hk. cbn [take]. bytes_back.
  - next_byte rest0 c1 rest1. next_byte rest1 c2 rest2. in_range c1. in_range c2. intros [= <- <-].
    destruct (three_bytes (byteOf c0) (byteOf c1) (byteOf c2))
      as (Hk & Hs & E0 & E1 & E2); [lia..|].
    rewrite EncodeRune_three by done. cbn [take]. bytes_back.
  - next_byte rest0 c1 rest1. next_byte rest1 c2 rest2. in_range c1. in_range c2. intros [= <- <-].
    destruct (three_bytes (byteOf c0) (byteOf c1) (byteOf c2))
      as (Hk & Hs & E0 & E1 & E2); [lia..|].
    rewrite EncodeRune_three by done. cbn [take]. bytes_back.
  - next_byte rest0 c1 rest1. next_byte rest1 c2 rest2. in_range c1. in_range c2. intros [= <- <-].
    destruct (three_bytes (byteOf c0) (byteOf c1) (byteOf c2))
      as (Hk & Hs & E0 & E1 & E2); [lia..|].
    rewrite EncodeRune_three by done. cbn [take]. bytes_back.
  - next_byte rest0 c1 rest1. next_byte rest1 c2 rest2. next_byte rest2 c3 rest3.
    in_range c1. in_range c2. in_range c3. intros [= <- <-].
    destruct (four_bytes (byteOf c0) (byteOf c1) (byteOf c2) (byteOf c3))
      as (Hk & E0 & E1 & E2 & E3); [lia..|].
    rewrite EncodeRune_four by done. cbn [take]. bytes_back.
  - next_byte rest0 c1 rest1. next_byte rest1 c2 rest2. next_byte rest2 c3 rest3.
    in_range c1. in_range c2. in_range c3. intros [= <- <-].
    destruct (four_bytes (byteOf c0) (byteOf c1) (byteOf c2) (byteOf c3))
      as (Hk & E0 & E1 & E2 & E3); [lia..|].
    rewrite EncodeRune_four by done. cbn [take]. bytes_back.
  - next_byte rest0 c1 rest1. next_byte rest1 c2 rest2. next_byte rest2 c3 rest3.
    in_range c1. in_range c2. in_range c3. intros [= <- <-].
    destruct (four_bytes (byteOf c0) (byteOf c1) (byteOf c2) (byteOf c3))
      as (Hk & E0 & E1 & E2 & E3); [lia..|].
    rewrite EncodeRune_four by done. cbn [take]. bytes_back.
Qed.

Lemma string_of_list_ascii_app (a b : list Ascii.ascii) :
  String.string_of_list_ascii (a ++ b)
  = String.string_of_list_ascii a +:+ String.string_of_list_ascii b.
Proof. induction a as [|c a IH]; [reflexivity|]. cbn. by rewrite IH. Qed.

Lemma join_replicate_empty (n : nat) (rest : list string) :
  foldr String.append Go.empty (replicate n Go.empty ++ rest)
  = foldr String.append Go.empty rest.
Proof. induction n as [|n IH]; [reflexivity|]. cbn. exact IH. Qed.

(** The slice after the loop when no rune of the sequence is U+FFFD: the
    entries from [length done_] on, joined, are the bytes ranged over. *)
Lemma keys_loop_join (fuel : nat) (s : list Ascii.ascii) (done_ : list string) :
  (length s ≤ fuel)%nat →
  Forall (λ ik, ik.2 ≠ RuneError) (rangeFrom fuel (length done_) s) →
  ∃ tail : list string,
    fold_left (λ keys ik, <[ik.1 := stringOfRune ik.2]> keys)
      (rangeFrom fuel (length done_) s) (done_ ++ replicate (length s) Go.empty)
    = done_ ++ tail
    ∧ foldr String.append Go.empty tail = String.string_of_list_ascii s.
Proof.
  revert s done_. induction fuel as [|fuel IH]; intros s done_ Hfuel Hall.
  { destruct s; [|cbn in Hfuel; lia]. exists []. cbn. by rewrite app_nil_r. }
  destruct s as [|c rest].
  { exists []. cbn. by rewrite app_nil_r. }
  revert Hall. cbn [rangeFrom].
  pose proof (DecodeRuneInString_size (c :: rest) ltac:(done)) as Hsize.
  pose proof (DecodeRune_EncodeRune (c :: rest)) as Hback.
  destruct (DecodeRuneInString (c :: rest)) as [k size]. cbn [snd] in Hsize.
  specialize (Hback k size eq_refl).
  set (s := c :: rest) in *.
  intros Hall. apply Forall_cons in Hall as [Hk Hall]. cbn [snd] in Hk.
  specialize (Hback ltac:(by intros [? _]) ltac:(done)).
  cbn [fold_left fst snd].
  assert (length (drop size s) = (length s - size)%nat) as Hdrop by apply length_drop.
  assert (<[length done_ := stringOfRune k]> (done_ ++ replicate (length s) Go.empty)
          = (done_ ++ stringOfRune k :: replicate (size - 1) Go.empty)
            ++ replicate (length (drop size s)) Go.empty) as ->.
  { pose proof (insert_app_r done_ (replicate (length s) Go.empty) 0 (stringOfRune k))
      as Hins.
    rewrite Nat.add_0_r in Hins. rewrite Hins.
    replace (length s) with (S ((size - 1) + length (drop size s))) by lia.
    cbn [replicate]. cbn. rewrite replicate_add, <- app_assoc. reflexivity. }
  assert (length (done_ ++ stringOfRune k :: replicate (size - 1) Go.empty)
          = (length done_ + size)%nat) as Hlen.
  { rewrite length_app. cbn [length]. rewrite length_replicate. lia. }
  destruct (IH (drop size s) (done_ ++ stringOfRune k :: replicate (size - 1) Go.empty))
    as (tail & Hfold & Hjoin).
  { rewrite Hdrop. subst s. cbn [length] in *. lia. }
  { by rewrite Hlen. }
  rewrite Hlen in Hfold.
  exists (stringOfRune k :: replicate (size - 1) Go.empty ++ tail).
  split; [by rewrite Hfold, <- app_assoc|].
  cbn [foldr]. rewrite join_replicate_empty, Hjoin.
  unfold stringOfRune. rewrite Hback, <- string_of_list_ascii_app.
  by rewrite take_drop.
Qed.

(** X26.  When ranging over the sequence yields no U+FFFD (the sequence is
    UTF-8 and holds no U+FFFD itself), the keys of [SendKeys] and
    [SendKeysOnActiveElement], joined in their order, are the sequence byte
    for byte: every rune is sent as the bytes that encode it. *)
Theorem keysOf_join (sequence : string) :
  Forall (λ ik, ik.2 ≠ RuneError) (rangeString sequence) →
  foldr String.append Go.empty (keysOf sequence) = sequence.
Proof.
  unfold keysOf, rangeString. rewrite <- length_list_ascii_of_string.
  set (l := String.list_ascii_of_string sequence). intros Hall.
  destruct (keys_loop_join (length l) l [] (le_n _) Hall) as (tail & Hfold & Hjoin).
  cbn [length app] in *. rewrite Hfold, Hjoin.
  apply String.string_of_list_ascii_of_string.
Qed.

End KeysRoundTrip.

(** ** Sessions *)

Section NewSessions.
Import Json Webdriver Taxonomy Session.

Variable lib : Library.

(** X20.  [NewSession] posts the capabilities to [/session], an empty map
    standing for a nil [desired].  The session it returns has as its id
    what is left of the raw [sessionId] of the envelope it decoded once the
    quotes and braces at its ends are gone, and as its capabilities the
    decoded value of that envelope; and it is under that id that the later
    commands address it: [Delete] sends a DELETE without a body to
    [/session/ID]. *)
Theorem NewSession_session (w : WebDriverCore) (desired required : Capabilities_)
    (σ : Network lib) (s : Session) :
  answer (NewSession lib w desired required σ) = Some (Some s, None) →
  (∃ (buf : Go.bytes) (jr : jsonResponse) (err : bool),
     Unmarshal_jsonResponse lib buf = (jr, err)
     ∧ Status jr = 0
     ∧ Id s = Go.Trim (RawSessionId jr) ("{}" +:+ Go.dquote)
     ∧ Unmarshal_Capabilities lib (RawValue jr) = (Capabilities s, None))
  ∧ (∀ request, request ∈ requests (NewSession lib w desired required σ) →
       Method request = "POST" →
       URL request = url w +:+ "/session"
       ∧ Marshal lib
           (VMap (Some {[ "desiredCapabilities" := VMap (Some (default ∅ desired));
                          "requiredCapabilities" := VMap required ]}))
         = Ok (Body request))
  ∧ (∀ (σ' : Network lib) (request : Request),
       request ∈ requests (Delete lib w s σ') →
       Method request = "DELETE"
       ∧ URL request = url w +:+ "/session/" +:+ Id s
       ∧ Body request = Go.empty).
Proof.
  intros Hnew. split; [|split].
  - revert Hnew. unfold NewSession, newSession, reply. cbn [answer].
    destruct (returned (do (runtime lib) w _ "POST" "/session" [] σ))
      as [[[sid data]|e]|] eqn:Hdo; [| |discriminate].
    + cbn [fmap option_fmap option_map].
      destruct (Unmarshal_Capabilities lib data) as [caps [e|]] eqn:Hcaps; [discriminate|].
      cbn [fst snd]. intros [= <-].
      apply (do_Ok (runtime lib)) in Hdo as (buf & jr & err & Hdec & Hzero & -> & ->).
      exists buf, jr, err. by repeat split.
    + discriminate.
  - intros request Hin Hpost. revert Hin. unfold NewSession, newSession, reply.
    cbn [requests].
    intros [(HM & HU & HB)|[HM _]]%(sent_do_POST (runtime lib)); [|congruence].
    split; [exact HU|]. rewrite <- HB. unfold marshalParams. cbn.
    by destruct desired.
  - intros σ' request (HM & HU & HB)%(sent_do_not_POST (runtime lib)); [|done].
    split; [exact HM|]. split; [|exact HB]. rewrite HU.
    change (fmt_Sprintf (runtime lib) "/session/%s" [VString (Id s)])
      with ("/session/" +:+ (Id s +:+ Go.empty)).
    by rewrite append_empty_r.
Qed.

End NewSessions.

(** ** From [Start] to the first command *)

Section Addresses.
Import Json Webdriver Taxonomy Sys Common Session.

Variable sys : System.
Variable lib : Library.

(** X21.  After a [Start] of the Firefox driver without error, [NewSession]
    posts to [http://127.0.0.1:PORT/hub/session], where [PORT] is the port
    that was written to the profile as [webdriver_firefox_port] and the
    port that [Start] probed until the browser answered. *)
Theorem FirefoxDriver_Start_then_NewSession (fuel : nat)
    (d0 d : FirefoxDriver.FirefoxDriver) (desired required : Capabilities_)
    (σ : Network lib) (request : Request) :
  FirefoxDriver.Start sys fuel d0 = Some (d, None) →
  request ∈ requests (FirefoxDriver_NewSession lib d desired required σ) →
  Method request = "POST" →
  URL request = "http://127.0.0.1:" +:+ Go.Itoa (FirefoxDriver.Port d) +:+ "/hub/session"
  ∧ FirefoxDriver.Prefs d !! "webdriver_firefox_port" = Some (PInt (FirefoxDriver.Port d))
  ∧ (∃ written,
       FirefoxDriver.createTempProfile sys (FirefoxDriver.xpiPath d) (FirefoxDriver.Prefs d)
       = (Ok (FirefoxDriver.profilePath d), written))
  ∧ probePort sys fuel (FirefoxDriver.Port d) (FirefoxDriver.StartTimeout d) = Some None.
Proof.
  intros Hstart Hin Hpost.
  destruct (Start_success sys _ _ _ Hstart)
    as (p & path & written & pid & _ & Hp & Hc & _ & _ & Hprobe & ->).
  cbn [FirefoxDriver.Port FirefoxDriver.Prefs FirefoxDriver.StartTimeout
       FirefoxDriver.xpiPath FirefoxDriver.profilePath].
  split; [|split; [|split]].
  - revert Hin. unfold FirefoxDriver_NewSession, NewSession, newSession, reply.
    cbn [requests FirefoxDriver.core].
    intros [(HM & HU & HB)|[HM _]]%(sent_do_POST (runtime lib)); [|congruence].
    rewrite HU. cbn [url].
    change (fmt_Sprintf (runtime lib) "/session" []) with "/session".
    by rewrite !append_assoc.
  - apply lookup_insert_eq.
  - exists written. exact Hc.
  - exact Hprobe.
Qed.

(** X22.  After a chromedriver [Start] without error (either revision),
    [NewSession] posts to [http://127.0.0.1:PORT] followed by [BaseUrl] and
    [/session]; the child was launched with [-port=PORT] and, when
    [BaseUrl] is set, with [-url-base=] and that prefix: the driver and the
    server agree on the address. *)
Theorem ChromeDriver_Start_then_NewSession (fuel : nat)
    (d0 d : ChromeDriver.ChromeDriver) (desired required : Capabilities_)
    (σ : Network lib) (request : Request) :
  ChromeDriver.Start sys fuel d0 = Some (d, None)
  ∨ ChromeDriver.StartRunBrowser sys fuel d0 = Some (d, None) →
  request ∈ requests (ChromeDriver_NewSession lib d desired required σ) →
  Method request = "POST" →
  URL request
  = "http://127.0.0.1:" +:+ Go.Itoa (ChromeDriver.Port d) +:+ ChromeDriver.BaseUrl d
    +:+ "/session"
  ∧ ∃ c, ChromeDriver.cmd d = Some c
         ∧ "-port=" +:+ Go.Itoa (ChromeDriver.Port d) ∈ Args c
         ∧ (ChromeDriver.BaseUrl d ≠ Go.empty →
            "-url-base=" +:+ ChromeDriver.BaseUrl d ∈ Args c)
         ∧ (ChromeDriver.BaseUrl d = Go.empty → length (Args c) = 3%nat).
Proof.
  intros Hstart Hin Hpost.
  assert (∃ pid env lg,
            d = ChromeDriver.mkChromeDriver
                  (mkWebDriverCore ("http://127.0.0.1:" +:+ Go.Itoa (ChromeDriver.Port d0)
                                    +:+ ChromeDriver.BaseUrl d0))
                  (ChromeDriver.Port d0) (ChromeDriver.BaseUrl d0) (ChromeDriver.Threads d0)
                  (ChromeDriver.LogPath d0) (ChromeDriver.LogFile d0)
                  (ChromeDriver.StartTimeout d0) (ChromeDriver.path d0)
                  (Some (mkCmd (ChromeDriver.path d0) (ChromeDriver.switchesOf d0) env
                           (Some pid)))
                  lg) as (pid & env & lg & ->).
  { destruct Hstart as [H|H];
      [apply Chrome_Start_success in H|apply StartRunBrowser_success in H];
      destruct H as (pid & _ & _ & _ & _ & _ & _ & _ & ->); by eexists _, _, _. }
  cbn [ChromeDriver.Port ChromeDriver.BaseUrl ChromeDriver.cmd].
  split.
  - revert Hin. unfold ChromeDriver_NewSession, NewSession, newSession, reply.
    cbn [requests ChromeDriver.core].
    intros [(HM & HU & HB)|[HM _]]%(sent_do_POST (runtime lib)); [|congruence].
    rewrite HU. cbn [url].
    change (fmt_Sprintf (runtime lib) "/session" []) with "/session".
    by rewrite !append_assoc.
  - eexists. split; [reflexivity|]. cbn [Args]. unfold ChromeDriver.switchesOf.
    cbn [app]. split; [|split].
    + destruct (negb _); cbn [app]; apply elem_of_cons; by left.
    + intros Hne.
      destruct (String.eqb_spec (ChromeDriver.BaseUrl d0) Go.empty); [contradiction|].
      cbn [negb app]. do 3 (apply elem_of_cons; right). apply elem_of_cons. by left.
    + intros ->. reflexivity.
Qed.

(** X23.  When the value of the envelope does not decode as capabilities,
    [newSession] returns the session it built together with the error, and
    [NewSession] returns the error alone: the caller gets no session, while
    the server has made one, under the id that was decoded. *)
Theorem NewSession_decode_failure (w : WebDriverCore) (desired required : Capabilities_)
    (σ : Network lib) (sid : string) (data : Go.bytes) (capabilities : Capabilities_)
    (e : error) :
  returned (do (runtime lib) w
              (params {[ "desiredCapabilities" := VMap (Some (default ∅ desired));
                         "requiredCapabilities" := VMap required ]})
              "POST" "/session" [] σ)
  = Some (Ok (sid, data)) →
  Unmarshal_Capabilities lib data = (capabilities, Some e) →
  answer (newSession lib w desired required σ)
  = Some (Some (mkSession sid capabilities), Some e)
  ∧ answer (NewSession lib w desired required σ) = Some (None, Some e)
  ∧ ∃ (buf : Go.bytes) (jr : jsonResponse) (err : bool),
      Unmarshal_jsonResponse lib buf = (jr, err) ∧ Status jr = 0
      ∧ sid = Go.Trim (RawSessionId jr) ("{}" +:+ Go.dquote).
Proof.
  intros Hdo Hcaps.
  assert (answer (newSession lib w desired required σ)
          = Some (Some (mkSession sid capabilities), Some e)) as Hnew.
  { unfold newSession, reply. cbn [answer].
    assert (match desired with None => Some ∅ | Some _ => desired end
            = Some (default ∅ desired)) as -> by (by destruct desired).
    rewrite Hdo. cbn [fmap option_fmap option_map]. by rewrite Hcaps. }
  split; [exact Hnew|]. split.
  - unfold NewSession. cbn [answer]. by rewrite Hnew.
  - apply (do_Ok (runtime lib)) in Hdo as (buf & jr & err & Hdec & Hzero & Hsid & _).
    by exists buf, jr, err.
Qed.

End Addresses.

(** ** Errors of the profile *)

Section ProfileErrors.
Import Webdriver Sys FirefoxDriver.

Variable sys : System.

Lemma findExtName_errors (files : list ZipFile) (e : error) :
  findExtName sys files = Err e → ∃ text, e = errorsNew (cpferr +:+ text).
Proof.
  induction files as [|f files IH]; [discriminate|]. cbn [findExtName].
  repeat destruct_match; try discriminate; try exact IH; intros [= <-]; by eexists.
Qed.

Lemma writeExtensionFiles_errors (files : list ZipFile) (extPath : string) (e : error) :
  writeExtensionFiles sys files extPath = Some e →
  (∃ text, e = errorsNew (weferr +:+ text))
  ∨ (∃ f, f ∈ files ∧ IsDir f = true ∧ Open f = None
          ∧ os_Mkdir sys (filepath_Join sys extPath (Name f)) = Some e).
Proof.
  induction files as [|f files IH]; [discriminate|]. cbn [writeExtensionFiles].
  destruct (writeExtensionFile sys f extPath) as [e'|] eqn:Hf.
  - intros [= <-]. revert Hf. unfold writeExtensionFile.
    destruct (Open f) eqn:Ho; [intros [= <-]; left; by eexists|].
    destruct (IsDir f) eqn:Hd.
    + intros Hm. right. exists f. split; [left|]. by repeat split.
    + repeat destruct_match; try discriminate; intros [= <-]; left; by eexists.
  - intros H. destruct (IH H) as [Hw|(g & Hin & Hg)]; [by left|].
    right. exists g. split; [by right|exact Hg].
Qed.

Lemma writePrefs_errors (entries : list (string * PrefValue)) (written written' : string)
    (e : error) :
  writePrefs entries written = (written', Some e) →
  ∃ text, e = errorsNew (cpferr +:+ text).
Proof.
  revert written. induction entries as [|[k v] entries IH]; intros written;
    [discriminate|].
  cbn [writePrefs]. destruct v; try apply IH. intros [= <- <-]. by eexists.
Qed.

(** X24.  The errors of [createTempProfile] are made with [errors.New] and
    begin with [create profile failed: ] or with
    [write extension failed: ], with one exception: the error of making a
    directory of the archive comes back as the library returned it. *)
Theorem createTempProfile_errors (xpi : string) (prefs : gmap string PrefValue)
    (e : error) (written : string) :
  createTempProfile sys xpi prefs = (Err e, written) →
  (∃ text, e = errorsNew (cpferr +:+ text))
  ∨ (∃ text, e = errorsNew (weferr +:+ text))
  ∨ (∃ (files : list ZipFile) (f : ZipFile) (extPath : string),
       zip_OpenReader sys xpi = Ok files
       ∧ f ∈ files ∧ IsDir f = true ∧ Open f = None
       ∧ os_Mkdir sys (filepath_Join sys extPath (Name f)) = Some e).
Proof.
  unfold createTempProfile.
  destruct (ioutil_TempDir sys) as [profile|]; [|intros [= <- <-]; left; by eexists].
  destruct (os_Mkdir sys (filepath_Join sys profile "extensions"));
    [intros [= <- <-]; left; by eexists|].
  destruct (zip_OpenReader sys xpi) as [files|] eqn:Hzip;
    [|intros [= <- <-]; left; by eexists].
  destruct (findExtName sys files) as [extName|e'] eqn:Hname.
  2: { intros [= <- <-]. left. by eapply findExtName_errors. }
  destruct (os_Mkdir sys (filepath_Join sys (filepath_Join sys profile "extensions") extName));
    [intros [= <- <-]; left; by eexists|].
  destruct (writeExtensionFiles sys files _) as [e'|] eqn:Hfiles.
  { intros [= <- <-]. apply writeExtensionFiles_errors in Hfiles as [Hw|(f & Hin & Hd & Ho & Hm)].
    - right. by left.
    - right. right. eexists files, f, _. by repeat split. }
  destruct (os_OpenFile sys (filepath_Join sys profile "user.js"));
    [intros [= <- <-]; left; by eexists|].
  destruct (writePrefs (range sys prefs) Go.empty) as [w [e'|]] eqn:Hprefs;
    [|discriminate].
  intros [= <- <-]. left. by eapply writePrefs_errors.
Qed.

End ProfileErrors.

(** ** The preferences of the log files *)

Section LogPath.
Import Webdriver Sys FirefoxDriver Preferences UserJs.

Variable sys : System.

(** X25.  [SetLogPath] sets the four preferences of the log files to the
    paths of four files of the directory, as strings, and touches no other
    preference.  The last call wins: a call after another leaves what it
    alone would have left.  And it keeps the preferences within the types
    that [createTempProfile] writes. *)
Theorem SetLogPath_preferences (d : FirefoxDriver) (path : string) :
  Prefs (SetLogPath sys d path) !! "webdriver.log.file"
  = Some (PString (filepath_Join sys path "jsconsole.log"))
  ∧ Prefs (SetLogPath sys d path) !! "webdriver.log.driver.file"
    = Some (PString (filepath_Join sys path "driver.log"))
  ∧ Prefs (SetLogPath sys d path) !! "webdriver.log.profiler.file"
    = Some (PString (filepath_Join sys path "profiler.log"))
  ∧ Prefs (SetLogPath sys d path) !! "webdriver.log.browser.file"
    = Some (PString (filepath_Join sys path "browser.log"))
  ∧ (∀ k, k ∉ ["webdriver.log.file"; "webdriver.log.driver.file";
               "webdriver.log.profiler.file"; "webdriver.log.browser.file"] →
          Prefs (SetLogPath sys d path) !! k = Prefs d !! k)
  ∧ (∀ path', SetLogPath sys (SetLogPath sys d path') path = SetLogPath sys d path)
  ∧ (map_Forall (λ _ v, supported v = true) (Prefs d) →
     map_Forall (λ _ v, supported v = true) (Prefs (SetLogPath sys d path))).
Proof.
  assert (∀ d0 p k,
            Prefs (SetLogPath sys d0 p) !! k
            = if decide (k = "webdriver.log.browser.file")
              then Some (PString (filepath_Join sys p "browser.log"))
              else if decide (k = "webdriver.log.profiler.file")
              then Some (PString (filepath_Join sys p "profiler.log"))
              else if decide (k = "webdriver.log.driver.file")
              then Some (PString (filepath_Join sys p "driver.log"))
              else if decide (k = "webdriver.log.file")
              then Some (PString (filepath_Join sys p "jsconsole.log"))
              else Prefs d0 !! k) as Hlookup.
  { intros d0 p k. unfold SetLogPath. destruct d0. cbn [Prefs setPrefs].
    repeat case_decide; subst;
      repeat (rewrite lookup_insert_ne by done); try apply lookup_insert_eq.
    reflexivity. }
  split; [by rewrite Hlookup|]. split; [by rewrite Hlookup|].
  split; [by rewrite Hlookup|]. split; [by rewrite Hlookup|].
  split; [|split].
  - intros k Hk. rewrite Hlookup.
    repeat case_decide; subst; try reflexivity; exfalso; apply Hk;
      repeat (first [by left | right]).
  - intros path'.
    assert (Prefs (SetLogPath sys (SetLogPath sys d path') path)
            = Prefs (SetLogPath sys d path)) as Hprefs.
    { apply map_eq. intros k. rewrite !Hlookup. by repeat case_decide. }
    revert Hprefs. unfold SetLogPath. destruct d. cbn [Prefs setPrefs].
    intros ->. reflexivity.
  - intros Hd k v. rewrite Hlookup.
    repeat case_decide; try (intros [= <-]; reflexivity). apply Hd.
Qed.

End LogPath.

(** ** Runs of the supervisors *)

(** On the machine where no port accepts a listener and all else goes
    well, the new driver started with port 0 is left running on 7055. *)
Lemma Start_goes_on_with_untested_port_witness :
  ∃ d',
    FirefoxDriver.Start Scenario.allPortsTaken 8 Scenario.firefox = Some (d', None)
    ∧ FirefoxDriver.Port d' = 7055
    ∧ Sys.net_Listen Scenario.allPortsTaken (FirefoxDriver.Port d') = false
    ∧ Webdriver.url (FirefoxDriver.core d') = "http://127.0.0.1:7055/hub".
Proof.
  destruct (Start_goes_on_with_untested_port Scenario.allPortsTaken 8 Scenario.firefox
              "/tmp/webdriver042"
              (FirefoxDriver.createTempProfile Scenario.allPortsTaken "webdriver.xpi"
                 (<["webdriver_firefox_port" := Sys.PInt 7055]> Scenario.fewPrefs)).2
              4242)
    as (_ & d' & Hstart & Hport & Hlisten & _ & Hurl).
  - reflexivity.
  - reflexivity.
  - intros i _. reflexivity.
  - vm_compute. reflexivity.
  - reflexivity.
  - intros Hlog. exfalso. apply Hlog. reflexivity.
  - reflexivity.
  - exists d'. repeat split; assumption.
Defined.

(** On a machine where the browser answers the third dial, [probePort]
    returns no error after two failed rounds. *)
Lemma probePort_outcome_witness :
  Common.probePort Machines.slowBrowser 8 7057 (20 * Sys.Second) = Some None.
Proof.
  apply (proj2 (probePort_outcome Machines.slowBrowser 8 7057 (20 * Sys.Second) None)).
  exists 2%nat. split; [lia|]. split.
  - intros j Hj. assert (j = 0 ∨ j = 1)%nat as [-> | ->] by lia;
      (split; [reflexivity|]); vm_compute; discriminate.
  - left. split; reflexivity.
Defined.

(** With every port taken, the port block reports no error and keeps
    7055. *)
Lemma allocatePort_exhausted_witness :
  FirefoxDriver.allocatePort Scenario.allPortsTaken 8 Scenario.firefox
  = Some (FirefoxDriver.setPort Scenario.firefox 7055, None)
  ∧ Sys.net_Listen Scenario.allPortsTaken 7055 = false.
Proof.
  split; [|reflexivity].
  apply (allocatePort_exhausted Scenario.allPortsTaken 8 Scenario.firefox).
  - reflexivity.
  - reflexivity.
  - intros i _. reflexivity.
Defined.

(** With the mutex port held, [Start] gives up after the timeout and
    leaves port 7055; a second [Start], on any machine, goes on with
    it. *)
Lemma Start_allocates_once_witness :
  FirefoxDriver.Start Machines.mutexHeld 8 Scenario.firefox
  = Some (FirefoxDriver.setPort Scenario.firefox 7055,
          Some (Webdriver.errorsNew "timeout expired trying to lock mutex port"))
  ∧ ∀ (sys' : Sys.System) (fuel' : nat),
      FirefoxDriver.allocatePort sys' fuel' (FirefoxDriver.setPort Scenario.firefox 7055)
      = Some (FirefoxDriver.setPort Scenario.firefox 7055, None).
Proof.
  assert (FirefoxDriver.Start Machines.mutexHeld 8 Scenario.firefox
          = Some (FirefoxDriver.setPort Scenario.firefox 7055,
                  Some (Webdriver.errorsNew "timeout expired trying to lock mutex port")))
    as Hstart by (vm_compute; reflexivity).
  split; [exact Hstart|].
  exact (proj1 (proj2 (Start_allocates_once Machines.mutexHeld 8 Scenario.firefox _ _
                         Hstart))).
Defined.

(** The driver [Scenario.firefox] after its [Start] on the machine where
    all goes well. *)
Lemma Start_postconditions_witness :
  FirefoxDriver.Prefs
    (Scenario.firefoxAfterStart (Some 4242) "http://127.0.0.1:7057/hub")
  = <["webdriver_firefox_port" := Sys.PInt 7057]> Scenario.fewPrefs
  ∧ Webdriver.url
      (FirefoxDriver.core
         (Scenario.firefoxAfterStart (Some 4242) "http://127.0.0.1:7057/hub"))
    = "http://127.0.0.1:7057/hub"
  ∧ Sys.ioutil_TempDir Scenario.healthy = Webdriver.Ok "/tmp/webdriver042".
Proof.
  assert (FirefoxDriver.Start Scenario.healthy 8 Scenario.firefox
          = Some (Scenario.firefoxAfterStart (Some 4242) "http://127.0.0.1:7057/hub", None))
    as Hstart by (vm_compute; reflexivity).
  destruct (Start_postconditions Scenario.healthy 8 Scenario.firefox _ Hstart)
    as (_ & Hprefs & Hurl & Hdir & _).
  split; [exact Hprefs|]. split; [exact Hurl|exact Hdir].
Defined.

(** [Stop] after that [Start], and a second [Stop]. *)
Lemma Stop_after_Start_witness :
  ∃ d2,
    FirefoxDriver.Stop
      (Scenario.firefoxAfterStart (Some 4242) "http://127.0.0.1:7057/hub")
    = (d2, FirefoxDriver.Returned None,
       [Sys.Signal 4242; Sys.RemoveAll "/tmp/webdriver042"])
    ∧ FirefoxDriver.Stop d2
      = (d2, FirefoxDriver.Returned
               (Some (Webdriver.errorsNew "stop failed: firefoxdriver not running")), []).
Proof.
  assert (FirefoxDriver.Start Scenario.healthy 8 Scenario.firefox
          = Some (Scenario.firefoxAfterStart (Some 4242) "http://127.0.0.1:7057/hub", None))
    as Hstart by (vm_compute; reflexivity).
  destruct (Stop_after_Start Scenario.healthy 8 Scenario.firefox _ Hstart)
    as (pid & path & Hpid & Hpath & Hstop & Hagain).
  injection Hpid as <-. injection Hpath as <-.
  eexists. split; [exact Hstop|exact Hagain].
Defined.

(** The chromedriver: [Start], [Stop], [Start] again. *)
Lemma Chrome_Stop_then_Start_witness :
  ChromeDriver.Stop (Scenario.chromeAfterStart (Some 4242))
  = (ChromeDriver.setCmd (Scenario.chromeAfterStart (Some 4242)) None,
     ChromeDriver.Returned None, [Sys.Signal 4242])
  ∧ ChromeDriver.Start Scenario.healthy 8
      (ChromeDriver.setCmd (Scenario.chromeAfterStart (Some 4242)) None)
    = Some (Scenario.chromeAfterStart (Some 4242), None).
Proof.
  assert (ChromeDriver.Start Scenario.healthy 8 Scenario.chrome
          = Some (Scenario.chromeAfterStart (Some 4242), None))
    as Hstart by (vm_compute; reflexivity).
  destruct (Chrome_Stop_then_Start Scenario.healthy 8 Scenario.chrome _ (or_introl Hstart))
    as ((pid & Hpid & Hstop) & Hagain & _).
  injection Hpid as <-.
  split; [exact Hstop|exact (Hagain Hstart)].
Defined.

(** The file of [LogFile] cannot be opened: the chromedriver was launched,
    and the driver does not hold it. *)
Lemma StartRunBrowser_log_file_failure_witness :
  ∃ d',
    ChromeDriver.StartRunBrowser (Machines.readOnly "chrome.out") 8
      Machines.chromeWithLogFile
    = Some (d', Some (Webdriver.errorsNew "chromedriver start failed: permission denied"))
    ∧ ChromeDriver.cmd d' = None
    ∧ Sys.cmd_Start (Machines.readOnly "chrome.out") = Webdriver.Ok 4242.
Proof.
  destruct (StartRunBrowser_log_file_failure (Machines.readOnly "chrome.out") 8
              Machines.chromeWithLogFile 4242 (Webdriver.libError "permission denied")
              eq_refl (or_intror eq_refl) eq_refl eq_refl eq_refl
              ltac:(discriminate) eq_refl)
    as (d' & Hstart & Hcmd & _ & _).
  exists d'. split; [exact Hstart|]. split; [exact Hcmd|reflexivity].
Defined.

(** An archive whose first entry is a script and whose second and third
    are named [install.rdf]: the second gives the name. *)
Lemma findExtName_first_witness :
  FirefoxDriver.findExtName Scenario.healthy Machines.manifestSecond
  = FirefoxDriver.findExtName Scenario.healthy
      [Sys.mkZipFile "install.rdf" None (Webdriver.Ok "<RDF/>") false].
Proof.
  refine (proj2 (findExtName_first Scenario.healthy
                   [Sys.mkZipFile "components/driver.js" None (Webdriver.Ok "// driver") false]
                   _)
            (Sys.mkZipFile "install.rdf" None (Webdriver.Ok "<RDF/>") false)
            [Sys.mkZipFile "install.rdf" None (Webdriver.Ok "<other/>") false] eq_refl).
  constructor; [discriminate|constructor].
Defined.

(** ** Runs of the classifier and of the transport *)

(** Firefox answers HTTP 500 with inner status 13 and a value that is a
    JSON string: the message keeps the quotes. *)
Lemma parseError_message_of_other_value_witness :
  Webdriver.parseError (Scenario.scripted Scenario.jsonTexts []) 500
    (Webdriver.mkJsonResponse Go.empty 13 (Scenario.q "boom"))
  = Webdriver.mkCommandError 13 "500: Failed Command" (Scenario.q "boom")
      Go.empty Go.empty [].
Proof.
  refine (parseError_message_of_other_value (Scenario.scripted Scenario.jsonTexts []) 500
            (Webdriver.mkJsonResponse Go.empty 13 (Scenario.q "boom")) _ _).
  - simpl. lia.
  - intros members. discriminate.
Defined.

(** [GET /status] answered by HTTP 404 with a page. *)
Lemma do_error_text_without_inner_status_witness :
  ∃ e,
    Webdriver.returned
      (Webdriver.do Scenario.server Scenario.hub Webdriver.paramsNil "GET" "/status" []
         Machines.answersNotFound)
    = Some (Webdriver.Err e)
    ∧ Webdriver.errorString e
      = "404: Unknown command/Resource Not Found: status code not specified".
Proof.
  refine (do_error_text_without_inner_status Scenario.server Scenario.hub
            Webdriver.paramsNil "GET" "/status" [] Machines.answersNotFound
            (Webdriver.mkResponse 404 Scenario.noLocation (Webdriver.Ok "<html>"))
            "<html>" Webdriver.zeroJsonResponse true _ _ _ _ _ _).
  - left. reflexivity.
  - eapply Taxonomy.receives_answer; reflexivity.
  - reflexivity.
  - reflexivity.
  - simpl. lia.
  - reflexivity.
Defined.

(** HTTP 500, inner status 13, the value [{"message":"boom"}]. *)
Lemma parseError_text_witness :
  Webdriver.Error
    (Webdriver.parseError (Scenario.scripted Scenario.jsonTexts []) 500
       (Webdriver.mkJsonResponse Go.empty 13 Scenario.plainValue))
  = "500: Failed Command: An unknown server-side error occurred while processing the command.: boom".
Proof.
  refine (parseError_text (Scenario.scripted Scenario.jsonTexts []) 500 13
            (Webdriver.mkJsonResponse Go.empty 13 Scenario.plainValue) "boom"
            "An unknown server-side error occurred while processing the command."
            _ _ _ _ _ _).
  - lia.
  - reflexivity.
  - lia.
  - lia.
  - vm_compute. reflexivity.
  - reflexivity.
Defined.

(** The raw session id ["abc"] comes back as [abc]. *)
Lemma do_session_id_bare_witness :
  Webdriver.returned
    (Webdriver.do Scenario.server Scenario.hub Webdriver.paramsNil "GET" "/status" []
       Scenario.answersSession)
  = Some (Webdriver.Ok ("abc", "{}"))
  ∧ ∀ c, head (String.list_ascii_of_string "abc") = Some c
         ∨ last (String.list_ascii_of_string "abc") = Some c →
         Go.inCutset ("{}" +:+ Go.dquote) c = false.
Proof.
  assert (Webdriver.returned
            (Webdriver.do Scenario.server Scenario.hub Webdriver.paramsNil "GET" "/status" []
               Scenario.answersSession)
          = Some (Webdriver.Ok ("abc", "{}"))) as Hdo by reflexivity.
  split; [exact Hdo|].
  exact (proj2 (do_session_id_bare Scenario.server Scenario.hub Webdriver.paramsNil
                  "GET" "/status" [] Scenario.answersSession "abc" "{}" Hdo)).
Defined.

(** ** Runs of the commands *)

(** An envelope without a value makes [Screenshot] panic; the value
    ["aGk="] is decoded from [aGk=]. *)
Lemma Screenshot_of_value_witness :
  Session.answer (Session.Screenshot Runs.server Runs.started Runs.abc
                    (Runs.answers Runs.bareBody))
  = Some Session.Panicked
  ∧ Session.answer (Session.Screenshot Runs.server Runs.started Runs.abc
                      (Runs.answers Runs.imageBody))
    = Some (Session.Returned ("hi", None)).
Proof.
  split.
  - refine (Screenshot_of_value Runs.server Runs.started Runs.abc
              (Runs.answers Runs.bareBody)
              (Webdriver.mkResponse 200 Scenario.noLocation (Webdriver.Ok Runs.bareBody))
              Runs.bareBody Runs.bareEnvelope false _ _ _ _ _ _).
    + eapply Taxonomy.receives_answer; reflexivity.
    + reflexivity.
    + reflexivity.
    + intros [H _]. discriminate H.
    + simpl. lia.
    + reflexivity.
  - refine (Screenshot_of_value Runs.server Runs.started Runs.abc
              (Runs.answers Runs.imageBody)
              (Webdriver.mkResponse 200 Scenario.noLocation (Webdriver.Ok Runs.imageBody))
              Runs.imageBody Runs.imageEnvelope false _ _ _ _ _ _).
    + eapply Taxonomy.receives_answer; reflexivity.
    + reflexivity.
    + reflexivity.
    + intros [H _]. discriminate H.
    + simpl. lia.
    + reflexivity.
Defined.

(** On the Firefox driver started on port 7057, [IMEDeactivate] of the
    session [abc] asks for [.../hubsession/abc/ime/deactivate]. *)
Lemma IME_requests_witness :
  Forall (λ request,
            Webdriver.Method request = "GET"
            ∧ Webdriver.URL request
              = "http://127.0.0.1:7057/hubsession/abc/ime/deactivate")
    (Session.requests
       (Session.IMEDeactivate Runs.server Runs.started Runs.abc
          (Runs.answers Scenario.sessionBody)))
  ∧ length (Session.requests
              (Session.IMEDeactivate Runs.server Runs.started Runs.abc
                 (Runs.answers Scenario.sessionBody))) = 1%nat.
Proof.
  split; [|reflexivity].
  apply Forall_forall. intros request.
  exact (proj1 (proj2 (proj2 (proj2
           (IME_requests Runs.server Runs.started Runs.abc Go.empty
              (Runs.answers Scenario.sessionBody) request))))).
Defined.

(** Two elements found from the session [abc]. *)
Lemma FindElements_elements_witness :
  Session.answer (Session.FindElements Runs.server Runs.started Runs.abc "css selector"
                    "a" (Runs.answers Runs.elementsBody))
  = Some ([Session.mkWebElement (Some Runs.abc) "e1";
           Session.mkWebElement (Some Runs.abc) "e2"], None).
Proof.
  refine (proj1 (FindElements_elements Runs.server Runs.started Runs.abc "css selector" "a"
                   (Runs.answers Runs.elementsBody) "abc" Runs.elementsValue ["e1"; "e2"]
                   _ _)).
  - reflexivity.
  - reflexivity.
Defined.

(** A pointer to an element is refused as a frame id. *)
Lemma FocusOnFrame_frame_id_witness :
  Session.FocusOnFrame Runs.server Runs.started Runs.abc (Session.VOther "*webdriver.WebElement")
    (Runs.answers Scenario.sessionBody)
  = Session.mkReply
      (Some (Some (Webdriver.errorsNew "invalid frame, must be string|int|nil|WebElement")))
      (Runs.answers Scenario.sessionBody) [].
Proof.
  exact (FocusOnFrame_frame_id Runs.server Runs.started Runs.abc
           (Session.VOther "*webdriver.WebElement") (Runs.answers Scenario.sessionBody)).
Defined.

(** The four bytes of [h], e with an acute accent, [y] give four keys, the
    third of them empty. *)
Lemma keysOf_runes_witness :
  String.length Runs.accented = 4%nat
  ∧ length (Session.keysOf Runs.accented) = 4%nat
  ∧ Utf8.rangeString Runs.accented = [(0%nat, 0x68); (1%nat, 0xE9); (3%nat, 0x79)]
  ∧ Session.keysOf Runs.accented !! 1%nat = Some Runs.eAcute
  ∧ Session.keysOf Runs.accented !! 2%nat = Some Go.empty.
Proof.
  destruct (keysOf_runes Runs.accented) as (Hlen & _ & Hat & Hempty & _).
  split; [reflexivity|]. split; [exact Hlen|]. split; [reflexivity|]. split.
  - apply (Hat 1%nat 0xE9). vm_compute. right. left.
  - apply Hempty; [vm_compute; lia|].
    intros k Hin. vm_compute in Hin.
    repeat (apply elem_of_cons in Hin as [Hin|Hin]; [discriminate Hin|]).
    by apply elem_of_nil in Hin.
Defined.

(** The keys of [hey]. *)
Lemma keysOf_ASCII_witness :
  Session.keysOf "hey" = ["h"; "e"; "y"].
Proof.
  apply (keysOf_ASCII "hey").
  repeat constructor.
Defined.

(** On the started Firefox driver, [POST /session] is answered by a
    redirect and then by the envelope of the session [abc]; [Delete] then
    asks for [.../hub/session/abc]. *)
Lemma NewSession_session_witness :
  Session.answer (Session.NewSession Runs.server Runs.started None None Runs.answersSeeOther)
  = Some (Some Runs.abc, None)
  ∧ ∀ request,
      request ∈ Session.requests
                  (Session.Delete Runs.server Runs.started Runs.abc
                     (Runs.answers Scenario.sessionBody)) →
      Webdriver.Method request = "DELETE"
      ∧ Webdriver.URL request = "http://127.0.0.1:7057/hub/session/abc"
      ∧ Webdriver.Body request = Go.empty.
Proof.
  assert (Session.answer
            (Session.NewSession Runs.server Runs.started None None Runs.answersSeeOther)
          = Some (Some Runs.abc, None)) as Hnew by reflexivity.
  split; [exact Hnew|].
  exact (proj2 (proj2 (NewSession_session Runs.server Runs.started None None
                         Runs.answersSeeOther Runs.abc Hnew))
           (Runs.answers Scenario.sessionBody)).
Defined.

(** The Firefox driver started on the machine where all goes well posts
    its new session to port 7057, the port of its profile. *)
Lemma FirefoxDriver_Start_then_NewSession_witness :
  Forall (λ request,
            Webdriver.Method request = "POST" →
            Webdriver.URL request = "http://127.0.0.1:7057/hub/session")
    (Session.requests
       (Session.FirefoxDriver_NewSession Runs.server
          (Scenario.firefoxAfterStart (Some 4242) "http://127.0.0.1:7057/hub")
          None None Runs.answersSeeOther))
  ∧ FirefoxDriver.Prefs (Scenario.firefoxAfterStart (Some 4242) "http://127.0.0.1:7057/hub")
    !! "webdriver_firefox_port" = Some (Sys.PInt 7057).
Proof.
  assert (FirefoxDriver.Start Scenario.healthy 8 Scenario.firefox
          = Some (Scenario.firefoxAfterStart (Some 4242) "http://127.0.0.1:7057/hub", None))
    as Hstart by (vm_compute; reflexivity).
  split.
  - apply Forall_forall. intros request Hin Hpost.
    exact (proj1 (FirefoxDriver_Start_then_NewSession Scenario.healthy Runs.server 8
                    Scenario.firefox _ None None Runs.answersSeeOther request
                    Hstart Hin Hpost)).
  - reflexivity.
Defined.

(** The chromedriver started on port 9515. *)
Lemma ChromeDriver_Start_then_NewSession_witness :
  Forall (λ request,
            Webdriver.Method request = "POST" →
            Webdriver.URL request = "http://127.0.0.1:9515/session")
    (Session.requests
       (Session.ChromeDriver_NewSession Runs.server
          (Scenario.chromeAfterStart (Some 4242)) None None Runs.answersSeeOther))
  ∧ "-port=9515" ∈ ["-port=9515"; "-log-path=chromedriver.log"; "-http-threads=4"].
Proof.
  assert (ChromeDriver.Start Scenario.healthy 8 Scenario.chrome
          = Some (Scenario.chromeAfterStart (Some 4242), None))
    as Hstart by (vm_compute; reflexivity).
  split.
  - apply Forall_forall. intros request Hin Hpost.
    exact (proj1 (ChromeDriver_Start_then_NewSession Scenario.healthy Runs.server 8
                    Scenario.chrome _ None None Runs.answersSeeOther request
                    (or_introl Hstart) Hin Hpost)).
  - left.
Defined.

(** The server made the session [abc], but its value [[]] is no map of
    capabilities. *)
Lemma NewSession_decode_failure_witness :
  Session.answer
    (Session.NewSession Runs.server Runs.started None None (Runs.answers Runs.listBody))
  = Some (None, Some (Webdriver.libError "json: cannot unmarshal array into Go value"))
  ∧ Session.answer
      (Session.newSession Runs.server Runs.started None None (Runs.answers Runs.listBody))
    = Some (Some (Session.mkSession "abc" None),
            Some (Webdriver.libError "json: cannot unmarshal array into Go value")).
Proof.
  destruct (NewSession_decode_failure Runs.server Runs.started None None
              (Runs.answers Runs.listBody) "abc" "[]" None
              (Webdriver.libError "json: cannot unmarshal array into Go value") eq_refl eq_refl)
    as (Hnew & HNew & _).
  split; [exact HNew|exact Hnew].
Defined.

(** A preference of type [float64] makes the profile fail with an error of
    the first kind. *)
Lemma createTempProfile_errors_witness :
  (∃ text,
     Webdriver.errorsNew
       (FirefoxDriver.cpferr +:+ "unexpected preference type: layout.css.devPixelsPerPx")
     = Webdriver.errorsNew (FirefoxDriver.cpferr +:+ text))
  ∨ (∃ text,
       Webdriver.errorsNew
         (FirefoxDriver.cpferr +:+ "unexpected preference type: layout.css.devPixelsPerPx")
       = Webdriver.errorsNew (FirefoxDriver.weferr +:+ text))
  ∨ (∃ (files : list Sys.ZipFile) (f : Sys.ZipFile) (extPath : string),
       Sys.zip_OpenReader Scenario.healthy "webdriver.xpi" = Webdriver.Ok files
       ∧ f ∈ files ∧ Sys.IsDir f = true ∧ Sys.Open f = None
       ∧ Sys.os_Mkdir Scenario.healthy (Sys.filepath_Join Scenario.healthy extPath (Sys.Name f))
         = Some (Webdriver.errorsNew
                   (FirefoxDriver.cpferr
                    +:+ "unexpected preference type: layout.css.devPixelsPerPx"))).
Proof.
  refine (createTempProfile_errors Scenario.healthy "webdriver.xpi" Scenario.floatPrefs
            (Webdriver.errorsNew
               (FirefoxDriver.cpferr
                +:+ "unexpected preference type: layout.css.devPixelsPerPx"))
            ((FirefoxDriver.createTempProfile Scenario.healthy "webdriver.xpi"
                Scenario.floatPrefs).2) _).
  vm_compute. reflexivity.
Defined.

(** The four bytes of [h], e with an acute accent, [y] come back from the
    four keys. *)
Lemma keysOf_join_witness :
  Utf8.rangeString Runs.accented = [(0%nat, 0x68); (1%nat, 0xE9); (3%nat, 0x79)]
  ∧ foldr String.append Go.empty (Session.keysOf Runs.accented) = Runs.accented.
Proof.
  split; [reflexivity|].
  apply (keysOf_join Runs.accented).
  repeat constructor; discriminate.
Defined.
